(** * pg-promise, [lib/database.js]

    A shallow embedding of the [Database] protocol: connection contexts,
    the generic query methods, [connect]/[done], tasks and transactions
    ([taskProcessor]), the protocol extender ([extend]) and the
    duplicate-object guard ([checkForDuplicates]).

    Promises are modelled by their settlement ([Resolved]/[Rejected]) and
    a promise chain is run in source order; a synchronous [throw] is kept
    apart from a rejected promise ([Throw] versus [Normal (Rejected _)]).
    Everything observable from outside (pool acquisitions, releases,
    statements sent to the driver, the extension event, console warnings)
    is appended to a trace. *)

From Stdlib Require Import ZArith.
From stdpp Require Import gmap strings list fin_maps.

Local Open Scope Z_scope.
Local Set Warnings "-register-all".

(** ** JavaScript values *)

Inductive ErrorKind := KError | KTypeError | KQueryResultError.

Inductive value :=
| VUndefined
| VNull
| VBool (b : bool)
| VNum (z : Z)
| VStr (s : string)
| VFunction (name : string) (tag : value) (code : nat)
| VObject (id : nat)
| VClient (id : nat)
| VArray (items : list value)
| VFuncDesc (funcName : value)
| VEnvelope (rows : list value)
| VStreamed (processed : nat)
| VError (kind : ErrorKind) (message : string).

(** [typeof v === 'function'] *)
Definition is_function (v : value) : bool :=
  match v with VFunction _ _ _ => true | _ => false end.

(** [v !== undefined] *)
Definition is_defined (v : value) : bool :=
  match v with VUndefined => false | _ => true end.

(** ** Settlements and completions *)

Inductive Promise (A : Type) :=
| Resolved (a : A)
| Rejected (e : value).
Arguments Resolved {A} a.
Arguments Rejected {A} e.

Inductive Completion (A : Type) :=
| Normal (a : A)
| Throw (e : value).
Arguments Normal {A} a.
Arguments Throw {A} e.

(** ** The world: contexts on the heap, the trace, module-level variables *)

Inductive Method := Pool | Direct.

Inductive Event :=
| EvAcquire (method : Method) (ctx : nat)
| EvRelease (client : nat)
| EvDriver (client : nat) (query values : value)
| EvExtend (obj : nat)
| EvWarn (cnKey : string)
| EvOnError (native : bool).

Record Options := { noWarnings : bool; pgNative : bool }.

Record Config := { cfg_options : Options }.

(** The object a connection promise resolves with: [{client, done, isFresh}];
    [db.done()] is the event [EvRelease client]. *)
Record Db := { client : nat; isFresh : bool }.

(** Fields of a [ConnectionContext] object, together with the two fields
    [taskProcessor] adds to it ([context], [cb]). The nesting level is an
    integer when present; JavaScript numbers are exact on the integers a
    nesting depth can take. *)
Record ConnectionContext := {
  cn : value;
  dc : value;
  options : Options;
  db : option Db;
  txLevel : option Z;
  context : option value;
  cb : value
}.

Record World := {
  heap : gmap nat ConnectionContext;
  nextId : nat;
  trace : list Event;
  dbObjects : gmap string bool;
  jsHandled : bool;
  nativeHandled : bool
}.

Definition M (A : Type) : Type := World -> Completion A * World.

#[global] Instance M_ret : MRet M := fun A a w => (Normal a, w).

#[global] Instance M_bind : MBind M := fun A B f m w =>
  match m w with
  | (Normal a, w') => f a w'
  | (Throw e, w') => (Throw e, w')
  end.

Definition throw {A : Type} (e : value) : M A := fun w => (Throw e, w).

Definition get_world : M World := fun w => (Normal w, w).

Definition log (ev : Event) : M unit := fun w =>
  (Normal tt,
   {| heap := heap w; nextId := nextId w; trace := trace w ++ [ev];
      dbObjects := dbObjects w; jsHandled := jsHandled w;
      nativeHandled := nativeHandled w |}).

(** A fresh object identity. *)
Definition fresh : M nat := fun w =>
  (Normal (nextId w),
   {| heap := heap w; nextId := S (nextId w); trace := trace w;
      dbObjects := dbObjects w; jsHandled := jsHandled w;
      nativeHandled := nativeHandled w |}).

Definition blank : ConnectionContext :=
  {| cn := VUndefined; dc := VUndefined;
     options := {| noWarnings := false; pgNative := false |};
     db := None; txLevel := None; context := None; cb := VUndefined |}.

(** Reading the object at an address. Addresses only come from [fresh], so
    the default is never what a caller of this module sees. *)
Definition ctx_at (w : World) (r : nat) : ConnectionContext :=
  default blank (heap w !! r).

Definition ctx_get (r : nat) : M ConnectionContext := fun w =>
  (Normal (ctx_at w r), w).

Definition ctx_put (r : nat) (c : ConnectionContext) : M unit := fun w =>
  (Normal tt,
   {| heap := <[r := c]> (heap w); nextId := nextId w; trace := trace w;
      dbObjects := dbObjects w; jsHandled := jsHandled w;
      nativeHandled := nativeHandled w |}).

Definition set_db (d : option Db) (c : ConnectionContext) : ConnectionContext :=
  {| cn := cn c; dc := dc c; options := options c; db := d;
     txLevel := txLevel c; context := context c; cb := cb c |}.

Definition set_txLevel (l : option Z) (c : ConnectionContext) : ConnectionContext :=
  {| cn := cn c; dc := dc c; options := options c; db := db c;
     txLevel := l; context := context c; cb := cb c |}.

Definition set_context (t : option value) (c : ConnectionContext) : ConnectionContext :=
  {| cn := cn c; dc := dc c; options := options c; db := db c;
     txLevel := txLevel c; context := t; cb := cb c |}.

Definition set_cb (f : value) (c : ConnectionContext) : ConnectionContext :=
  {| cn := cn c; dc := dc c; options := options c; db := db c;
     txLevel := txLevel c; context := context c; cb := f |}.

(** ** Promise chaining *)

(** What the completion of a handler makes of the promise [then] or
    [catch] returns: the promise the handler returned, or a rejection with
    what it threw. *)
Definition settle {A : Type} (c : Completion (Promise A)) : Promise A :=
  match c with
  | Normal p => p
  | Throw e => Rejected e
  end.

(** [p.then(f)]: [f] runs on a resolved [p]; a rejected [p] skips [f]. *)
Definition then_ {A B : Type} (p : Promise A) (f : A -> M (Promise B))
  : M (Promise B) := fun w =>
  match p with
  | Resolved a => let (c, w') := f a w in (Normal (settle c), w')
  | Rejected e => (Normal (Rejected e), w)
  end.

(** [p.catch(g)]: [g] runs on a rejected [p]; a resolved [p] passes. *)
Definition catch_ {A : Type} (p : Promise A) (g : value -> M (Promise A))
  : M (Promise A) := fun w =>
  match p with
  | Resolved a => (Normal (Resolved a), w)
  | Rejected e => let (c, w') := g e w in (Normal (settle c), w')
  end.

(** ** [lib/cnContext.js] *)

(** Modelled from the spec: [lib/cnContext.js] (the [ConnectionContext]
    constructor, required as [$npm.context]) is not among the sources. A
    context is created from the connection target, the database-context
    tag and the options, with no bound connection and no nesting level. *)
Definition ctx_new (cn0 dc0 : value) (opts : Options) : M nat :=
  r ← fresh;
  ctx_put r {| cn := cn0; dc := dc0; options := opts; db := None;
               txLevel := None; context := None; cb := VUndefined |};;
  mret r.

(** Modelled from the spec: [ctx.connect(db)] of the absent
    [lib/cnContext.js] binds the obtained connection into the context. *)
Definition ctx_connect (r : nat) (d : Db) : M unit :=
  c ← ctx_get r;
  ctx_put r (set_db (Some d) c).

(** Modelled from the spec: [ctx.disconnect()] of the absent
    [lib/cnContext.js] returns the bound connection ([db.done()]) and
    leaves the context unbound, so that the handle is non-null exactly
    while the context is connected. On a context that holds no connection
    there is nothing to return: [Database.query] and [taskProcessor] call
    it from their [catch] handler also when the acquisition itself
    failed, and still reject with the acquisition error. *)
Definition ctx_disconnect (r : nat) : M unit :=
  c ← ctx_get r;
  match db c with
  | Some d => log (EvRelease (client d));; ctx_put r (set_db None c)
  | None => mret tt
  end.

(** Modelled from the spec: [ctx.clone()] of the absent
    [lib/cnContext.js] makes a new context object for a nested task or
    transaction. It takes over the target, the database-context tag and
    the options. Its connection binding and its nesting level are fields
    of its own, so that what happens to the clone later does not reach
    the parent; they start from the parent's values, as the engine needs
    it: a nested invocation reuses the connection its caller holds and
    counts its depth from the caller's ([taskProcessor] reads [taskCtx.db]
    and [taskCtx.txLevel] of the fresh clone for that). *)
Definition ctx_clone (r : nat) : M nat :=
  c ← ctx_get r;
  r' ← fresh;
  ctx_put r' {| cn := cn c; dc := dc c; options := options c; db := db c;
                txLevel := txLevel c; context := None; cb := VUndefined |};;
  mret r'.

(** ** Protocol objects

    The objects [extend] works on: the root [Database] object, the handle
    [connect] resolves with, and the object of a task or transaction. An
    object has an identity, the context its methods close over, the
    [Database] closure it was made in ([cn], [dc], [config]), its table of
    properties and the state [utils.lock] left it in. *)

Inductive Kind := KRoot | KHandle | KTask.

(** The state [utils.lock] leaves an object in: untouched, with the
    properties it had at the first lock read-only (their names are kept),
    or frozen. *)
Inductive LockState :=
| Open
| Locked (readonly : gset string)
| Frozen.

Inductive Member :=
| MFunction (name : string)
| MData (v : value)
| MConfig (c : Config).

Record Protocol := {
  oid : nat;
  okind : Kind;
  octx : nat;
  env_cn : value;
  env_dc : value;
  env_config : Config;
  members : gmap string Member;
  task_ctx : gmap string value;
  lock_state : LockState
}.

Definition with_members (m : gmap string Member) (o : Protocol) : Protocol :=
  {| oid := oid o; okind := okind o; octx := octx o; env_cn := env_cn o;
     env_dc := env_dc o; env_config := env_config o; members := m;
     task_ctx := task_ctx o; lock_state := lock_state o |}.

Definition with_lock (l : LockState) (o : Protocol) : Protocol :=
  {| oid := oid o; okind := okind o; octx := octx o; env_cn := env_cn o;
     env_dc := env_dc o; env_config := env_config o; members := members o;
     task_ctx := task_ctx o; lock_state := l |}.

Definition with_task_ctx (t : gmap string value) (o : Protocol) : Protocol :=
  {| oid := oid o; okind := okind o; octx := octx o; env_cn := env_cn o;
     env_dc := env_dc o; env_config := env_config o; members := members o;
     task_ctx := t; lock_state := lock_state o |}.

(** [this !== obj] compares object identities. *)
Definition same_object (this : value) (o : Protocol) : bool :=
  match this with
  | VObject i => Nat.eqb i (oid o)
  | _ => false
  end.

(** Whether the property [name] can be set on the object: any property
    of an open object; on a locked object a property that was not there
    when it was locked, so that properties can still be added; none on a
    frozen object. *)
Definition writable (o : Protocol) (name : string) : bool :=
  match lock_state o with
  | Open => true
  | Locked readonly => bool_decide (name ∉ readonly)
  | Frozen => false
  end.

(** [obj.name = m] in strict mode (the file is ['use strict']): the
    assignment throws a [TypeError] on an object that refuses it. *)
Definition assign (name : string) (m : Member) (o : Protocol) : M Protocol :=
  if writable o name then mret (with_members (<[name := m]> (members o)) o)
  else throw (VError KTypeError "Cannot assign to read only property").

(** A write attempted by code outside this module: refused writes leave
    the object as it is. *)
Definition try_assign (o : Protocol) (kv : string * Member) : Protocol :=
  if writable o kv.1 then with_members (<[kv.1 := kv.2]> (members o)) o
  else o.

(** Modelled from the spec: [utils.lock(obj, freeze, options)] of the
    absent [lib/utils.js], read with the comments at its two calls in
    [extend]. The first call ("lock all default properties to read-only,
    to prevent override by the client") makes the properties the object
    has at that moment read-only: they can no longer be overwritten, and
    the object still takes new properties, which is what the extension
    event that follows is for ("extend the protocol"). The second call,
    with [freeze], freezes the object permanently: from then on no
    property can be added or overwritten. *)
Definition utils_lock (o : Protocol) (freeze : bool) (opts : Options) : Protocol :=
  with_lock (if freeze then Frozen else Locked (dom (members o))) o.

(** Modelled from the spec: [utils.addReadProp(obj, name, value)] of the
    absent [lib/utils.js], on the public [ctx] object of a task. That
    object is a property value of the task object, not the task object:
    [taskProcessor] still writes to it after [extend] has frozen the
    task object. *)
Definition addReadProp_ctx (o : Protocol) (name : string) (v : value) : Protocol :=
  with_task_ctx (<[name := v]> (task_ctx o)) o.

(** ** Result masks *)

(** Modelled from the spec: the flags of [lib/result.js] ([$npm.result]),
    which is not among the sources: three distinct bits and their
    combination. *)
Definition result_one : Z := 1.
Definition result_many : Z := 2.
Definition result_none : Z := 4.
Definition result_any : Z := Z.lor (Z.lor result_one result_many) result_none.

(** The [qrm] argument: absent, a bit mask, or one of the two sentinels of
    [$npm.special.cache]. *)
Inductive Qrm :=
| QrmDefault
| QrmMask (mask : Z)
| QrmResultQuery
| QrmStreamQuery.

Definition has_flag (flag mask : Z) : bool := negb (Z.land mask flag =? 0).

(** Modelled from the spec: the Result Masker of the absent
    [lib/query.js], by the table of query-shaped operations. Only the row
    count is looked at. The three messages are those the method
    documentation in [database.js] gives. *)
Definition mask_result (mask : Z) (rows : list value) : Promise value :=
  match rows with
  | [] =>
      if has_flag result_none mask
      then Resolved (if has_flag result_many mask then VArray [] else VNull)
      else Rejected (VError KQueryResultError "No data returned from the query.")
  | [row] =>
      if has_flag result_many mask then Resolved (VArray rows)
      else if has_flag result_one mask then Resolved row
      else Rejected (VError KQueryResultError "No return data was expected.")
  | _ =>
      if has_flag result_many mask then Resolved (VArray rows)
      else if has_flag result_one mask
      then Rejected (VError KQueryResultError "Multiple rows were not expected.")
      else Rejected (VError KQueryResultError "No return data was expected.")
  end.

(** ** External collaborators

    What this module calls and does not define: the pool or the driver
    ([acquire], [driver]), what is done with a request before anything is
    sent (the check of the query descriptor and the formatter, [prepare];
    the checks of a stream request, [stream_check]; each gives the error
    the request is refused with, if it is), user functions ([call_fn]),
    the task runner [$npm.task.exec] ([task_exec]), the properties the
    [extend] event handler tries to set ([extension]) and
    [JSON.stringify]. *)
Record Collaborators := {
  acquire : Method -> nat -> World -> Promise Db;
  prepare : value -> value -> option value;
  stream_check : Options -> value -> value -> option value;
  driver : nat -> value -> value -> World -> Promise (list value);
  call_fn : nat -> value -> list value -> M value;
  task_exec : nat -> Protocol -> bool -> M (Promise value);
  extension : Options -> Protocol -> value -> list (string * Member);
  JSON_stringify : value -> string
}.

(** What the request to run [query] with [values] over a client is
    answered with: the error of the preparation when the request is
    refused there, and what the driver answers to the statement
    otherwise. *)
Definition execute (E : Collaborators) (c : nat) (query values : value)
    (w : World) : Promise (list value) :=
  match prepare E query values with
  | Some e => Rejected e
  | None => driver E c query values w
  end.

Section Engine.

Variable E : Collaborators.

(** ** Absent modules this file calls *)

(** Modelled from the spec: [config.$npm.connect.pool(ctx)] and
    [.direct(ctx)] of the absent [lib/connect.js]: one acquisition request
    to the pool or the driver, answered with a connection or an error. *)
Definition npm_connect (method : Method) (ctx : nat) : M (Promise Db) :=
  log (EvAcquire method ctx);;
  w ← get_world;
  mret (acquire E method ctx w).

(** The error a request is refused with before anything is sent, if it
    is refused: a stream request goes through the checks of the streaming
    module (the stream object, its state, the initialization callback and
    the driver mode, as the documentation of [stream] lists them), any
    other request through the check of the query descriptor and the
    formatter. *)
Definition refusal (opts : Options) (query values : value) (qrm : Qrm)
  : option value :=
  match qrm with
  | QrmStreamQuery => stream_check E opts query values
  | _ => prepare E query values
  end.

(** Modelled from the spec: [config.$npm.query.call(this, ctx, query,
    values, qrm)] of the absent [lib/query.js]. Without a bound
    connection the call rejects. A request that is refused ([refusal])
    rejects with the error of the refusal, and the driver is not
    contacted. Otherwise the statement goes to the driver over the
    connection bound to [ctx] and the row set is shaped by the mask. *)
Definition npm_query (this : value) (ctx : nat) (query values : value)
    (qrm : Qrm) : M (Promise value) :=
  c ← ctx_get ctx;
  match db c with
  | None => mret (Rejected (VError KError "Cannot execute a query without a connection."))
  | Some d =>
      match refusal (options c) query values qrm with
      | Some e => mret (Rejected e)
      | None =>
          log (EvDriver (client d) query values);;
          w ← get_world;
          match driver E (client d) query values w with
          | Rejected e => mret (Rejected e)
          | Resolved rows =>
              mret (match qrm with
                    | QrmDefault => mask_result result_any rows
                    | QrmMask m => mask_result m rows
                    | QrmResultQuery => Resolved (VEnvelope rows)
                    | QrmStreamQuery => Resolved (VStreamed (length rows))
                    end)
          end
      end
  end.

(** Modelled from the spec: the constructor [config.$npm.task] of the
    absent [lib/task.js]: a new protocol object on the task context whose
    public [ctx] carries the tag and the transaction flag. *)
Definition new_task (parent : Protocol) (taskCtx : nat) (tag : value)
    (isTX : bool) : M Protocol :=
  i ← fresh;
  mret {| oid := i; okind := KTask; octx := taskCtx;
          env_cn := env_cn parent; env_dc := env_dc parent;
          env_config := env_config parent;
          members := {[ "query" := MFunction "query" ]};
          task_ctx := <[ "isTX" := VBool isTX ]> {[ "tag" := tag ]};
          lock_state := Open |}.

(** Modelled from the spec: [$npm.events.extend(options, obj, dc)] of the
    absent [lib/events.js]: the extension event is raised once and its
    handler tries to set properties on [obj]. *)
Definition events_extend (opts : Options) (obj : Protocol) (dc0 : value)
  : M Protocol :=
  log (EvExtend (oid obj));;
  mret (foldl try_assign obj (extension E opts obj dc0)).

(** [fn.call(thisArg, args)] on a value that may not be a function. *)
Definition call_value (fn thisArg : value) (args : list value) : M value :=
  match fn with
  | VFunction _ _ code => call_fn E code thisArg args
  | _ => throw (VError KTypeError "cb.call is not a function")
  end.

Fixpoint arr_visit (f : value -> Z -> M value) (i : Z) (rows : list value)
  : M (list value) :=
  match rows with
  | [] => mret []
  | r :: rest =>
      v ← f r i;
      vs ← arr_visit f (i + 1) rest;
      mret (v :: vs)
  end.

(** Modelled from the spec: [$arr.map(data, cb, thisArg)] of the absent
    [lib/array.js]: the transform is applied once per row, in index
    order. *)
Definition arr_map (data cb thisArg : value) : M value :=
  match data with
  | VArray rows =>
      vs ← arr_visit (fun r i => call_value cb thisArg [r; VNum i; data]) 0 rows;
      mret (VArray vs)
  | _ => throw (VError KTypeError "array expected")
  end.

(** Modelled from the spec: [$arr.forEach(data, cb, thisArg)] of the
    absent [lib/array.js]. *)
Definition arr_forEach (data cb thisArg : value) : M unit :=
  match data with
  | VArray rows =>
      arr_visit (fun r i => call_value cb thisArg [r; VNum i; data]) 0 rows;;
      mret tt
  | _ => throw (VError KTypeError "array expected")
  end.

(** ** [Database]: [createContext], [query], [singleValue] *)

(** [function createContext()] of the [Database] closure the object [o]
    lives in. *)
Definition createContext (o : Protocol) : M nat :=
  ctx_new (env_cn o) (env_dc o) (cfg_options (env_config o)).

(** [this.query = function (query, values, qrm)] of the root object. *)
Definition Database_query (o : Protocol) (this query values : value)
    (qrm : Qrm) : M (Promise value) :=
  ctx ← createContext o;
  p ← npm_connect Pool ctx;
  p ← then_ p (fun d =>
         ctx_connect ctx d;;
         npm_query this ctx query values qrm);
  p ← then_ p (fun data =>
         ctx_disconnect ctx;;
         mret (Resolved data));
  catch_ p (fun error =>
    ctx_disconnect ctx;;
    mret (Rejected error)).

(** [self.query] of the object [connect] resolves with. *)
Definition connect_query (o : Protocol) (this query values : value)
    (qrm : Qrm) : M (Promise value) :=
  c ← ctx_get (octx o);
  match db c with
  | None => throw (VError KError "Cannot execute a query on a disconnected client.")
  | Some _ => npm_query this (octx o) query values qrm
  end.

(** [self.done] of the object [connect] resolves with. *)
Definition done (o : Protocol) : M unit :=
  c ← ctx_get (octx o);
  match db c with
  | None => throw (VError KError "Cannot invoke done() on a disconnected client.")
  | Some _ => ctx_disconnect (octx o)
  end.

(** Modelled from the spec: the [query] method the absent [lib/task.js]
    gives a task object: it rejects at once when the task context is not
    connected and otherwise runs the query on the task's connection. *)
Definition task_query (o : Protocol) (this query values : value)
    (qrm : Qrm) : M (Promise value) :=
  c ← ctx_get (octx o);
  match db c with
  | None => mret (Rejected (VError KError "Unexpected call outside of the task."))
  | Some _ => npm_query this (octx o) query values qrm
  end.

(** [obj.query.call(this, query, values, qrm)]: the base method of the
    object that was extended. *)
Definition obj_query (obj : Protocol) (this query values : value)
    (qrm : Qrm) : M (Promise value) :=
  match okind obj with
  | KRoot => Database_query obj this query values qrm
  | KHandle => connect_query obj this query values qrm
  | KTask => task_query obj this query values qrm
  end.

Definition singleValue (v : Promise value) (cb thisArg : value)
  : M (Promise value) :=
  if is_function cb then
    then_ v (fun data =>
      r ← call_value cb thisArg [data];
      mret (Resolved r))
  else mret v.

(** ** The methods [extend] attaches *)

Definition none (obj : Protocol) (this query values : value) :=
  obj_query obj this query values (QrmMask result_none).

Definition one (obj : Protocol) (this query values cb thisArg : value) :=
  v ← obj_query obj this query values (QrmMask result_one);
  singleValue v cb thisArg.

Definition many (obj : Protocol) (this query values : value) :=
  obj_query obj this query values (QrmMask result_many).

Definition oneOrNone (obj : Protocol) (this query values cb thisArg : value) :=
  v ← obj_query obj this query values (QrmMask (Z.lor result_one result_none));
  singleValue v cb thisArg.

Definition manyOrNone (obj : Protocol) (this query values : value) :=
  obj_query obj this query values (QrmMask (Z.lor result_many result_none)).

Definition any (obj : Protocol) (this query values : value) :=
  obj_query obj this query values (QrmMask result_any).

Definition result (obj : Protocol) (this query values cb thisArg : value) :=
  v ← obj_query obj this query values QrmResultQuery;
  singleValue v cb thisArg.

Definition stream (obj : Protocol) (this qs init : value) :=
  obj_query obj this qs init QrmStreamQuery.

Definition func (obj : Protocol) (this funcName values : value) (qrm : Qrm) :=
  obj_query obj this (VFuncDesc funcName) values qrm.

Definition proc (obj : Protocol) (this procName values cb thisArg : value) :=
  v ← func obj this procName values (QrmMask (Z.lor result_one result_none));
  singleValue v cb thisArg.

Definition map (obj : Protocol) (this query values cb thisArg : value) :=
  p ← any obj this query values;
  then_ p (fun data =>
    r ← arr_map data cb thisArg;
    mret (Resolved r)).

Definition each (obj : Protocol) (this query values cb thisArg : value) :=
  p ← any obj this query values;
  then_ p (fun data =>
    arr_forEach data cb thisArg;;
    mret (Resolved data)).

(** ** [extend]: attaching the methods and locking the object *)

Definition extend (ctx : nat) (obj : Protocol) : M Protocol :=
  obj ← assign "none" (MFunction "none") obj;
  obj ← assign "one" (MFunction "one") obj;
  obj ← assign "many" (MFunction "many") obj;
  obj ← assign "oneOrNone" (MFunction "oneOrNone") obj;
  obj ← assign "manyOrNone" (MFunction "manyOrNone") obj;
  obj ← assign "any" (MFunction "any") obj;
  obj ← assign "result" (MFunction "result") obj;
  obj ← assign "stream" (MFunction "stream") obj;
  obj ← assign "func" (MFunction "func") obj;
  obj ← assign "proc" (MFunction "proc") obj;
  obj ← assign "map" (MFunction "map") obj;
  obj ← assign "each" (MFunction "each") obj;
  obj ← assign "task" (MFunction "task") obj;
  obj ← assign "tx" (MFunction "tx") obj;
  c ← ctx_get ctx;
  (* lock all default properties to read-only *)
  let obj := utils_lock obj false (options c) in
  (* extend the protocol *)
  obj ← events_extend (options c) obj (dc c);
  (* freeze the protocol permanently *)
  mret (utils_lock obj true (options c)).

(** ** Tasks and transactions *)

(** [function taskProcessor(p1, p2, isTX)], called with [this] from
    [obj.task] and [obj.tx]; [ctx] is [octx obj]. The function is written
    in three parts: [task_context] (the clone, its nesting level, the
    calling object, the callback and the explicit tag), the check of the
    callback with the construction of the task object, and [task_run]
    (running on the reused or on a newly acquired connection). *)

Definition task_context (obj : Protocol) (this p1 p2 : value) (isTX : bool)
  : M (nat * value) :=
  (* var tag, taskCtx = ctx.clone(); *)
  taskCtx ← ctx_clone (octx obj);
  (if isTX then
     c ← ctx_get taskCtx;
     ctx_put taskCtx
       (set_txLevel
          (Some (match txLevel c with
                 | Some l => if 0 <=? l then l + 1 else 0
                 | None => 0
                 end)) c)
   else mret tt);;
  (if negb (same_object this obj) then
     c ← ctx_get taskCtx;
     ctx_put taskCtx (set_context (Some this) c)
   else mret tt);;
  c ← ctx_get taskCtx;
  ctx_put taskCtx (set_cb p1 c);;
  tag ← (if is_defined p2 then
           c ← ctx_get taskCtx;
           ctx_put taskCtx (set_cb p2 c);;
           mret p1
         else mret VUndefined);
  mret (taskCtx, tag).

Definition task_run (taskCtx : nat) (tsk : Protocol) (isTX : bool)
  : M (Promise value) :=
  c ← ctx_get taskCtx;
  match db c with
  | Some d =>
      (* reuse existing connection *)
      let tsk := addReadProp_ctx tsk "isFresh" (VBool (isFresh d)) in
      task_exec E taskCtx tsk isTX
  | None =>
      (* connection required *)
      p ← npm_connect Pool taskCtx;
      p ← then_ p (fun d =>
             ctx_connect taskCtx d;;
             let tsk := addReadProp_ctx tsk "isFresh" (VBool (isFresh d)) in
             task_exec E taskCtx tsk isTX);
      p ← then_ p (fun data =>
             ctx_disconnect taskCtx;;
             mret (Resolved data));
      catch_ p (fun error =>
        ctx_disconnect taskCtx;;
        mret (Rejected error))
  end.

Definition default_tag (tag cb0 : value) : value :=
  if is_defined tag then tag
  else match cb0 with
       | VFunction name t _ =>
           if is_defined t then t
           else if bool_decide (name = "") then VUndefined
           else VStr name
       | _ => VUndefined
       end.

Definition task_body (obj : Protocol) (taskCtx : nat) (tag : value)
    (isTX : bool) : M (Promise value) :=
  c ← ctx_get taskCtx;
  let cb0 := cb c in
  if negb (is_function cb0) then
    mret (Rejected (VError KTypeError
            ("Callback function is required for the " +:+
             (if isTX then "transaction." else "task."))))
  else
    let tag := default_tag tag cb0 in
    tsk ← new_task obj taskCtx tag isTX;
    tsk ← extend taskCtx tsk;
    task_run taskCtx tsk isTX.

Definition taskProcessor (obj : Protocol) (this p1 p2 : value) (isTX : bool)
  : M (Promise value) :=
  '(taskCtx, tag) ← task_context obj this p1 p2 isTX;
  task_body obj taskCtx tag isTX.

Definition task (obj : Protocol) (this p1 p2 : value) :=
  taskProcessor obj this p1 p2 false.

Definition tx (obj : Protocol) (this p1 p2 : value) :=
  taskProcessor obj this p1 p2 true.

(** ** The task runner of [lib/task.js] *)

Inductive Control := Begin | Commit | Rollback.

(** The control statement of a transaction at a nesting level, with its
    values: the statement proper at depth 0, and at a depth above 0 the
    savepoint marker with the level it stands for. *)
Definition control_statement (k : Control) (level : option Z) : value * value :=
  match level with
  | Some l =>
      if 0 <? l then
        (VStr match k with
              | Begin => "savepoint"
              | Commit => "release savepoint"
              | Rollback => "rollback to savepoint"
              end, VNum l)
      else
        (VStr match k with
              | Begin => "begin"
              | Commit => "commit"
              | Rollback => "rollback"
              end, VUndefined)
  | None =>
      (VStr match k with
            | Begin => "begin"
            | Commit => "commit"
            | Rollback => "rollback"
            end, VUndefined)
  end.

(** A control statement is a query of the task object that expects no
    rows. *)
Definition control (taskCtx : nat) (tsk : Protocol) (k : Control)
  : M (Promise value) :=
  c ← ctx_get taskCtx;
  let (q, v) := control_statement k (txLevel c) in
  none tsk (VObject (oid tsk)) q v.

(** The callback is called on the task object; what it throws is a
    rejection. *)
Definition run_callback (body : Protocol -> M (Promise value))
    (tsk : Protocol) : M (Promise value) := fun w =>
  let (c, w') := body tsk w in (Normal (settle c), w').

(** Modelled from the spec: [$npm.task.exec(ctx, tsk, isTX, config)] of
    the absent [lib/task.js], by the steps 5 to 8 of the task and
    transaction engine, for a callback given by what it does with the
    task object ([body]). A plain task runs the callback and settles as
    it does. A transaction first issues [BEGIN], at a depth above 0 a
    savepoint marker; when that statement fails the callback is not run
    and the transaction rejects with the failure. When the callback has
    resolved, the transaction issues [COMMIT], or releases the savepoint,
    and resolves with the value of the callback, or rejects with the
    failure of that statement. When the callback has rejected or thrown,
    it issues [ROLLBACK], or rolls back to the savepoint, and rejects
    with the error of the callback, whatever becomes of the rollback. *)
Definition task_runner (body : Protocol -> M (Promise value))
    (taskCtx : nat) (tsk : Protocol) (isTX : bool) : M (Promise value) :=
  if isTX then
    b ← control taskCtx tsk Begin;
    then_ b (fun _ =>
      r ← run_callback body tsk;
      match r with
      | Resolved data =>
          c ← control taskCtx tsk Commit;
          then_ c (fun _ => mret (Resolved data))
      | Rejected reason =>
          control taskCtx tsk Rollback;;
          mret (Rejected reason)
      end)
  else run_callback body tsk.

(** ** [Database.connect] *)

Record ConnectOptions := { direct : bool }.

Definition connect (root : Protocol) (opts : option ConnectOptions)
  : M (Promise Protocol) :=
  ctx ← createContext root;
  i ← fresh;
  let self :=
    {| oid := i; okind := KHandle; octx := ctx;
       env_cn := env_cn root; env_dc := env_dc root;
       env_config := env_config root;
       members := <[ "done" := MFunction "done" ]>
                    {[ "query" := MFunction "query" ]};
       task_ctx := ∅; lock_state := Open |} in
  let method :=
    match opts with
    | Some o => if direct o then Direct else Pool
    | None => Pool
    end in
  p ← npm_connect method ctx;
  then_ p (fun d =>
    ctx_connect ctx d;;
    self ← assign "client" (MData (VClient (client d))) self;
    self ← extend ctx self;
    mret (Resolved self)).

(** ** Module-level state: [dbObjects], [jsHandled], [nativeHandled] *)

Definition register (cnKey : string) : M unit := fun w =>
  (Normal tt,
   {| heap := heap w; nextId := nextId w; trace := trace w;
      dbObjects := <[cnKey := true]> (dbObjects w);
      jsHandled := jsHandled w; nativeHandled := nativeHandled w |}).

Definition set_handled (native : bool) : M unit := fun w =>
  (Normal tt,
   {| heap := heap w; nextId := nextId w; trace := trace w;
      dbObjects := dbObjects w;
      jsHandled := if native then jsHandled w else true;
      nativeHandled := if native then true else nativeHandled w |}).

(** [cnKey in dbObjects]. The keys are JSON texts, and no JSON text is the
    name of a property an empty object inherits, so [in] is membership in
    the keys that were registered. *)
Definition registered (cnKey : string) (w : World) : bool :=
  bool_decide (is_Some (dbObjects w !! cnKey)).

Definition checkForDuplicates (cn0 : value) (config : Config) : M unit :=
  let cnKey := JSON_stringify E cn0 in
  w ← get_world;
  if registered cnKey w then
    if negb (noWarnings (cfg_options config)) then log (EvWarn cnKey)
    else mret tt
  else register cnKey.

Definition setErrorHandler (config : Config) : M unit :=
  w ← get_world;
  if pgNative (cfg_options config) then
    if negb (nativeHandled w) then
      log (EvOnError true);; set_handled true
    else mret tt
  else
    if negb (jsHandled w) then
      log (EvOnError false);; set_handled false
    else mret tt.

(** ** [function Database(cn, dc, config)] *)

Definition Database (cn0 dc0 : value) (config : Config) : M Protocol :=
  checkForDuplicates cn0 config;;
  setErrorHandler config;;
  i ← fresh;
  ctx ← ctx_new cn0 dc0 (cfg_options config);
  let this :=
    {| oid := i; okind := KRoot; octx := ctx;
       env_cn := cn0; env_dc := dc0; env_config := config;
       members := <[ "$config" := MConfig config ]>
                    (<[ "query" := MFunction "query" ]>
                       {[ "connect" := MFunction "connect" ]});
       task_ctx := ∅; lock_state := Open |} in
  extend ctx this.

End Engine.

(** ** Notions the properties are stated with

    These are not functions of [database.js]: they name the situations and
    the quantities the properties below talk about. *)

(** A handle of [connect] whose connection has been released: its context
    holds no connection any more. *)
Definition released (h : Protocol) (w : World) : Prop :=
  okind h = KHandle /\ db (ctx_at w (octx h)) = None.

(** The call ends in an error, thrown or as a rejection, and nothing was
    added to the trace: no acquisition, no release, no statement. *)
Definition usage_failure (m : M (Promise value)) (w : World) : Prop :=
  exists e w',
    (m w = (Throw e, w') \/ m w = (Normal (Rejected e), w')) /\
    trace w' = trace w.

Definition is_warn (k : string) (ev : Event) : bool :=
  match ev with EvWarn k' => bool_decide (k' = k) | _ => false end.

Definition is_release (c : nat) (ev : Event) : bool :=
  match ev with EvRelease c' => Nat.eqb c' c | _ => false end.

Definition is_extend (ev : Event) : bool :=
  match ev with EvExtend _ => true | _ => false end.

(** How many duplicate warnings the trace holds for a connection key. *)
Definition warnings_for (k : string) (tr : list Event) : nat :=
  length (List.filter (is_warn k) tr).

(** How many times the connection of a client was released. *)
Definition releases_of (c : nat) (tr : list Event) : nat :=
  length (List.filter (is_release c) tr).

(** The callback argument of [task(p1, p2)] / [tx(p1, p2)]. *)
Definition callback_of (p1 p2 : value) : value :=
  if is_defined p2 then p2 else p1.

(** The fourteen methods [extend] attaches, in source order. *)
Definition method_names : list string :=
  ["none"; "one"; "many"; "oneOrNone"; "manyOrNone"; "any"; "result";
   "stream"; "func"; "proc"; "map"; "each"; "task"; "tx"].

(** A property table with the fourteen methods set. *)
Definition with_methods (m : gmap string Member) : gmap string Member :=
  foldl (fun acc n => <[n := MFunction n]> acc) m method_names.

(** What [extend] returns for an open object [obj] on a context with the
    options [opts] and the database context [dc0]: the methods set, the
    properties read-only, the writes of the extension handler tried, and
    the whole frozen. *)
Definition extended (E : Collaborators) (opts : Options) (dc0 : value)
    (obj : Protocol) : Protocol :=
  let locked :=
    utils_lock (with_members (with_methods (members obj)) obj) false opts in
  utils_lock (foldl try_assign locked (extension E opts locked dc0)) true opts.
Arguments extended : simpl never.

(** The nesting level a transaction is to get from the one it inherits,
    in the words of the specification: 0 when the inherited level is
    absent or negative, the inherited level plus 1 otherwise. *)
Definition entered_level (inherited : option Z) : Z :=
  match inherited with
  | None => 0
  | Some l => if l <? 0 then 0 else l + 1
  end.

(** A program that makes [n] [Database] objects, one after the other, for
    the same connection details. *)
Fixpoint creations (E : Collaborators) (cn0 dc0 : value) (config : Config)
    (n : nat) : M unit :=
  match n with
  | O => mret tt
  | S n' => Database E cn0 dc0 config;; creations E cn0 dc0 config n'
  end.

(** ** A concrete set of collaborators, to run the module on *)

Module Sample.

Definition initial : World :=
  {| heap := ∅; nextId := 1; trace := []; dbObjects := ∅;
     jsHandled := false; nativeHandled := false |}.

Definition conn : Db := {| client := 7; isFresh := true |}.

(** The pool always hands out the same connection. *)
Definition pool (m : Method) (ctx : nat) (w : World) : Promise Db :=
  Resolved conn.

(** An empty or missing query is refused before anything is sent. *)
Definition checks (q v : value) : option value :=
  match q with
  | VUndefined | VNull => Some (VError KError "Empty or undefined query.")
  | VStr s =>
      if bool_decide (s = EmptyString)
      then Some (VError KError "Empty or undefined query.")
      else None
  | _ => None
  end.

(** A stream request needs the JavaScript driver, a stream object and an
    initialization callback. *)
Definition stream_checks (opts : Options) (qs init : value) : option value :=
  if pgNative opts
  then Some (VError KError "Streaming doesn't work with Native Bindings.")
  else match qs with
       | VObject _ =>
           if is_function init then None
           else Some (VError KTypeError
                  "Invalid or missing stream initialization callback.")
       | _ => Some (VError KTypeError "Invalid or missing stream object.")
       end.

(** The driver answers a statement given as an array with that array as
    its rows, and anything else with an error. *)
Definition driver (c : nat) (q v : value) (w : World)
  : Promise (list value) :=
  match q with
  | VArray rows => Resolved rows
  | _ => Rejected (VError KError "syntax error")
  end.

(** User functions: 0 yields 42, 1 throws, the others return their first
    argument. *)
Definition call (code : nat) (this : value) (args : list value) : M value :=
  match code with
  | O => mret (VNum 42)
  | S O => throw (VError KError "boom")
  | _ => mret (default VUndefined (head args))
  end.

(** The task runner calls the callback of the task context with the task
    object and settles with what it returns or throws. *)
Definition runner (taskCtx : nat) (tsk : Protocol) (isTX : bool)
  : M (Promise value) := fun w =>
  match cb (ctx_at w taskCtx) with
  | VFunction _ _ code =>
      match call code (VObject (oid tsk)) [VObject (oid tsk)] w with
      | (Normal v, w') => (Normal (Resolved v), w')
      | (Throw e, w') => (Normal (Rejected e), w')
      end
  | _ => (Normal (Rejected (VError KTypeError "callback")), w)
  end.

(** The extension handler tries to add a method and to replace [one]. *)
Definition hook (opts : Options) (obj : Protocol) (dc0 : value)
  : list (string * Member) :=
  [("custom", MFunction "custom"); ("one", MData VNull)].

(** The key of a connection string is the string itself here (the quotes
    JSON puts around it are left out); everything else has one key. *)
Definition stringify (v : value) : string :=
  match v with VStr s => s | _ => "null" end.

Definition env : Collaborators :=
  Build_Collaborators pool checks stream_checks driver call runner hook
    stringify.

Definition cfg : Config :=
  {| cfg_options := {| noWarnings := false; pgNative := false |} |}.

Definition target : value := VStr "postgres://localhost/db".

Definition fn (code : nat) : value := VFunction "" VUndefined code.

(** [db = pgp(cn)] in a fresh process. *)
Definition root : Protocol * World :=
  match Database env target VUndefined cfg initial with
  | (Normal o, w) => (o, w)
  | (Throw _, w) =>
      ({| oid := 0; okind := KRoot; octx := 0; env_cn := target;
          env_dc := VUndefined; env_config := cfg; members := ∅;
          task_ctx := ∅; lock_state := Open |}, w)
  end.

(** [db.connect()] resolved: the handle and the world it lives in. *)
Definition connected : Protocol * World :=
  match connect env root.1 None root.2 with
  | (Normal (Resolved h), w) => (h, w)
  | (_, w) => (root.1, w)
  end.

(** The world after [sco.done()] on that handle. *)
Definition after_done : World := (done connected.1 connected.2).2.

(** A task object inside a transaction: its context is at nesting level
    2 and holds the connection. *)
Definition nested : Protocol * World :=
  ({| oid := 2; okind := KTask; octx := 1; env_cn := target;
      env_dc := VUndefined; env_config := cfg;
      members := {[ "query" := MFunction "query" ]};
      task_ctx := ∅; lock_state := Frozen |},
   {| heap := {[ 1%nat := {| cn := target; dc := VUndefined;
                             options := cfg_options cfg; db := Some conn;
                             txLevel := Some 2; context := None;
                             cb := fn 0 |} ]};
      nextId := 3; trace := [EvAcquire Pool 1]; dbObjects := ∅;
      jsHandled := true; nativeHandled := false |}).

(** An object literal on the context of the connected handle, before
    [extend] has seen it. *)
Definition literal : Protocol :=
  {| oid := 9; okind := KHandle; octx := octx connected.1; env_cn := target;
     env_dc := VUndefined; env_config := cfg;
     members := {[ "query" := MFunction "query" ]};
     task_ctx := ∅; lock_state := Open |}.

(** Three [Database] objects made for the same connection details. *)
Definition thrice : M unit := creations env target VUndefined cfg 3.

End Sample.

(** ** Further notions and client programs

    Counts over the trace and small programs that call the module several
    times, for the properties of whole runs. *)

Definition is_acquire (ev : Event) : bool :=
  match ev with EvAcquire _ _ => true | _ => false end.

Definition is_onerror (native : bool) (ev : Event) : bool :=
  match ev with EvOnError b => Bool.eqb b native | _ => false end.

Definition is_warning (ev : Event) : bool :=
  match ev with EvWarn _ => true | _ => false end.

(** How many requests went to the pool or the driver for a connection. *)
Definition acquisitions (tr : list Event) : nat :=
  length (List.filter is_acquire tr).

(** How many times [pg.on('error', onError)] was called for a driver
    mode. *)
Definition listeners (native : bool) (tr : list Event) : nat :=
  length (List.filter (is_onerror native) tr).

(** The flags [jsHandled] and [nativeHandled] say what the trace says: a
    flag is set exactly when the listener of its mode was installed, and
    that happened once. A fresh process is in that state. *)
Definition handlers_consistent (w : World) : Prop :=
  listeners false (trace w) = (if jsHandled w then 1 else 0)%nat /\
  listeners true (trace w) = (if nativeHandled w then 1 else 0)%nat.

(** A program that makes one [Database] object after the other, each with
    its own connection details, database context and configuration. *)
Fixpoint create_each (E : Collaborators)
    (l : list (value * value * Config)) : M unit :=
  match l with
  | [] => mret tt
  | (cn0, dc0, config) :: rest =>
      Database E cn0 dc0 config;; create_each E rest
  end.

(** A program that calls the generic [query] method of one protocol
    object for one statement after the other, each call after the one
    before has settled. *)
Fixpoint query_all (E : Collaborators) (obj : Protocol) (this : value)
    (qs : list (value * value)) : M unit :=
  match qs with
  | [] => mret tt
  | (q, v) :: rest =>
      obj_query E obj this q v QrmDefault;; query_all E obj this rest
  end.

(** The statements a run of requests sends over the client [c]: one for
    each request that is not refused before anything is sent, in the
    order of the requests. *)
Definition accepted (E : Collaborators) (qv : value * value) : bool :=
  match prepare E qv.1 qv.2 with
  | Some _ => false
  | None => true
  end.

Definition sent (E : Collaborators) (c : nat) (qs : list (value * value))
  : list Event :=
  (fun qv => EvDriver c qv.1 qv.2) <$> List.filter (accepted E) qs.

(** Events that neither take nor give back a connection and that use no
    client but [c]: extension events and statements sent over [c]. *)
Definition on_client (c : nat) (ev : Event) : bool :=
  match ev with
  | EvDriver c' _ _ => Nat.eqb c' c
  | EvExtend _ => true
  | _ => false
  end.

(** A computation that works through the client [c] from the world [w]:
    it leaves the objects that are there as they are, and all it adds to
    the trace are statements over [c] and extension events. *)
Definition quiet_run {A : Type} (c : nat) (m : M A) (w : World) : Prop :=
  let w' := (m w).2 in
  (exists evs : list Event,
     trace w' = trace w ++ evs /\
     Forall (fun ev => on_client c ev = true) evs) /\
  (forall r, (r < nextId w)%nat -> heap w' !! r = heap w !! r) /\
  (nextId w <= nextId w')%nat.

(** The callback [f] works through the connection [d]: called on a task
    object whose context holds [d], it works through the client of
    [d]. *)
Definition works_on (E : Collaborators) (f : value) (d : Db) : Prop :=
  forall (t : Protocol) (w : World),
    db (ctx_at w (octx t)) = Some d ->
    quiet_run (client d)
      (call_value E f (VObject (oid t)) [VObject (oid t)]) w.

(** The collaborators [E] with [task_runner] as the task runner, for a
    callback that does [body]. *)
Definition with_runner (E : Collaborators)
    (body : Protocol -> M (Promise value)) : Collaborators :=
  {| acquire := acquire E;
     prepare := prepare E;
     stream_check := stream_check E;
     driver := driver E;
     call_fn := call_fn E;
     task_exec := task_runner E body;
     extension := extension E;
     JSON_stringify := JSON_stringify E |}.

(** What a callback [f] does that calls [t.tx(f)] on the task object it
    is given until [n] transactions are nested inside the first one, and
    then does its own work (the code of [f] in [call_fn]) and resolves
    with what that returns. *)
Fixpoint nest_body (E : Collaborators) (f : value) (n : nat)
  : Protocol -> M (Promise value) :=
  match n with
  | O => fun t =>
      v ← call_value E f (VObject (oid t)) [VObject (oid t)];
      mret (Resolved v)
  | S n' => fun t =>
      tx (with_runner E (nest_body E f n')) t (VObject (oid t)) f VUndefined
  end.

Definition nesting (E : Collaborators) (f : value) (n : nat) : Collaborators :=
  with_runner E (nest_body E f n).

(** The statements among the events of a trace. *)
Definition is_statement (ev : Event) : bool :=
  match ev with EvDriver _ _ _ => true | _ => false end.

(** ** Further sample runs *)

(** The server is down: the pool and the driver refuse every request for
    a connection. Everything else is as in [Sample]. *)
Module Outage.

Definition refusal : value := VError KError "connect ECONNREFUSED".

Definition pool (m : Method) (ctx : nat) (w : World) : Promise Db :=
  Rejected refusal.

Definition env : Collaborators :=
  {| acquire := pool; prepare := Sample.checks;
     stream_check := Sample.stream_checks; driver := Sample.driver;
     call_fn := Sample.call; task_exec := Sample.runner;
     extension := Sample.hook; JSON_stringify := Sample.stringify |}.

End Outage.

(** Several databases and several statements. *)
Module Fleet.

Definition native : Config :=
  {| cfg_options := {| noWarnings := false; pgNative := true |} |}.

(** Three [Database] objects for three servers, the second one with the
    native bindings. *)
Definition targets : list (value * value * Config) :=
  [(VStr "postgres://a/db", VUndefined, Sample.cfg);
   (VStr "postgres://b/db", VUndefined, native);
   (VStr "postgres://c/db", VUndefined, Sample.cfg)].

(** Four requests: the second one is refused before anything is sent,
    the third one is sent and refused by the driver of [Sample]. *)
Definition queries : list (value * value) :=
  [(VArray [VStr "x"], VUndefined);
   (VStr EmptyString, VUndefined);
   (VStr "select", VNull);
   (VArray [], VUndefined)].

End Fleet.

(** A server that takes the control statements of a transaction: the
    driver answers a statement given as text with no rows. Everything
    else is as in [Sample]. *)
Module Ledger.

Definition driver (c : nat) (q v : value) (w : World)
  : Promise (list value) :=
  match q with
  | VArray rows => Resolved rows
  | VStr _ => Resolved []
  | _ => Rejected (VError KError "syntax error")
  end.

Definition env : Collaborators :=
  Build_Collaborators Sample.pool Sample.checks Sample.stream_checks driver
    Sample.call Sample.runner Sample.hook Sample.stringify.

End Ledger.

(** * Properties *)

Section Properties.

Context (E : Collaborators).

(** ** The heap *)

Lemma ctx_at_insert_eq (h : gmap nat ConnectionContext) (r n : nat)
    (c : ConnectionContext) (t : list Event) (d : gmap string bool)
    (j k : bool) :
  ctx_at {| heap := <[r := c]> h; nextId := n; trace := t; dbObjects := d;
            jsHandled := j; nativeHandled := k |} r = c.
Proof. unfold ctx_at; simpl. by rewrite lookup_insert_eq. Qed.

Lemma ctx_at_heap (w w' : World) (r : nat) :
  heap w' !! r = heap w !! r -> ctx_at w' r = ctx_at w r.
Proof. unfold ctx_at. by intros ->. Qed.

Ltac run :=
  unfold mbind, M_bind, mret, M_ret, throw, get_world, ctx_get, ctx_put,
    fresh, log;
  cbn -[insert lookup singletonM with_methods];
  repeat (rewrite ctx_at_insert_eq; cbn -[insert lookup singletonM with_methods]).

(** ** [extend] *)

Lemma try_assign_refused (o : Protocol) (l : list (string * Member)) :
  lock_state o = Frozen -> foldl try_assign o l = o.
Proof.
  intros Hw. induction l as [|kv l IH]; [done|].
  cbn. unfold try_assign at 2, writable. by rewrite Hw.
Qed.

Lemma bind_assign {A : Type} (k : string) (mv : Member) (o : Protocol)
    (f : Protocol -> M A) (w : World) :
  lock_state o = Open ->
  (assign k mv o ≫= f) w = f (with_members (<[k := mv]> (members o)) o) w.
Proof.
  intros Hopen. unfold assign, writable. rewrite Hopen. reflexivity.
Qed.

Ltac fields :=
  cbn [with_members with_lock with_task_ctx utils_lock addReadProp_ctx
       oid okind octx env_cn env_dc env_config members task_ctx lock_state].

(** Writes from outside change nothing of an object but its table of
    properties. *)
Lemma try_assign_shape (o : Protocol) (l : list (string * Member)) :
  foldl try_assign o l = with_members (members (foldl try_assign o l)) o.
Proof.
  revert o. induction l as [|kv l IH]; intros o.
  - by destruct o.
  - cbn [foldl]. rewrite IH. cbn [with_members members].
    unfold try_assign. by destruct (writable o kv.1).
Qed.

(** On a locked object the read-only properties are what they were,
    whatever is written from outside. *)
Lemma try_assign_readonly (o : Protocol) (l : list (string * Member))
    (readonly : gset string) (k : string) :
  lock_state o = Locked readonly -> k ∈ readonly ->
  members (foldl try_assign o l) !! k = members o !! k.
Proof.
  intros Hlock Hk. revert o Hlock.
  induction l as [|kv l IH]; intros o Hlock; [done|].
  cbn [foldl]. unfold try_assign at 2, writable. rewrite Hlock.
  destruct (bool_decide_reflect (kv.1 ∉ readonly)) as [Hnew|_].
  - rewrite IH by exact Hlock. cbn [with_members members].
    apply lookup_insert_ne. intros Heq. apply Hnew. by rewrite Heq.
  - by apply IH.
Qed.

(** What a write from outside adds is what was written. *)
Lemma try_assign_added (o : Protocol) (l : list (string * Member))
    (k : string) (m : Member) :
  members (foldl try_assign o l) !! k = Some m ->
  members o !! k = Some m \/ (k, m) ∈ l.
Proof.
  revert o. induction l as [|kv l IH]; intros o; [by left|].
  cbn [foldl]. intros H. apply IH in H as [H | H].
  - unfold try_assign in H. destruct (writable o kv.1); [|by left].
    cbn [with_members members] in H.
    destruct (decide (kv.1 = k)) as [<- | Hne].
    + rewrite lookup_insert_eq in H. injection H as <-.
      right. destruct kv. apply elem_of_cons. by left.
    + rewrite lookup_insert_ne in H by done. by left.
  - right. apply elem_of_cons. by right.
Qed.

Lemma extended_shape (opts : Options) (dc0 : value) (obj : Protocol) :
  extended E opts dc0 obj =
    with_lock Frozen (with_members (members (extended E opts dc0 obj)) obj).
Proof.
  unfold extended. cbn zeta. unfold utils_lock at 1 3.
  rewrite try_assign_shape at 1. reflexivity.
Qed.

Lemma extended_frozen (opts : Options) (dc0 : value) (obj : Protocol) :
  lock_state (extended E opts dc0 obj) = Frozen.
Proof. reflexivity. Qed.

(** The properties the object has after the methods were set are kept by
    the extension event. *)
Lemma extended_lookup (opts : Options) (dc0 : value) (obj : Protocol)
    (k : string) :
  is_Some (with_methods (members obj) !! k) ->
  members (extended E opts dc0 obj) !! k = with_methods (members obj) !! k.
Proof.
  intros Hk. unfold extended. cbn zeta.
  unfold utils_lock at 1. cbn [with_lock members].
  erewrite try_assign_readonly; [reflexivity|reflexivity|].
  cbn [utils_lock with_lock with_members members]. by apply elem_of_dom.
Qed.

(** On an object that is still open, [extend] sets the fourteen methods,
    makes the properties read-only, raises the extension event once and
    returns the object frozen. *)
Lemma extend_open (ctx : nat) (obj : Protocol) (w : World) :
  lock_state obj = Open ->
  extend E ctx obj w =
    (Normal (extended E (options (ctx_at w ctx)) (dc (ctx_at w ctx)) obj),
     (log (EvExtend (oid obj)) w).2).
Proof.
  intros Hopen. unfold extend.
  destruct obj as [i k c cn0 dc0 cf m t l]; cbn in Hopen; subst l.
  do 14 (rewrite bind_assign by reflexivity; fields).
  unfold events_extend.
  unfold mbind, M_bind, mret, M_ret, ctx_get, log.
  unfold extended, with_methods, method_names. cbn [foldl]. fields.
  cbn [snd fst]. reflexivity.
Qed.

(** ** [taskProcessor], part by part *)

(** What [task_context] returns and the world it leaves: the clone sits at
    the next free address, nothing is logged, no other object is written. *)
Lemma task_context_spec (obj : Protocol) (this p1 p2 : value) (isTX : bool)
    (w : World) :
  exists w0,
    task_context obj this p1 p2 isTX w =
      (Normal (nextId w, if is_defined p2 then p1 else VUndefined), w0) /\
    trace w0 = trace w /\
    nextId w0 = S (nextId w) /\
    (forall r, r ≠ nextId w -> heap w0 !! r = heap w !! r) /\
    ctx_at w0 (nextId w) =
      {| cn := cn (ctx_at w (octx obj));
         dc := dc (ctx_at w (octx obj));
         options := options (ctx_at w (octx obj));
         db := db (ctx_at w (octx obj));
         txLevel :=
           if isTX then
             Some (match txLevel (ctx_at w (octx obj)) with
                   | Some l => if 0 <=? l then l + 1 else 0
                   | None => 0
                   end)
           else txLevel (ctx_at w (octx obj));
         context := if same_object this obj then None else Some this;
         cb := callback_of p1 p2 |}.
Proof.
  unfold task_context, ctx_clone, callback_of.
  destruct isTX, (same_object this obj), (is_defined p2); run;
    (eexists; split; [reflexivity|]; cbn;
     repeat split; try reflexivity;
     [ intros r Hr; rewrite ?lookup_insert_ne by done; reflexivity
     | rewrite ctx_at_insert_eq; reflexivity ]).
Qed.

(** With a callback that is a function, the invocation comes down to
    [task_run] on the clone and a frozen task object; up to there only the
    extension event of the task object was logged. *)
Lemma taskProcessor_valid (obj : Protocol) (this p1 p2 : value) (isTX : bool)
    (w : World) :
  is_function (callback_of p1 p2) = true ->
  exists tsk w0 w1,
    task_context obj this p1 p2 isTX w =
      (Normal (nextId w, if is_defined p2 then p1 else VUndefined), w0) /\
    taskProcessor E obj this p1 p2 isTX w =
      task_run E (nextId w) tsk isTX w1 /\
    okind tsk = KTask /\ octx tsk = nextId w /\ lock_state tsk = Frozen /\
    trace w1 = trace w ++ [EvExtend (oid tsk)] /\
    heap w1 = heap w0.
Proof.
  intros Hfun.
  destruct (task_context_spec obj this p1 p2 isTX w)
    as (w0 & Hctx & Htr & Hnext & Hothers & Hclone).
  unfold taskProcessor, mbind, M_bind. rewrite Hctx.
  unfold task_body, mbind, M_bind, ctx_get. rewrite Hclone.
  cbn [cb]. rewrite Hfun. cbn [negb].
  unfold new_task, mbind, M_bind, mret, M_ret, fresh.
  rewrite extend_open by reflexivity. rewrite extended_shape.
  do 3 eexists. split; [reflexivity|]. split; [reflexivity|].
  cbn. rewrite Htr. repeat split; reflexivity.
Qed.

(** With anything else as the callback, the invocation stops at the check:
    a rejection with the [TypeError], in the world [task_context] left. *)
Lemma taskProcessor_invalid (obj : Protocol) (this p1 p2 : value)
    (isTX : bool) (w : World) :
  is_function (callback_of p1 p2) = false ->
  exists w0,
    task_context obj this p1 p2 isTX w =
      (Normal (nextId w, if is_defined p2 then p1 else VUndefined), w0) /\
    taskProcessor E obj this p1 p2 isTX w =
      (Normal (Rejected (VError KTypeError
         ("Callback function is required for the " +:+
          (if isTX then "transaction." else "task.")))), w0).
Proof.
  intros Hfun.
  destruct (task_context_spec obj this p1 p2 isTX w)
    as (w0 & Hctx & Htr & Hnext & Hothers & Hclone).
  exists w0. split; [exact Hctx|].
  unfold taskProcessor, mbind, M_bind. rewrite Hctx.
  unfold task_body, mbind, M_bind, ctx_get. rewrite Hclone.
  cbn [cb]. rewrite Hfun. reflexivity.
Qed.

(** On a context that holds a connection, [task_run] is the task runner
    and nothing else. *)
Lemma task_run_bound (taskCtx : nat) (tsk : Protocol) (isTX : bool)
    (w : World) (d : Db) :
  db (ctx_at w taskCtx) = Some d ->
  task_run E taskCtx tsk isTX w =
    task_exec E taskCtx
      (addReadProp_ctx tsk "isFresh" (VBool (isFresh d))) isTX w.
Proof.
  intros Hdb. unfold task_run, mbind, M_bind, ctx_get. by rewrite Hdb.
Qed.

Lemma ctx_disconnect_normal (r : nat) (w : World) :
  ctx_disconnect r w = (Normal tt, (ctx_disconnect r w).2).
Proof.
  unfold ctx_disconnect, mbind, M_bind, ctx_get.
  destruct (db (ctx_at w r)); reflexivity.
Qed.

(** On a context that holds none, [task_run] asks the pool; once the pool
    has answered with a connection, the runner runs on the bound context
    and, however it completes, [disconnect] is called once on the world it
    leaves, and the promise settles as the runner did. *)
Lemma task_run_acquired (taskCtx : nat) (tsk : Protocol) (isTX : bool)
    (w : World) (d : Db) :
  db (ctx_at w taskCtx) = None ->
  let w1 := (log (EvAcquire Pool taskCtx) w).2 in
  acquire E Pool taskCtx w1 = Resolved d ->
  let w2 := (ctx_connect taskCtx d w1).2 in
  let run := task_exec E taskCtx
               (addReadProp_ctx tsk "isFresh" (VBool (isFresh d))) isTX w2 in
  task_run E taskCtx tsk isTX w =
    (Normal (settle run.1), (ctx_disconnect taskCtx run.2).2).
Proof.
  intros Hdb w1 Hacq w2 run0.
  assert (Hlog : log (EvAcquire Pool taskCtx) w = (Normal tt, w1))
    by reflexivity.
  assert (Hconn : ctx_connect taskCtx d w1 = (Normal tt, w2))
    by reflexivity.
  unfold task_run, mbind, M_bind, ctx_get. rewrite Hdb.
  unfold npm_connect, mbind, M_bind, mret, M_ret, get_world.
  rewrite Hlog, Hacq. cbn [then_]. rewrite Hconn. fold run0.
  destruct run0 as [[[v|e]|e] w3]; cbn [settle fst snd then_ catch_];
    rewrite (ctx_disconnect_normal taskCtx w3); reflexivity.
Qed.

(** When the pool answers with an error, nothing runs and nothing is
    released: the promise rejects with that error. *)
Lemma task_run_refused (taskCtx : nat) (tsk : Protocol) (isTX : bool)
    (w : World) (e : value) :
  db (ctx_at w taskCtx) = None ->
  let w1 := (log (EvAcquire Pool taskCtx) w).2 in
  acquire E Pool taskCtx w1 = Rejected e ->
  task_run E taskCtx tsk isTX w = (Normal (Rejected e), w1).
Proof.
  intros Hdb w1 Hacq.
  assert (Hlog : log (EvAcquire Pool taskCtx) w = (Normal tt, w1))
    by reflexivity.
  unfold task_run, mbind, M_bind, ctx_get. rewrite Hdb.
  unfold npm_connect, mbind, M_bind, mret, M_ret, get_world.
  rewrite Hlog, Hacq. cbn [then_ catch_ settle].
  unfold ctx_disconnect, mbind, M_bind, ctx_get.
  change (ctx_at w1 taskCtx) with (ctx_at w taskCtx). rewrite Hdb.
  reflexivity.
Qed.

(** ** Connections and levels under [connect] and [disconnect] *)

Lemma ctx_disconnect_bound (r : nat) (w : World) (d : Db) :
  db (ctx_at w r) = Some d ->
  trace (ctx_disconnect r w).2 = trace w ++ [EvRelease (client d)] /\
  db (ctx_at (ctx_disconnect r w).2 r) = None.
Proof.
  intros Hdb. unfold ctx_disconnect, mbind, M_bind, ctx_get.
  rewrite Hdb. run. split; reflexivity.
Qed.

Lemma ctx_at_put (r r' : nat) (c : ConnectionContext) (w : World) :
  ctx_at (ctx_put r c w).2 r' = if decide (r = r') then c else ctx_at w r'.
Proof.
  unfold ctx_at, ctx_put; cbn. rewrite lookup_insert.
  by destruct (decide (r = r')).
Qed.

Lemma ctx_connect_at (r : nat) (d : Db) (w : World) :
  ctx_at (ctx_connect r d w).2 r = set_db (Some d) (ctx_at w r).
Proof.
  unfold ctx_connect, mbind, M_bind, ctx_get.
  rewrite ctx_at_put. by destruct (decide (r = r)).
Qed.

Lemma ctx_connect_level (r r' : nat) (d : Db) (w : World) :
  txLevel (ctx_at (ctx_connect r d w).2 r') = txLevel (ctx_at w r').
Proof.
  unfold ctx_connect, mbind, M_bind, ctx_get.
  rewrite ctx_at_put. by destruct (decide (r = r')) as [->|].
Qed.

Lemma ctx_disconnect_level (r r' : nat) (w : World) :
  txLevel (ctx_at (ctx_disconnect r w).2 r') = txLevel (ctx_at w r').
Proof.
  unfold ctx_disconnect, mbind, M_bind, ctx_get.
  destruct (db (ctx_at w r)) as [d|]; [|reflexivity].
  change (log (EvRelease (client d)) w)
    with (Normal tt, (log (EvRelease (client d)) w).2).
  cbn beta iota. rewrite ctx_at_put.
  by destruct (decide (r = r')) as [->|].
Qed.

Lemma releases_of_app (c : nat) (t t' : list Event) :
  releases_of c (t ++ t') = (releases_of c t + releases_of c t')%nat.
Proof. unfold releases_of. by rewrite List.filter_app, length_app. Qed.

(** [task_run] writes no nesting level: where the task runner leaves the
    level of a context alone, so does the whole run. *)
Lemma task_run_level (taskCtx : nat) (tsk : Protocol) (isTX : bool)
    (w : World) (r : nat) :
  (forall t w', txLevel (ctx_at (task_exec E taskCtx t isTX w').2 r) =
                txLevel (ctx_at w' r)) ->
  txLevel (ctx_at (task_run E taskCtx tsk isTX w).2 r) = txLevel (ctx_at w r).
Proof.
  intros Hframe.
  destruct (db (ctx_at w taskCtx)) as [d|] eqn:Hdb.
  - rewrite (task_run_bound _ _ _ _ d Hdb). apply Hframe.
  - destruct (acquire E Pool taskCtx (log (EvAcquire Pool taskCtx) w).2)
      as [d|e] eqn:Hacq.
    + rewrite (task_run_acquired _ _ _ _ d Hdb Hacq). cbn [snd].
      rewrite ctx_disconnect_level, Hframe, ctx_connect_level.
      reflexivity.
    + rewrite (task_run_refused _ _ _ _ e Hdb Hacq). reflexivity.
Qed.

(** The nesting levels an invocation leaves behind, for every context
    whose level the task runner does not write. *)
Lemma taskProcessor_level (obj : Protocol) (this p1 p2 : value)
    (isTX : bool) (w : World) (r : nat) :
  (forall t w', txLevel (ctx_at (task_exec E (nextId w) t isTX w').2 r) =
                txLevel (ctx_at w' r)) ->
  txLevel (ctx_at (taskProcessor E obj this p1 p2 isTX w).2 r) =
    if decide (r = nextId w) then
      if isTX then Some (entered_level (txLevel (ctx_at w (octx obj))))
      else txLevel (ctx_at w (octx obj))
    else txLevel (ctx_at w r).
Proof.
  intros Hframe.
  destruct (task_context_spec obj this p1 p2 isTX w)
    as (w0 & Hctx & Htr & Hnext & Hothers & Hclone).
  assert (Hlevel : txLevel (ctx_at w0 r) =
    if decide (r = nextId w) then
      if isTX then Some (entered_level (txLevel (ctx_at w (octx obj))))
      else txLevel (ctx_at w (octx obj))
    else txLevel (ctx_at w r)).
  { destruct (decide (r = nextId w)) as [->|Hne].
    - rewrite Hclone. cbn [txLevel]. destruct isTX; [|reflexivity].
      f_equal. unfold entered_level.
      destruct (txLevel (ctx_at w (octx obj))) as [l|]; [|reflexivity].
      destruct (Z.leb_spec 0 l), (Z.ltb_spec l 0); lia || reflexivity.
    - by rewrite (ctx_at_heap w w0 r (Hothers r Hne)). }
  destruct (is_function (callback_of p1 p2)) eqn:Hfun.
  - destruct (taskProcessor_valid obj this p1 p2 isTX w Hfun)
      as (tsk & w0' & w1 & Hctx' & Hrun & _ & _ & _ & _ & Hheap).
    rewrite Hctx in Hctx'. injection Hctx' as <-.
    rewrite Hrun, (task_run_level _ _ _ _ _ Hframe).
    rewrite <- Hlevel. apply f_equal, ctx_at_heap. by rewrite Hheap.
  - destruct (taskProcessor_invalid obj this p1 p2 isTX w Hfun)
      as (w0' & Hctx' & Hrej).
    rewrite Hctx in Hctx'. injection Hctx' as <-.
    rewrite Hrej. exact Hlevel.
Qed.

(** ** Tasks and transactions: the claims *)

(** C1. When the calling context holds no connection and the callback is
    a function, the engine asks the pool itself; once the pool has
    answered with a connection [d], and provided the task runner leaves
    the binding of the task context in place, the engine releases [d]
    exactly once, after the runner has completed: it logs no release
    before the runner starts and exactly one when it has finished,
    whether the runner resolved, rejected or threw. The returned promise
    settles as the runner did, so on the failure path it rejects with the
    original error. The callback is found on the task context the runner
    gets. *)
Theorem task_releases_acquired_connection_once (obj : Protocol)
    (this p1 p2 : value) (isTX : bool) (w : World) :
  db (ctx_at w (octx obj)) = None ->
  is_function (callback_of p1 p2) = true ->
  exists (tsk : Protocol) (w1 : World),
    trace w1 = trace w ++ [EvExtend (oid tsk); EvAcquire Pool (nextId w)] /\
    cb (ctx_at w1 (nextId w)) = callback_of p1 p2 /\
    forall d : Db,
      acquire E Pool (nextId w) w1 = Resolved d ->
      let w2 := (ctx_connect (nextId w) d w1).2 in
      let tsk_d := addReadProp_ctx tsk "isFresh" (VBool (isFresh d)) in
      forall (c : Completion (Promise value)) (w3 : World),
        task_exec E (nextId w) tsk_d isTX w2 = (c, w3) ->
        db (ctx_at w3 (nextId w)) = Some d ->
        exists w4,
          taskProcessor E obj this p1 p2 isTX w = (Normal (settle c), w4) /\
          (forall e, c = Normal (Rejected e) \/ c = Throw e ->
             taskProcessor E obj this p1 p2 isTX w =
               (Normal (Rejected e), w4)) /\
          releases_of (client d) (trace w2) =
            releases_of (client d) (trace w) /\
          trace w4 = trace w3 ++ [EvRelease (client d)] /\
          releases_of (client d) (trace w4) =
            S (releases_of (client d) (trace w3)) /\
          db (ctx_at w4 (nextId w)) = None.
Proof.
  intros Hdb Hfun.
  destruct (task_context_spec obj this p1 p2 isTX w)
    as (w0 & Hctx & Htr & Hnext & Hothers & Hclone).
  destruct (taskProcessor_valid obj this p1 p2 isTX w Hfun)
    as (tsk & w0' & w1 & Hctx' & Hrun & _ & _ & _ & Htr1 & Hheap).
  rewrite Hctx in Hctx'. injection Hctx' as <-.
  assert (Hdb1 : db (ctx_at w1 (nextId w)) = None).
  { rewrite (ctx_at_heap w0 w1) by (by rewrite Hheap).
    rewrite Hclone. exact Hdb. }
  exists tsk, (log (EvAcquire Pool (nextId w)) w1).2. split.
  { cbn. rewrite Htr1, <- app_assoc. reflexivity. }
  split.
  { change (ctx_at (log (EvAcquire Pool (nextId w)) w1).2 (nextId w))
      with (ctx_at w1 (nextId w)).
    rewrite (ctx_at_heap w0 w1) by (by rewrite Hheap).
    by rewrite Hclone. }
  intros d Hacq w2 tsk_d c w3 Hexec Hkept.
  pose proof (task_run_acquired (nextId w) tsk isTX w1 d Hdb1 Hacq) as Hrun'.
  cbn zeta in Hrun'. fold w2 tsk_d in Hrun'. rewrite Hexec in Hrun'.
  cbn [fst snd] in Hrun'.
  destruct (ctx_disconnect_bound (nextId w) w3 d Hkept) as [Htr4 Hdb4].
  exists (ctx_disconnect (nextId w) w3).2.
  rewrite Hrun, Hrun'. split; [reflexivity|].
  split. { intros e [-> | ->]; reflexivity. }
  split.
  { change (trace w2) with (trace w1 ++ [EvAcquire Pool (nextId w)]).
    rewrite Htr1, !releases_of_app. unfold releases_of. cbn. lia. }
  split; [exact Htr4|]. split; [|exact Hdb4].
  rewrite Htr4, releases_of_app. unfold releases_of at 2.
  cbn. rewrite Nat.eqb_refl. cbn. lia.
Qed.

(** C2. On entry of a transaction the nesting level of the cloned context
    is set: to 0 when the inherited level is absent or negative, to the
    inherited level plus 1 when that is an integer [>= 0]. The inherited
    level is the one the clone comes with, which is the level of the
    calling context. The rest of [tx] runs on the clone in that state, and
    no other context object has been written. *)
Theorem tx_sets_nesting_level (obj : Protocol) (this p1 p2 : value)
    (w : World) :
  let inherited :=
    txLevel (ctx_at (ctx_clone (octx obj) w).2 (nextId w)) in
  inherited = txLevel (ctx_at w (octx obj)) /\
  exists (tag : value) (w0 : World),
    task_context obj this p1 p2 true w = (Normal (nextId w, tag), w0) /\
    tx E obj this p1 p2 w = task_body E obj (nextId w) tag true w0 /\
    txLevel (ctx_at w0 (nextId w)) = Some (entered_level inherited) /\
    (forall r, r ≠ nextId w -> heap w0 !! r = heap w !! r).
Proof.
  intros inherited.
  assert (Hinh : inherited = txLevel (ctx_at w (octx obj))).
  { subst inherited. unfold ctx_clone. run. reflexivity. }
  split; [exact Hinh|]. rewrite Hinh.
  destruct (task_context_spec obj this p1 p2 true w)
    as (w0 & Hctx & Htr & Hnext & Hothers & Hclone).
  eexists _, w0. split; [exact Hctx|].
  split. { unfold tx, taskProcessor, mbind, M_bind. by rewrite Hctx. }
  split; [|exact Hothers].
  rewrite Hclone. cbn [txLevel]. f_equal. unfold entered_level.
  destruct (txLevel (ctx_at w (octx obj))) as [l|]; [|reflexivity].
  destruct (Z.leb_spec 0 l), (Z.ltb_spec l 0); lia || reflexivity.
Qed.

(** C4. When the callback argument of [task] or [tx] is not a function,
    the returned promise is rejected with the [TypeError] at once: nothing
    is added to the trace (no acquisition, no release, no statement) and
    no context object that existed before is written. *)
Theorem task_without_callback_rejects (obj : Protocol) (this p1 p2 : value)
    (isTX : bool) (w : World) :
  is_function (callback_of p1 p2) = false ->
  exists w',
    taskProcessor E obj this p1 p2 isTX w =
      (Normal (Rejected (VError KTypeError
         ("Callback function is required for the " +:+
          (if isTX then "transaction." else "task.")))), w') /\
    trace w' = trace w /\
    (forall r, r ≠ nextId w -> heap w' !! r = heap w !! r).
Proof.
  intros Hfun.
  destruct (task_context_spec obj this p1 p2 isTX w)
    as (w0 & Hctx & Htr & Hnext & Hothers & Hclone).
  destruct (taskProcessor_invalid obj this p1 p2 isTX w Hfun)
    as (w0' & Hctx' & Hrej).
  rewrite Hctx in Hctx'. injection Hctx' as <-.
  exists w0. auto.
Qed.

(** C5. When the calling context holds a connection [d] and the callback
    is a function, the invocation is the task runner run on the clone,
    which is bound to the same [d]: before the runner starts only the
    extension event of the task object is logged (no acquisition), no
    other context is written, and nothing follows the runner (no
    release). *)
Theorem task_reuses_bound_connection (obj : Protocol) (this p1 p2 : value)
    (isTX : bool) (w : World) (d : Db) :
  db (ctx_at w (octx obj)) = Some d ->
  is_function (callback_of p1 p2) = true ->
  exists (tsk : Protocol) (w1 : World),
    taskProcessor E obj this p1 p2 isTX w =
      task_exec E (nextId w) tsk isTX w1 /\
    trace w1 = trace w ++ [EvExtend (oid tsk)] /\
    db (ctx_at w1 (nextId w)) = Some d /\
    cb (ctx_at w1 (nextId w)) = callback_of p1 p2 /\
    (forall r, r ≠ nextId w -> heap w1 !! r = heap w !! r).
Proof.
  intros Hdb Hfun.
  destruct (task_context_spec obj this p1 p2 isTX w)
    as (w0 & Hctx & Htr & Hnext & Hothers & Hclone).
  destruct (taskProcessor_valid obj this p1 p2 isTX w Hfun)
    as (tsk & w0' & w1 & Hctx' & Hrun & _ & _ & _ & Htr1 & Hheap).
  rewrite Hctx in Hctx'. injection Hctx' as <-.
  assert (Hdb1 : db (ctx_at w1 (nextId w)) = Some d).
  { rewrite (ctx_at_heap w0 w1) by (by rewrite Hheap).
    rewrite Hclone. exact Hdb. }
  exists (addReadProp_ctx tsk "isFresh" (VBool (isFresh d))), w1.
  split. { rewrite Hrun. by apply task_run_bound. }
  split; [exact Htr1|]. split; [exact Hdb1|].
  split.
  { rewrite (ctx_at_heap w0 w1) by (by rewrite Hheap). by rewrite Hclone. }
  intros r Hr. rewrite Hheap. by apply Hothers.
Qed.

(** C10. A plain task leaves the nesting level alone. The clone comes
    with the level of the calling context; on entry it still has it and
    no other context object has been written; and for every context whose
    level the task runner does not write, the whole invocation leaves the
    level as it was: the inherited one on the clone, the previous one
    everywhere else. *)
Theorem task_keeps_nesting_level (obj : Protocol) (this p1 p2 : value)
    (w : World) :
  txLevel (ctx_at (ctx_clone (octx obj) w).2 (nextId w)) =
    txLevel (ctx_at w (octx obj)) /\
  exists (tag : value) (w0 : World),
    task_context obj this p1 p2 false w = (Normal (nextId w, tag), w0) /\
    task E obj this p1 p2 w = task_body E obj (nextId w) tag false w0 /\
    txLevel (ctx_at w0 (nextId w)) = txLevel (ctx_at w (octx obj)) /\
    (forall r, r ≠ nextId w -> heap w0 !! r = heap w !! r) /\
    forall r,
      (forall t w', txLevel (ctx_at (task_exec E (nextId w) t false w').2 r) =
                    txLevel (ctx_at w' r)) ->
      txLevel (ctx_at (task E obj this p1 p2 w).2 r) =
        if decide (r = nextId w) then txLevel (ctx_at w (octx obj))
        else txLevel (ctx_at w r).
Proof.
  split. { unfold ctx_clone. run. reflexivity. }
  destruct (task_context_spec obj this p1 p2 false w)
    as (w0 & Hctx & Htr & Hnext & Hothers & Hclone).
  eexists _, w0. split; [exact Hctx|].
  split. { unfold task, taskProcessor, mbind, M_bind. by rewrite Hctx. }
  split. { by rewrite Hclone. }
  split; [exact Hothers|].
  intros r Hframe. unfold task.
  by rewrite (taskProcessor_level obj this p1 p2 false w r Hframe).
Qed.

(** ** Handles of [connect] *)

(** A successful [done()] releases the connection of the handle, once,
    and leaves the handle released. *)
Lemma done_releases (h : Protocol) (w : World) (d : Db) :
  okind h = KHandle ->
  db (ctx_at w (octx h)) = Some d ->
  exists w',
    done h w = (Normal tt, w') /\
    trace w' = trace w ++ [EvRelease (client d)] /\
    released h w'.
Proof.
  intros Hkind Hdb.
  destruct (ctx_disconnect_bound (octx h) w d Hdb) as [Htr Hnone].
  exists (ctx_disconnect (octx h) w).2.
  unfold done, mbind, M_bind, ctx_get. rewrite Hdb.
  split; [apply ctx_disconnect_normal|]. by repeat split.
Qed.

Lemma query_on_released (h : Protocol) (this q v : value) (qrm : Qrm)
    (w : World) :
  released h w ->
  obj_query E h this q v qrm w =
    (Throw (VError KError "Cannot execute a query on a disconnected client."),
     w).
Proof.
  intros [Hkind Hdb].
  unfold obj_query. rewrite Hkind.
  unfold connect_query, mbind, M_bind, ctx_get. by rewrite Hdb.
Qed.

(** C3. On a handle of [connect] whose connection has been released, the
    generic [query] and every method that goes through it ([none], [one],
    [many], [oneOrNone], [manyOrNone], [any], [result], [stream], [func],
    [proc], [map], [each]) fail at once: the usage error is thrown, and
    the world is left as it was, so neither the pool nor the driver is
    contacted. *)
Theorem released_handle_refuses_queries (h : Protocol)
    (this q v f thisArg : value) (qrm : Qrm) (w : World) :
  released h w ->
  let refused : Completion (Promise value) * World :=
    (Throw (VError KError "Cannot execute a query on a disconnected client."),
     w) in
  obj_query E h this q v qrm w = refused /\
  none E h this q v w = refused /\
  one E h this q v f thisArg w = refused /\
  many E h this q v w = refused /\
  oneOrNone E h this q v f thisArg w = refused /\
  manyOrNone E h this q v w = refused /\
  any E h this q v w = refused /\
  result E h this q v f thisArg w = refused /\
  stream E h this q v w = refused /\
  func E h this q v qrm w = refused /\
  proc E h this q v f thisArg w = refused /\
  map E h this q v f thisArg w = refused /\
  each E h this q v f thisArg w = refused.
Proof.
  intros Hrel refused.
  unfold none, one, many, oneOrNone, manyOrNone, result, stream, proc, func,
    map, each, any, mbind, M_bind.
  rewrite !(query_on_released h _ _ _ _ w Hrel).
  repeat split.
Qed.

(** C8. [done()] on a handle whose connection has already been released
    throws the error, and the world is left as it was: in particular no
    second release is logged. *)
Theorem done_on_released_handle_throws (h : Protocol) (w : World) :
  released h w ->
  done h w =
    (Throw (VError KError "Cannot invoke done() on a disconnected client."),
     w).
Proof.
  intros [Hkind Hdb]. unfold done, mbind, M_bind, ctx_get. by rewrite Hdb.
Qed.

(** ** Queries and the mask *)

Lemma mask_one (rows : list value) :
  mask_result result_one rows =
    match rows with
    | [] => Rejected (VError KQueryResultError "No data returned from the query.")
    | [row] => Resolved row
    | _ => Rejected (VError KQueryResultError "Multiple rows were not expected.")
    end.
Proof. by destruct rows as [|r [|r' rows]]. Qed.

(** A request answered with rows passed the preparation, and the rows
    are the driver's. *)
Lemma execute_rows (c : nat) (q v : value) (rows : list value) :
  (forall w', execute E c q v w' = Resolved rows) ->
  prepare E q v = None /\ forall w', driver E c q v w' = Resolved rows.
Proof.
  intros Hrows. unfold execute in Hrows.
  destruct (prepare E q v) as [e|].
  - discriminate (Hrows {| heap := ∅; nextId := 0; trace := [];
                           dbObjects := ∅; jsHandled := false;
                           nativeHandled := false |}).
  - by split.
Qed.

(** A query on a bound context: one statement to the driver, masked. *)
Lemma npm_query_rows (this : value) (r : nat) (q v : value) (m : Z)
    (w : World) (d : Db) (rows : list value) :
  db (ctx_at w r) = Some d ->
  (forall w', execute E (client d) q v w' = Resolved rows) ->
  npm_query E this r q v (QrmMask m) w =
    (Normal (mask_result m rows), (log (EvDriver (client d) q v) w).2).
Proof.
  intros Hdb Hrows. apply execute_rows in Hrows as [Hprep Hrows].
  unfold npm_query, mbind, M_bind, mret, M_ret, ctx_get, get_world.
  rewrite Hdb. unfold refusal. rewrite Hprep.
  change (log (EvDriver (client d) q v) w)
    with (Normal tt, (log (EvDriver (client d) q v) w).2).
  cbn beta iota. by rewrite Hrows.
Qed.

(** A query on a bound context settles and does not throw. A request
    that is refused rejects with the error of the refusal in the world as
    it is; any other request sends its one statement to the driver. *)
Lemma npm_query_bound (this : value) (r : nat) (q v : value) (qrm : Qrm)
    (w : World) (d : Db) :
  db (ctx_at w r) = Some d ->
  match refusal E (options (ctx_at w r)) q v qrm with
  | Some e => npm_query E this r q v qrm w = (Normal (Rejected e), w)
  | None =>
      exists p,
        npm_query E this r q v qrm w =
          (Normal p, (log (EvDriver (client d) q v) w).2) /\
        (forall e,
           (forall w', driver E (client d) q v w' = Rejected e) ->
           p = Rejected e)
  end.
Proof.
  intros Hdb.
  unfold npm_query, mbind, M_bind, mret, M_ret, ctx_get, get_world.
  rewrite Hdb.
  destruct (refusal E (options (ctx_at w r)) q v qrm) as [e|]; [reflexivity|].
  change (log (EvDriver (client d) q v) w)
    with (Normal tt, (log (EvDriver (client d) q v) w).2).
  cbn beta iota.
  destruct (driver E (client d) q v (log (EvDriver (client d) q v) w).2)
    as [rows|e'] eqn:Hd; eexists; (split; [reflexivity|]); intros e He;
    rewrite He in Hd; [discriminate Hd|by injection Hd as ->].
Qed.

(** The generic query of any protocol object, when the connection is
    there (or the pool provides it) and the driver answers with [rows]. *)
Lemma obj_query_rows (obj : Protocol) (this q v : value) (m : Z) (w : World)
    (d : Db) (rows : list value) :
  match okind obj with
  | KRoot => forall r w', acquire E Pool r w' = Resolved d
  | _ => db (ctx_at w (octx obj)) = Some d
  end ->
  (forall w', execute E (client d) q v w' = Resolved rows) ->
  exists w1,
    obj_query E obj this q v (QrmMask m) w = (Normal (mask_result m rows), w1).
Proof.
  intros Hconn Hrows. unfold obj_query.
  destruct (okind obj).
  - unfold Database_query, createContext, ctx_new, npm_connect.
    run. rewrite Hconn. cbn [then_].
    unfold ctx_connect, mbind, M_bind, ctx_get, ctx_put.
    rewrite ctx_at_insert_eq. cbn [set_db].
    erewrite npm_query_rows;
      [| rewrite ctx_at_insert_eq; reflexivity | exact Hrows].
    cbn [settle then_ catch_ fst snd].
    destruct (mask_result m rows) as [data|e]; cbn [then_ catch_];
      match goal with
      | |- context [ctx_disconnect ?r ?w0] =>
          rewrite (ctx_disconnect_normal r w0)
      end; cbn [settle]; eexists; reflexivity.
  - unfold connect_query, mbind, M_bind, ctx_get. rewrite Hconn.
    eexists. by apply npm_query_rows.
  - unfold task_query, mbind, M_bind, ctx_get. rewrite Hconn.
    eexists. by apply npm_query_rows.
Qed.

(** C6. [one] on a query the driver answers with [rows]. With no row or
    with several rows the promise is rejected with a cardinality error and
    the transform is not called. With exactly one row, [one] resolves with
    that row when no transform is given, and otherwise settles as the
    transform completes on that row: resolved with what it returns,
    rejected with what it throws. So without a transform [one] resolves,
    with the single row, if and only if the row count is 1. *)
Theorem one_cardinality (obj : Protocol) (this q v f thisArg : value)
    (w : World) (d : Db) (rows : list value) :
  match okind obj with
  | KRoot => forall r w', acquire E Pool r w' = Resolved d
  | _ => db (ctx_at w (octx obj)) = Some d
  end ->
  (forall w', execute E (client d) q v w' = Resolved rows) ->
  exists w1,
    obj_query E obj this q v (QrmMask result_one) w =
      (Normal (mask_result result_one rows), w1) /\
    (length rows ≠ 1%nat ->
       exists msg,
         one E obj this q v f thisArg w =
           (Normal (Rejected (VError KQueryResultError msg)), w1)) /\
    (forall row, rows = [row] ->
       one E obj this q v f thisArg w =
         if is_function f then
           let (c, w2) := call_value E f thisArg [row] w1 in
           (Normal (match c with
                    | Normal r => Resolved r
                    | Throw e => Rejected e
                    end), w2)
         else (Normal (Resolved row), w1)) /\
    (is_function f = false ->
       (exists row w', one E obj this q v f thisArg w =
                         (Normal (Resolved row), w'))
       <-> length rows = 1%nat).
Proof.
  intros Hconn Hrows.
  destruct (obj_query_rows obj this q v result_one w d rows Hconn Hrows)
    as (w1 & Hq).
  exists w1. split; [exact Hq|].
  unfold one, mbind, M_bind. rewrite Hq, mask_one.
  unfold singleValue.
  split; [|split].
  - intros Hlen.
    destruct rows as [|r [|r' rows]]; [|done|];
      eexists; destruct (is_function f); reflexivity.
  - intros row ->. destruct (is_function f); [|reflexivity].
    cbn [then_]. unfold mbind, M_bind, mret, M_ret.
    destruct (call_value E f thisArg [row] w1) as [[r|e] w2]; reflexivity.
  - intros ->. split.
    + intros (row & w' & Hres).
      destruct rows as [|r [|r' rows]]; [discriminate|reflexivity|discriminate].
    + intros Hlen. destruct rows as [|r [|r' rows]]; try discriminate.
      by exists r, w1.
Qed.

(** ** The protocol object after [extend] *)

Lemma with_methods_lookup (m : gmap string Member) (n : string) :
  n ∈ method_names -> with_methods m !! n = Some (MFunction n).
Proof.
  unfold with_methods, method_names. cbn [foldl]. intros Hn.
  repeat (apply elem_of_cons in Hn as [-> | Hn];
          [ repeat (rewrite lookup_insert_ne by discriminate);
            apply lookup_insert_eq | ]).
  by apply elem_of_nil in Hn.
Qed.

Lemma locked_refuses (o : Protocol) (k : string) (m : Member) (w : World) :
  writable o k = false ->
  assign k m o w =
    (Throw (VError KTypeError "Cannot assign to read only property"), w) /\
  try_assign o (k, m) = o.
Proof. intros Hw. unfold assign, try_assign. cbn [fst]. by rewrite Hw. Qed.

Lemma try_assign_lock (o : Protocol) (kv : string * Member) :
  lock_state (try_assign o kv) = lock_state o.
Proof. unfold try_assign. by destruct (writable o kv.1). Qed.

(** On a locked object a name that is not read-only and that is written
    from outside is there afterwards. *)
Lemma try_assign_new (o : Protocol) (l : list (string * Member))
    (readonly : gset string) (k : string) :
  lock_state o = Locked readonly -> k ∉ readonly ->
  is_Some (members o !! k) \/ k ∈ l.*1 ->
  is_Some (members (foldl try_assign o l) !! k).
Proof.
  intros Hlock Hk. revert o Hlock.
  induction l as [|kv l IH]; intros o Hlock Hin.
  - destruct Hin as [Hin | Hin]; [exact Hin|]. by apply elem_of_nil in Hin.
  - cbn [foldl]. apply IH; [by rewrite try_assign_lock|].
    unfold try_assign, writable. rewrite Hlock.
    destruct (decide (kv.1 = k)) as [Heq | Hne].
    + left. rewrite Heq, bool_decide_eq_true_2 by exact Hk.
      cbn [with_members members]. rewrite lookup_insert_eq. by eexists.
    + destruct Hin as [Hin | Hin].
      * left. destruct (bool_decide (kv.1 ∉ readonly)); [|exact Hin].
        cbn [with_members members]. by rewrite lookup_insert_ne.
      * right. rewrite fmap_cons in Hin.
        apply elem_of_cons in Hin as [Heq | Hin]; [by symmetry in Heq|done].
Qed.

(** C7. [extend] on a fresh (open) object. After the fourteen methods are
    set, the properties the object has are made read-only: the object
    refuses to overwrite any of them, and it still takes a property it
    does not have. That is the object the extension event sees. The event
    is raised exactly once; of what its handler writes, a new name is
    added and a write to a property that was there is refused. What comes
    back is frozen: the object [extend] returns carries the fourteen
    methods and every property it had before the event, each as it was,
    nothing else but what the handler wrote, and it refuses every
    addition and every overwrite from then on. *)
Theorem extend_locks_and_freezes (ctx : nat) (obj : Protocol) (w : World) :
  lock_state obj = Open ->
  let opts := options (ctx_at w ctx) in
  let dc0 := dc (ctx_at w ctx) in
  exists locked final : Protocol,
    locked =
      utils_lock (with_members (with_methods (members obj)) obj) false opts /\
    lock_state locked = Locked (dom (members locked)) /\
    (forall n, n ∈ method_names -> members locked !! n = Some (MFunction n)) /\
    (forall k m w',
       is_Some (members locked !! k) ->
       assign k m locked w' =
         (Throw (VError KTypeError "Cannot assign to read only property"), w')
       /\ try_assign locked (k, m) = locked) /\
    (forall k m,
       members locked !! k = None ->
       members (try_assign locked (k, m)) !! k = Some m) /\
    final =
      utils_lock (foldl try_assign locked (extension E opts locked dc0))
        true opts /\
    extend E ctx obj w = (Normal final, (log (EvExtend (oid obj)) w).2) /\
    length (List.filter is_extend (trace (extend E ctx obj w).2)) =
      S (length (List.filter is_extend (trace w))) /\
    lock_state final = Frozen /\
    (forall n, n ∈ method_names -> members final !! n = Some (MFunction n)) /\
    (forall k,
       is_Some (members locked !! k) ->
       members final !! k = members locked !! k) /\
    (forall k,
       members locked !! k = None ->
       k ∈ (extension E opts locked dc0).*1 ->
       is_Some (members final !! k)) /\
    (forall k m,
       members final !! k = Some m ->
       members locked !! k = Some m \/
       (k, m) ∈ extension E opts locked dc0) /\
    (forall k m w',
       assign k m final w' =
         (Throw (VError KTypeError "Cannot assign to read only property"), w')
       /\ try_assign final (k, m) = final).
Proof.
  intros Hopen opts dc0.
  set (locked := utils_lock (with_members (with_methods (members obj)) obj)
                   false opts).
  exists locked, (extended E opts dc0 obj).
  assert (Hlock : lock_state locked = Locked (dom (members locked)))
    by reflexivity.
  split; [reflexivity|]. split; [exact Hlock|].
  split. { intros n Hn. by apply with_methods_lookup. }
  split.
  { intros k m w' Hk. apply locked_refuses. unfold writable.
    rewrite Hlock. apply bool_decide_eq_false_2.
    intros Hnot. apply Hnot. by apply elem_of_dom. }
  split.
  { intros k m Hk. unfold try_assign, writable. rewrite Hlock. cbn [fst snd].
    rewrite bool_decide_eq_true_2 by (by apply not_elem_of_dom).
    cbn [with_members members]. apply lookup_insert_eq. }
  split; [reflexivity|].
  rewrite (extend_open ctx obj w Hopen).
  split; [reflexivity|].
  split. { cbn. rewrite List.filter_app, length_app. cbn. lia. }
  split; [reflexivity|].
  split.
  { intros n Hn. rewrite extended_lookup.
    - by apply with_methods_lookup.
    - rewrite with_methods_lookup by exact Hn. by eexists. }
  split. { intros k Hk. by apply extended_lookup. }
  split.
  { intros k Hk Hin. unfold extended. cbn zeta. fold locked.
    unfold utils_lock at 1. cbn [with_lock members].
    apply (try_assign_new locked _ (dom (members locked)));
      [exact Hlock|by apply not_elem_of_dom|by right]. }
  split.
  { intros k m Hfinal. unfold extended in Hfinal. cbn zeta in Hfinal.
    fold locked in Hfinal. unfold utils_lock at 1 in Hfinal.
    cbn [with_lock members] in Hfinal. by apply try_assign_added. }
  intros k m w'. by apply locked_refuses.
Qed.

(** ** The duplicate-object guard *)

Lemma warnings_for_app (k : string) (t t' : list Event) :
  warnings_for k (t ++ t') = (warnings_for k t + warnings_for k t')%nat.
Proof. unfold warnings_for. by rewrite List.filter_app, length_app. Qed.

Lemma checkForDuplicates_run (cn0 : value) (config : Config) (w : World) :
  let cnKey := JSON_stringify E cn0 in
  let warned :=
    registered cnKey w && negb (noWarnings (cfg_options config)) in
  exists w',
    checkForDuplicates E cn0 config w = (Normal tt, w') /\
    heap w' = heap w /\
    trace w' = trace w ++ (if warned then [EvWarn cnKey] else []) /\
    dbObjects w' =
      (if registered cnKey w then dbObjects w
       else <[cnKey := true]> (dbObjects w)) /\
    registered cnKey w' = true.
Proof.
  intros cnKey warned.
  unfold checkForDuplicates, mbind, M_bind, get_world. fold cnKey.
  subst warned. destruct (registered cnKey w) eqn:Hreg.
  - destruct (noWarnings (cfg_options config)); cbn [negb andb];
      eexists; (split; [reflexivity|]); cbn;
      rewrite ?app_nil_r; repeat split; exact Hreg.
  - eexists. split; [reflexivity|]. cbn. rewrite app_nil_r.
    repeat split. unfold registered. cbn.
    apply bool_decide_eq_true. rewrite lookup_insert_eq. by eexists.
Qed.

(** Making a [Database] object always succeeds; it leaves the key in the
    registry and adds one warning for it exactly when the key was there
    and warnings are on. *)
Lemma Database_creation (cn0 dc0 : value) (config : Config) (w : World) :
  let cnKey := JSON_stringify E cn0 in
  let warned :=
    registered cnKey w && negb (noWarnings (cfg_options config)) in
  exists (o : Protocol) (w' : World),
    Database E cn0 dc0 config w = (Normal o, w') /\
    okind o = KRoot /\
    registered cnKey w' = true /\
    warnings_for cnKey (trace w') =
      (warnings_for cnKey (trace w) + (if warned then 1 else 0))%nat.
Proof.
  intros cnKey warned.
  destruct (checkForDuplicates_run cn0 config w)
    as (w' & Hc & Hheap & Htr & Hreg & Hin).
  fold cnKey in Htr, Hreg, Hin. fold warned in Htr.
  unfold Database, mbind, M_bind. rewrite Hc.
  unfold setErrorHandler, ctx_new, mbind, M_bind, mret, M_ret, get_world,
    fresh, ctx_put, set_handled.
  destruct (pgNative (cfg_options config)).
  - destruct (nativeHandled w'); cbn [negb log];
      rewrite extend_open, extended_shape by reflexivity;
      (do 2 eexists; split; [reflexivity|]);
      cbn -[warnings_for insert lookup with_methods];
      (split; [reflexivity|]); (split; [exact Hin|]);
      rewrite Htr, !warnings_for_app; destruct warned;
      unfold warnings_for; cbn;
      rewrite ?bool_decide_eq_true_2 by reflexivity; cbn; lia.
  - destruct (jsHandled w'); cbn [negb log];
      rewrite extend_open, extended_shape by reflexivity;
      (do 2 eexists; split; [reflexivity|]);
      cbn -[warnings_for insert lookup with_methods];
      (split; [reflexivity|]); (split; [exact Hin|]);
      rewrite Htr, !warnings_for_app; destruct warned;
      unfold warnings_for; cbn;
      rewrite ?bool_decide_eq_true_2 by reflexivity; cbn; lia.
Qed.

(** C9. [checkForDuplicates] keeps the keys [JSON.stringify] gives the
    connection details in [dbObjects]. For a key that is already there it
    logs one warning, unless [noWarnings] is set, and leaves the registry
    as it is; for a new key it registers the key and logs nothing. It
    returns normally in both cases, and so does the construction of the
    [Database] object. The warning comes with every such creation: [n]
    objects made in a row for the same details draw [n] warnings for
    that key when it was registered before, [n - 1] when it was not, and
    none at all under [noWarnings]. *)
Theorem checkForDuplicates_warns_on_each_duplicate (cn0 dc0 : value)
    (config : Config) (w : World) :
  let cnKey := JSON_stringify E cn0 in
  let warned :=
    registered cnKey w && negb (noWarnings (cfg_options config)) in
  (exists w',
     checkForDuplicates E cn0 config w = (Normal tt, w') /\
     heap w' = heap w /\
     trace w' = trace w ++ (if warned then [EvWarn cnKey] else []) /\
     dbObjects w' =
       (if registered cnKey w then dbObjects w
        else <[cnKey := true]> (dbObjects w))) /\
  (exists (o : Protocol) (w' : World),
     Database E cn0 dc0 config w = (Normal o, w') /\
     okind o = KRoot /\
     registered cnKey w' = true /\
     warnings_for cnKey (trace w') =
       (warnings_for cnKey (trace w) + (if warned then 1 else 0))%nat) /\
  forall n : nat,
    exists w',
      creations E cn0 dc0 config n w = (Normal tt, w') /\
      warnings_for cnKey (trace w') =
        (warnings_for cnKey (trace w) +
         (if noWarnings (cfg_options config) then 0
          else if registered cnKey w then n else pred n))%nat.
Proof.
  intros cnKey warned.
  split.
  { destruct (checkForDuplicates_run cn0 config w)
      as (w' & Hc & Hheap & Htr & Hreg & _).
    exists w'. auto. }
  split; [apply Database_creation|].
  intros n. clear warned. revert w.
  induction n as [|n IH]; intros w.
  - exists w. split; [reflexivity|].
    destruct (noWarnings (cfg_options config)), (registered cnKey w);
      cbn; lia.
  - destruct (Database_creation cn0 dc0 config w)
      as (o & w1 & Hdb & _ & Hreg1 & Hwarn1).
    fold cnKey in Hreg1, Hwarn1.
    destruct (IH w1) as (w' & Hrest & Hwarn').
    exists w'. split.
    + cbn [creations]. unfold mbind, M_bind. rewrite Hdb. exact Hrest.
    + rewrite Hwarn', Hwarn1, Hreg1.
      destruct (noWarnings (cfg_options config)), (registered cnKey w);
        cbn; lia.
Qed.

End Properties.

(** * The properties on the sample run *)

Lemma runner_keeps_world (taskCtx : nat) (tsk : Protocol) (isTX : bool)
    (w : World) :
  (Sample.runner taskCtx tsk isTX w).2 = w.
Proof.
  unfold Sample.runner.
  destruct (cb (ctx_at w taskCtx)); try reflexivity.
  destruct code as [|[|code]]; reflexivity.
Qed.

(** Running an instance [T] of the statement about acquired connections
    on the sample collaborators: the pool answers with [Sample.conn], the
    runner completes with [c] and leaves the world alone. *)
Ltac sample_task T c :=
  let tsk := fresh "tsk" in
  let w1 := fresh "w1" in
  let Hcb := fresh "Hcb" in
  let Hall := fresh "Hall" in
  let Hrun := fresh "Hrun" in
  let Hkept := fresh "Hkept" in
  let w4 := fresh "w4" in
  let Heq := fresh "Heq" in
  let Hrel2 := fresh "Hrel2" in
  let Hrel4 := fresh "Hrel4" in
  destruct T as (tsk & w1 & _ & Hcb & Hall);
  specialize (Hall Sample.conn eq_refl); cbn zeta in Hall;
  match type of Hall with
  | forall c0 w3, task_exec _ ?r ?t ?b ?w2 = _ -> _ =>
      assert (Hrun : task_exec Sample.env r t b w2 = (c, w2))
        by (cbn [task_exec Sample.env]; unfold Sample.runner;
            rewrite ctx_connect_at; cbn [cb set_db]; rewrite Hcb;
            reflexivity);
      assert (Hkept : db (ctx_at w2 r) = Some Sample.conn)
        by (by rewrite ctx_connect_at)
  end;
  destruct (Hall _ _ Hrun Hkept) as (w4 & Heq & _ & Hrel2 & _ & Hrel4 & _);
  exists w4; split; [exact Heq|];
  cbn [client Sample.conn] in Hrel2, Hrel4;
  rewrite Hrel4, Hrel2; vm_compute; reflexivity.

(** C1 on the sample run: on the root object, [db.tx(cb)] with a callback
    that throws and [db.task(cb)] with a callback that returns 42. The
    pool hands out client 7; the transaction rejects with what the
    callback threw, the task resolves with 42, and in both runs client 7
    has been released once. *)
Lemma task_releases_acquired_connection_once_witness :
  db (ctx_at Sample.root.2 (octx Sample.root.1)) = None /\
  is_function (callback_of (Sample.fn 1) VUndefined) = true /\
  (exists w4,
     tx Sample.env Sample.root.1 (VObject (oid Sample.root.1))
       (Sample.fn 1) VUndefined Sample.root.2 =
       (Normal (Rejected (VError KError "boom")), w4) /\
     releases_of 7 (trace w4) = 1%nat) /\
  (exists w4,
     task Sample.env Sample.root.1 (VObject (oid Sample.root.1))
       (Sample.fn 0) VUndefined Sample.root.2 =
       (Normal (Resolved (VNum 42)), w4) /\
     releases_of 7 (trace w4) = 1%nat).
Proof.
  assert (H1 : db (ctx_at Sample.root.2 (octx Sample.root.1)) = None)
    by (vm_compute; reflexivity).
  split; [exact H1|]. split; [reflexivity|]. split.
  - sample_task
      (task_releases_acquired_connection_once Sample.env Sample.root.1
         (VObject (oid Sample.root.1)) (Sample.fn 1) VUndefined true
         Sample.root.2 H1 eq_refl)
      (Normal (Rejected (A := value) (VError KError "boom"))).
  - sample_task
      (task_releases_acquired_connection_once Sample.env Sample.root.1
         (VObject (oid Sample.root.1)) (Sample.fn 0) VUndefined false
         Sample.root.2 H1 eq_refl)
      (Normal (Resolved (VNum 42))).
Defined.

(** C2 on the sample run: [t.tx(cb)] on the task object of a transaction
    at level 2 puts its own context at level 3, and [db.tx(cb)] on the
    root object, which has no level, puts it at level 0. *)
Lemma tx_sets_nesting_level_witness :
  (exists tag w0,
     task_context Sample.nested.1 (VObject (oid Sample.nested.1))
       (Sample.fn 0) VUndefined true Sample.nested.2 =
       (Normal (nextId Sample.nested.2, tag), w0) /\
     txLevel (ctx_at w0 (nextId Sample.nested.2)) = Some 3) /\
  (exists tag w0,
     task_context Sample.root.1 (VObject (oid Sample.root.1))
       (Sample.fn 0) VUndefined true Sample.root.2 =
       (Normal (nextId Sample.root.2, tag), w0) /\
     txLevel (ctx_at w0 (nextId Sample.root.2)) = Some 0).
Proof.
  split.
  - destruct (tx_sets_nesting_level Sample.env Sample.nested.1
                (VObject (oid Sample.nested.1)) (Sample.fn 0) VUndefined
                Sample.nested.2)
      as (_ & tag & w0 & Hctx & _ & Hlevel & _).
    exists tag, w0. split; [exact Hctx|]. rewrite Hlevel. reflexivity.
  - destruct (tx_sets_nesting_level Sample.env Sample.root.1
                (VObject (oid Sample.root.1)) (Sample.fn 0) VUndefined
                Sample.root.2)
      as (_ & tag & w0 & Hctx & _ & Hlevel & _).
    exists tag, w0. split; [exact Hctx|]. rewrite Hlevel.
    vm_compute. reflexivity.
Defined.

(** C4 on the sample run: [db.task('tag')] without a callback. *)
Lemma task_without_callback_rejects_witness :
  is_function (callback_of (VStr "tag") VUndefined) = false /\
  exists w',
    taskProcessor Sample.env Sample.root.1 (VObject (oid Sample.root.1))
      (VStr "tag") VUndefined false Sample.root.2 =
      (Normal (Rejected (VError KTypeError
         "Callback function is required for the task.")), w') /\
    trace w' = trace Sample.root.2 /\
    (forall r, r ≠ nextId Sample.root.2 ->
       heap w' !! r = heap Sample.root.2 !! r).
Proof.
  split; [reflexivity|].
  exact (task_without_callback_rejects Sample.env Sample.root.1
           (VObject (oid Sample.root.1)) (VStr "tag") VUndefined false
           Sample.root.2 eq_refl).
Defined.

(** C5 on the sample run: [sco.tx('tag', cb)] on the connected handle. *)
Lemma task_reuses_bound_connection_witness :
  db (ctx_at Sample.connected.2 (octx Sample.connected.1)) = Some Sample.conn /\
  is_function (callback_of (VStr "tag") (Sample.fn 0)) = true /\
  exists (tsk : Protocol) (w1 : World),
    taskProcessor Sample.env Sample.connected.1
      (VObject (oid Sample.connected.1)) (VStr "tag") (Sample.fn 0) true
      Sample.connected.2 =
      task_exec Sample.env (nextId Sample.connected.2) tsk true w1 /\
    trace w1 = trace Sample.connected.2 ++ [EvExtend (oid tsk)] /\
    db (ctx_at w1 (nextId Sample.connected.2)) = Some Sample.conn /\
    cb (ctx_at w1 (nextId Sample.connected.2)) =
      callback_of (VStr "tag") (Sample.fn 0) /\
    (forall r, r ≠ nextId Sample.connected.2 ->
       heap w1 !! r = heap Sample.connected.2 !! r).
Proof.
  assert (H1 : db (ctx_at Sample.connected.2 (octx Sample.connected.1)) =
               Some Sample.conn) by (vm_compute; reflexivity).
  split; [exact H1|]. split; [reflexivity|].
  exact (task_reuses_bound_connection Sample.env Sample.connected.1
           (VObject (oid Sample.connected.1)) (VStr "tag") (Sample.fn 0) true
           Sample.connected.2 Sample.conn H1 eq_refl).
Defined.

(** C10 on the sample run: a task started on the task object of a
    transaction at level 2. When the task is over, its context is at level
    2 and the context of the transaction still is. *)
Lemma task_keeps_nesting_level_witness :
  txLevel (ctx_at Sample.nested.2 (octx Sample.nested.1)) = Some 2 /\
  txLevel (ctx_at (task Sample.env Sample.nested.1
                     (VObject (oid Sample.nested.1)) (Sample.fn 0) VUndefined
                     Sample.nested.2).2 (nextId Sample.nested.2)) = Some 2 /\
  txLevel (ctx_at (task Sample.env Sample.nested.1
                     (VObject (oid Sample.nested.1)) (Sample.fn 0) VUndefined
                     Sample.nested.2).2 (octx Sample.nested.1)) = Some 2.
Proof.
  split; [reflexivity|].
  destruct (task_keeps_nesting_level Sample.env Sample.nested.1
              (VObject (oid Sample.nested.1)) (Sample.fn 0) VUndefined
              Sample.nested.2)
    as (_ & tag & w0 & _ & _ & _ & _ & Hall).
  split.
  - rewrite (Hall (nextId Sample.nested.2)).
    + reflexivity.
    + intros t w'. cbn [task_exec Sample.env].
      by rewrite runner_keeps_world.
  - rewrite (Hall (octx Sample.nested.1)).
    + reflexivity.
    + intros t w'. cbn [task_exec Sample.env].
      by rewrite runner_keeps_world.
Defined.

(** C3 on the sample run: the handle of [db.connect()] after [done()]. *)
Lemma released_handle_refuses_queries_witness :
  released Sample.connected.1 Sample.after_done /\
  one Sample.env Sample.connected.1 (VObject (oid Sample.connected.1))
    (VArray [VStr "row"]) VUndefined VUndefined VUndefined Sample.after_done =
    (Throw (VError KError "Cannot execute a query on a disconnected client."),
     Sample.after_done) /\
  each Sample.env Sample.connected.1 (VObject (oid Sample.connected.1))
    (VArray [VStr "row"]) VUndefined VUndefined VUndefined Sample.after_done =
    (Throw (VError KError "Cannot execute a query on a disconnected client."),
     Sample.after_done).
Proof.
  assert (H : released Sample.connected.1 Sample.after_done)
    by (split; vm_compute; reflexivity).
  split; [exact H|].
  pose proof (released_handle_refuses_queries Sample.env Sample.connected.1
                (VObject (oid Sample.connected.1)) (VArray [VStr "row"])
                VUndefined VUndefined VUndefined QrmDefault
                Sample.after_done H) as Hall.
  cbn zeta in Hall.
  split; [exact (proj1 (proj2 (proj2 Hall)))|].
  exact (proj2 (proj2 (proj2 (proj2 (proj2 (proj2 (proj2 (proj2 (proj2
           (proj2 (proj2 (proj2 Hall)))))))))))).
Defined.

(** C3 as stated fails for [task]: on the released handle of the sample
    run, [sco.task(cb)] does not fail. It asks the pool for a connection,
    runs the callback, resolves with its result and releases again. *)
Lemma task_on_released_handle_acquires :
  released Sample.connected.1 Sample.after_done /\
  (task Sample.env Sample.connected.1 (VObject (oid Sample.connected.1))
     (Sample.fn 0) VUndefined Sample.after_done).1 =
    Normal (Resolved (VNum 42)) /\
  trace (task Sample.env Sample.connected.1 (VObject (oid Sample.connected.1))
           (Sample.fn 0) VUndefined Sample.after_done).2 =
    trace Sample.after_done ++
      [EvExtend 6; EvAcquire Pool 5; EvRelease 7] /\
  ~ usage_failure
      (task Sample.env Sample.connected.1 (VObject (oid Sample.connected.1))
         (Sample.fn 0) VUndefined) Sample.after_done.
Proof.
  split; [split; vm_compute; reflexivity|].
  split; [vm_compute; reflexivity|].
  split; [vm_compute; reflexivity|].
  intros (e & w' & [H | H] & _);
    apply (f_equal fst) in H; vm_compute in H; discriminate H.
Qed.

(** C8 on the sample run: a second [done()] on the handle. *)
Lemma done_on_released_handle_throws_witness :
  released Sample.connected.1 Sample.after_done /\
  done Sample.connected.1 Sample.after_done =
    (Throw (VError KError "Cannot invoke done() on a disconnected client."),
     Sample.after_done).
Proof.
  assert (H : released Sample.connected.1 Sample.after_done)
    by (split; vm_compute; reflexivity).
  split; [exact H|].
  exact (done_on_released_handle_throws Sample.connected.1
           Sample.after_done H).
Defined.

(** C6 on the sample run: [sco.one(...)] on a statement answered with two
    rows, and with one row and no transform. *)
Lemma one_cardinality_witness :
  db (ctx_at Sample.connected.2 (octx Sample.connected.1)) = Some Sample.conn /\
  (exists w1 msg,
     one Sample.env Sample.connected.1 (VObject (oid Sample.connected.1))
       (VArray [VStr "a"; VStr "b"]) VUndefined VUndefined VUndefined
       Sample.connected.2 =
       (Normal (Rejected (VError KQueryResultError msg)), w1)) /\
  (exists w1,
     one Sample.env Sample.connected.1 (VObject (oid Sample.connected.1))
       (VArray [VStr "a"]) VUndefined VUndefined VUndefined
       Sample.connected.2 =
       (Normal (Resolved (VStr "a")), w1)).
Proof.
  assert (H : match okind Sample.connected.1 with
              | KRoot => forall r w', acquire Sample.env Pool r w' =
                                        Resolved Sample.conn
              | _ => db (ctx_at Sample.connected.2 (octx Sample.connected.1)) =
                       Some Sample.conn
              end) by (vm_compute; reflexivity).
  split; [exact H|]. split.
  - destruct (one_cardinality Sample.env Sample.connected.1
                (VObject (oid Sample.connected.1))
                (VArray [VStr "a"; VStr "b"]) VUndefined VUndefined VUndefined
                Sample.connected.2 Sample.conn [VStr "a"; VStr "b"] H
                (fun _ => eq_refl))
      as (w1 & _ & Hmany & _).
    exists w1. apply Hmany. discriminate.
  - destruct (one_cardinality Sample.env Sample.connected.1
                (VObject (oid Sample.connected.1))
                (VArray [VStr "a"]) VUndefined VUndefined VUndefined
                Sample.connected.2 Sample.conn [VStr "a"] H
                (fun _ => eq_refl))
      as (w1 & _ & _ & Hone & _).
    exists w1. exact (Hone (VStr "a") eq_refl).
Defined.

(** C6 as stated fails once a transform is given: on the sample handle,
    with a row set of exactly one row, [one] with a transform that throws
    is rejected, with what the transform threw, and [one] with a transform
    that returns 42 resolves with 42, not with the row. *)
Lemma one_with_transform_is_not_the_row :
  length [VStr "row"] = 1%nat /\
  (one Sample.env Sample.connected.1 (VObject (oid Sample.connected.1))
     (VArray [VStr "row"]) VUndefined (Sample.fn 1) VUndefined
     Sample.connected.2).1 =
    Normal (Rejected (VError KError "boom")) /\
  (one Sample.env Sample.connected.1 (VObject (oid Sample.connected.1))
     (VArray [VStr "row"]) VUndefined (Sample.fn 0) VUndefined
     Sample.connected.2).1 =
    Normal (Resolved (VNum 42)) /\
  ~ (forall f,
       exists w',
         one Sample.env Sample.connected.1 (VObject (oid Sample.connected.1))
           (VArray [VStr "row"]) VUndefined f VUndefined
           Sample.connected.2 =
           (Normal (Resolved (VStr "row")), w')).
Proof.
  split; [reflexivity|].
  split; [vm_compute; reflexivity|].
  split; [vm_compute; reflexivity|].
  intros Hall. destruct (Hall (Sample.fn 1)) as (w' & H).
  apply (f_equal fst) in H. vm_compute in H. discriminate H.
Qed.

(** C7 on the sample run: [extend] on an object literal on the context
    of the connected handle. The handler of the extension event tries to
    add [custom] and to replace [one]. The object comes back frozen with
    [custom] added, [one] is the method [extend] set, and a later write of
    [custom] is refused. *)
Lemma extend_locks_and_freezes_witness :
  lock_state Sample.literal = Open /\
  exists final w',
    extend Sample.env (octx Sample.connected.1) Sample.literal
      Sample.connected.2 = (Normal final, w') /\
    trace w' = trace Sample.connected.2 ++ [EvExtend 9] /\
    lock_state final = Frozen /\
    members final !! "one" = Some (MFunction "one") /\
    members final !! "custom" = Some (MFunction "custom") /\
    try_assign final ("custom", MData VNull) = final.
Proof.
  split; [reflexivity|].
  destruct (extend_locks_and_freezes Sample.env (octx Sample.connected.1)
              Sample.literal Sample.connected.2 eq_refl)
    as (locked & final & Hlocked & _ & _ & _ & _ & Hfinal & Hext & _ &
        Hfrozen & Hmeth & _ & Hadded & Hfrom & Hrefuse).
  exists final, (log (EvExtend (oid Sample.literal)) Sample.connected.2).2.
  split; [exact Hext|]. split; [reflexivity|]. split; [exact Hfrozen|].
  split.
  { apply Hmeth. unfold method_names.
    apply elem_of_cons; right. apply elem_of_cons; left. reflexivity. }
  split; [|exact (proj2 (Hrefuse "custom" (MData VNull) Sample.initial))].
  assert (Hnone : members locked !! "custom" = None)
    by (rewrite Hlocked; vm_compute; reflexivity).
  assert (Hhook : forall opts o dc0,
            extension Sample.env opts o dc0 =
              [("custom", MFunction "custom"); ("one", MData VNull)])
    by reflexivity.
  pose proof (Hadded "custom" Hnone) as Hthere.
  rewrite Hhook in Hthere.
  destruct Hthere as [m Hm].
  { apply elem_of_cons. left. reflexivity. }
  rewrite Hm. f_equal.
  pose proof (Hfrom "custom" m Hm) as Hwhence.
  rewrite Hhook in Hwhence.
  destruct Hwhence as [Hwas | Hin].
  - rewrite Hnone in Hwas. discriminate Hwas.
  - apply elem_of_cons in Hin as [Heq | Hin]; [by injection Heq|].
    apply elem_of_cons in Hin as [Heq | Hin]; [discriminate Heq|].
    apply elem_of_nil in Hin. destruct Hin.
Defined.

(** C7 as stated fails between the two locks: the object the extension
    event sees is not locked against additions. On the sample run, the
    object has no property [custom] after the first lock and takes the
    write of [custom]; the handler of the extension event makes that
    write, and the object [extend] returns has the property, which the
    literal did not have. *)
Lemma extension_adds_after_first_lock :
  let opts :=
    options (ctx_at Sample.connected.2 (octx Sample.connected.1)) in
  let locked :=
    utils_lock
      (with_members (with_methods (members Sample.literal)) Sample.literal)
      false opts in
  members Sample.literal !! "custom" = None /\
  members locked !! "custom" = None /\
  members (try_assign locked ("custom", MFunction "custom")) !! "custom" =
    Some (MFunction "custom") /\
  (exists final w',
     extend Sample.env (octx Sample.connected.1) Sample.literal
       Sample.connected.2 = (Normal final, w') /\
     members final !! "custom" = Some (MFunction "custom")) /\
  ~ (forall k m, try_assign locked (k, m) = locked).
Proof.
  intros opts locked.
  split; [vm_compute; reflexivity|].
  split; [vm_compute; reflexivity|].
  split; [vm_compute; reflexivity|].
  split.
  { rewrite (extend_open Sample.env _ Sample.literal _ eq_refl).
    do 2 eexists. split; [reflexivity|]. vm_compute. reflexivity. }
  intros Hall.
  pose proof (f_equal (fun o => members o !! "custom")
                (Hall "custom" (MFunction "custom"))) as H.
  vm_compute in H. discriminate H.
Qed.

(** C9 on the sample run: three [Database] objects for the same details
    in a fresh process. *)
Lemma checkForDuplicates_warns_on_each_duplicate_witness :
  exists w',
    Sample.thrice Sample.initial = (Normal tt, w') /\
    warnings_for "postgres://localhost/db" (trace w') = 2%nat.
Proof.
  destruct (checkForDuplicates_warns_on_each_duplicate Sample.env
              Sample.target VUndefined Sample.cfg Sample.initial)
    as (_ & _ & Hcount).
  destruct (Hcount 3%nat) as (w' & Hrun & Hwarn).
  exists w'. split; [exact Hrun|]. exact Hwarn.
Defined.

(** C9 as stated fails on the count: three [Database] objects made for the
    same connection details draw two warnings for that one target. *)
Lemma duplicate_warning_is_repeated :
  warnings_for "postgres://localhost/db"
    (trace (Sample.thrice Sample.initial).2) = 2%nat /\
  ~ (forall k, warnings_for k (trace (Sample.thrice Sample.initial).2) <= 1)%nat.
Proof.
  split; [vm_compute; reflexivity|].
  intros H. specialize (H "postgres://localhost/db").
  vm_compute in H. lia.
Qed.

(** * Further properties of the module *)

Section MoreProperties.

Context (E : Collaborators).

(** ** Counting events *)

Lemma acquisitions_app (t t' : list Event) :
  acquisitions (t ++ t') = (acquisitions t + acquisitions t')%nat.
Proof. unfold acquisitions. by rewrite List.filter_app, length_app. Qed.

(** ** Contexts other than the one an operation works on *)

Lemma heap_put_ne (r r' : nat) (c : ConnectionContext) (w : World) :
  r ≠ r' -> heap (ctx_put r c w).2 !! r' = heap w !! r'.
Proof. intros Hne. unfold ctx_put; cbn [snd heap]. by rewrite lookup_insert_ne. Qed.

Lemma heap_connect_ne (r r' : nat) (d : Db) (w : World) :
  r ≠ r' -> heap (ctx_connect r d w).2 !! r' = heap w !! r'.
Proof.
  intros Hne. unfold ctx_connect, mbind, M_bind, ctx_get.
  by apply heap_put_ne.
Qed.

Lemma heap_disconnect_ne (r r' : nat) (w : World) :
  r ≠ r' -> heap (ctx_disconnect r w).2 !! r' = heap w !! r'.
Proof.
  intros Hne. unfold ctx_disconnect, mbind, M_bind, ctx_get.
  destruct (db (ctx_at w r)) as [d|]; [|reflexivity].
  change (log (EvRelease (client d)) w)
    with (Normal tt, (log (EvRelease (client d)) w).2).
  cbn beta iota. by rewrite heap_put_ne.
Qed.

Lemma heap_new_ne (cn0 dc0 : value) (opts : Options) (w : World) (r : nat) :
  r ≠ nextId w -> heap (ctx_new cn0 dc0 opts w).2 !! r = heap w !! r.
Proof.
  intros Hne. unfold ctx_new, mbind, M_bind, mret, M_ret, fresh, ctx_put.
  cbn [snd heap]. by rewrite lookup_insert_ne.
Qed.

Lemma ctx_new_at (cn0 dc0 : value) (opts : Options) (w : World) :
  ctx_new cn0 dc0 opts w = (Normal (nextId w), (ctx_new cn0 dc0 opts w).2) /\
  ctx_at (ctx_new cn0 dc0 opts w).2 (nextId w) =
    {| cn := cn0; dc := dc0; options := opts; db := None; txLevel := None;
       context := None; cb := VUndefined |} /\
  trace (ctx_new cn0 dc0 opts w).2 = trace w.
Proof.
  unfold ctx_new, mbind, M_bind, mret, M_ret, fresh, ctx_put.
  repeat split. unfold ctx_at. cbn [snd heap]. by rewrite lookup_insert_eq.
Qed.

(** ** [Database.query] on the root object *)


(** X2. When the pool refuses the connection, [query] on the root object
    rejects with the pool's error: the request is all the trace gains, no
    statement reaches the driver and nothing is released. *)
Theorem root_query_rejects_when_pool_fails (o : Protocol) (this q v : value)
    (qrm : Qrm) (w : World) (e : value) :
  (forall w', acquire E Pool (nextId w) w' = Rejected e) ->
  exists w',
    Database_query E o this q v qrm w = (Normal (Rejected e), w') /\
    trace w' = trace w ++ [EvAcquire Pool (nextId w)] /\
    db (ctx_at w' (nextId w)) = None /\
    (forall r, r ≠ nextId w -> heap w' !! r = heap w !! r).
Proof.
  intros Hacq.
  set (ctx := nextId w).
  set (w0 := (createContext o w).2).
  set (w1 := (log (EvAcquire Pool ctx) w0).2).
  destruct (ctx_new_at (env_cn o) (env_dc o) (cfg_options (env_config o)) w)
    as (_ & Hnew & _).
  assert (Hdb1 : db (ctx_at w1 ctx) = None).
  { change (ctx_at w1 ctx) with (ctx_at w0 ctx). subst w0 ctx.
    unfold createContext. by rewrite Hnew. }
  exists w1. split; [|split; [|split]].
  - unfold Database_query, mbind, M_bind.
    change (createContext o w) with (Normal ctx, w0). cbn beta iota.
    unfold npm_connect, mbind, M_bind, mret, M_ret, get_world.
    change (log (EvAcquire Pool ctx) w0) with (Normal tt, w1).
    cbn beta iota. rewrite Hacq. cbn [then_ catch_].
    unfold ctx_disconnect, mbind, M_bind, mret, M_ret, ctx_get.
    rewrite Hdb1. reflexivity.
  - reflexivity.
  - exact Hdb1.
  - intros r Hr. change (heap w1) with (heap w0). subst w0.
    unfold createContext. by rewrite heap_new_ne.
Qed.

(** ** [Database.connect] and the handle it resolves with *)

Lemma with_methods_keeps (m : gmap string Member) (k : string) :
  k ∉ method_names -> with_methods m !! k = m !! k.
Proof.
  intros Hk. unfold with_methods.
  induction method_names as [|n ns IH] using rev_ind; [reflexivity|].
  rewrite foldl_app. cbn [foldl].
  rewrite not_elem_of_app in Hk. destruct Hk as [Hns Hn].
  rewrite lookup_insert_ne; [by apply IH|].
  intros ->. apply Hn. by apply list_elem_of_singleton.
Qed.

Lemma not_a_method (k : string) :
  k = "client" \/ k = "done" \/ k = "query" -> k ∉ method_names.
Proof.
  unfold method_names. intros Hk Hin.
  repeat (apply elem_of_cons in Hin as [-> | Hin];
          [destruct Hk as [Hk | [Hk | Hk]]; discriminate Hk|]).
  by apply elem_of_nil in Hin.
Qed.

(** What [connect] does once the acquisition has been answered with a
    connection. *)
Lemma connect_acquired (root : Protocol) (opts : option ConnectOptions)
    (w : World) (d : Db) :
  let method :=
    match opts with
    | Some o => if direct o then Direct else Pool
    | None => Pool
    end in
  (forall w', acquire E method (nextId w) w' = Resolved d) ->
  let self :=
    extended E (cfg_options (env_config root)) (env_dc root)
      {| oid := S (nextId w); okind := KHandle; octx := nextId w;
         env_cn := env_cn root; env_dc := env_dc root;
         env_config := env_config root;
         members :=
           <[ "client" := MData (VClient (client d)) ]>
             (<[ "done" := MFunction "done" ]>
                {[ "query" := MFunction "query" ]});
         task_ctx := ∅; lock_state := Open |} in
  exists w',
    connect E root opts w = (Normal (Resolved self), w') /\
    trace w' = trace w ++ [EvAcquire method (nextId w); EvExtend (oid self)] /\
    ctx_at w' (nextId w) =
      {| cn := env_cn root; dc := env_dc root;
         options := cfg_options (env_config root); db := Some d;
         txLevel := None; context := None; cb := VUndefined |} /\
    (forall r, r ≠ nextId w -> heap w' !! r = heap w !! r).
Proof.
  intros method Hacq self.
  set (ctx := nextId w).
  set (w0 := (createContext root w).2).
  set (w0' := (fresh w0).2).
  set (w1 := (log (EvAcquire method ctx) w0').2).
  set (w2 := (ctx_connect ctx d w1).2).
  destruct (ctx_new_at (env_cn root) (env_dc root)
              (cfg_options (env_config root)) w) as (_ & Hnew & _).
  assert (Hctx2 : ctx_at w2 ctx =
    {| cn := env_cn root; dc := env_dc root;
       options := cfg_options (env_config root); db := Some d;
       txLevel := None; context := None; cb := VUndefined |}).
  { subst w2. rewrite ctx_connect_at.
    change (ctx_at w1 ctx) with (ctx_at w0 ctx). subst w0 ctx.
    unfold createContext. by rewrite Hnew. }
  exists (log (EvExtend (S ctx)) w2).2.
  split; [|split; [|split]].
  - unfold connect, mbind, M_bind.
    change (createContext root w) with (Normal ctx, w0). cbn beta iota.
    change (fresh w0) with (Normal (S ctx), w0'). cbn beta iota zeta.
    fold method.
    unfold npm_connect, mbind, M_bind, mret, M_ret, get_world.
    change (log (EvAcquire method ctx) w0') with (Normal tt, w1).
    cbn beta iota. rewrite Hacq. cbn [then_].
    change (ctx_connect ctx d w1) with (Normal tt, w2).
    cbn beta iota.
    unfold assign, writable. cbn [lock_state]. unfold mret, M_ret.
    cbn [with_members oid okind octx env_cn env_dc env_config members
         task_ctx lock_state].
    rewrite extend_open by reflexivity. rewrite Hctx2. reflexivity.
  - unfold self. rewrite extended_shape.
    change (trace (log (EvExtend (S ctx)) w2).2)
      with ((trace w ++ [EvAcquire method ctx]) ++ [EvExtend (S ctx)]).
    by rewrite <- app_assoc.
  - exact Hctx2.
  - intros r Hr.
    change (heap (log (EvExtend (S ctx)) w2).2) with (heap w2). subst w2.
    rewrite heap_connect_ne by done.
    change (heap w1) with (heap w0). subst w0.
    unfold createContext. by rewrite heap_new_ne.
Qed.

Lemma handle_has (m : gmap string Member) (k : string) (x : Member) :
  k ∉ method_names -> m !! k = Some x ->
  is_Some (with_methods m !! k) /\ with_methods m !! k = Some x.
Proof.
  intros Hk Hx. rewrite with_methods_keeps by exact Hk.
  split; [by eexists|exact Hx].
Qed.

Lemma extended_keeps (opts : Options) (dc0 : value) (obj : Protocol)
    (k : string) (x : Member) :
  k ∉ method_names -> members obj !! k = Some x ->
  members (extended E opts dc0 obj) !! k = Some x.
Proof.
  intros Hk Hx. destruct (handle_has (members obj) k x Hk Hx) as [Hsome Hval].
  by rewrite extended_lookup.
Qed.

Lemma extended_method (opts : Options) (dc0 : value) (obj : Protocol)
    (n : string) :
  n ∈ method_names ->
  members (extended E opts dc0 obj) !! n = Some (MFunction n).
Proof.
  intros Hn. rewrite extended_lookup.
  - by apply with_methods_lookup.
  - rewrite with_methods_lookup by exact Hn. by eexists.
Qed.

(** X3. When the acquisition succeeds, [connect] resolves with a handle
    that holds the connection: the handle is frozen, carries [client],
    [done], [query] and the fourteen methods, and its context is bound to
    the connection the pool (or, with [direct], the driver) handed out.
    The trace gains the one request and the extension event of the handle:
    [connect] itself releases nothing, and it writes no context but the
    one it made. *)
Theorem connect_resolves_with_bound_handle (root : Protocol)
    (opts : option ConnectOptions) (w : World) (d : Db) :
  let method :=
    match opts with
    | Some o => if direct o then Direct else Pool
    | None => Pool
    end in
  (forall w', acquire E method (nextId w) w' = Resolved d) ->
  exists h w',
    connect E root opts w = (Normal (Resolved h), w') /\
    okind h = KHandle /\
    lock_state h = Frozen /\
    db (ctx_at w' (octx h)) = Some d /\
    members h !! "client" = Some (MData (VClient (client d))) /\
    members h !! "done" = Some (MFunction "done") /\
    members h !! "query" = Some (MFunction "query") /\
    (forall n, n ∈ method_names -> members h !! n = Some (MFunction n)) /\
    trace w' = trace w ++ [EvAcquire method (nextId w); EvExtend (oid h)] /\
    releases_of (client d) (trace w') = releases_of (client d) (trace w) /\
    (forall r, r ≠ octx h -> heap w' !! r = heap w !! r).
Proof.
  intros method Hacq.
  destruct (connect_acquired root opts w d Hacq)
    as (w' & Hconn & Htr & Hctx & Hothers).
  eexists _, w'. split; [exact Hconn|].
  split; [by rewrite extended_shape|].
  split; [reflexivity|].
  split. { rewrite extended_shape. cbn [with_lock with_members octx]. by rewrite Hctx. }
  split.
  { destruct (handle_has
                (<[ "client" := MData (VClient (client d)) ]>
                   (<[ "done" := MFunction "done" ]>
                      {[ "query" := MFunction "query" ]}))
                "client" (MData (VClient (client d)))) as [Hsome Hval].
    - apply not_a_method; auto.
    - by rewrite lookup_insert_eq.
    - rewrite extended_lookup by exact Hsome. exact Hval. }
  split.
  { destruct (handle_has
                (<[ "client" := MData (VClient (client d)) ]>
                   (<[ "done" := MFunction "done" ]>
                      {[ "query" := MFunction "query" ]}))
                "done" (MFunction "done")) as [Hsome Hval].
    - apply not_a_method; auto.
    - rewrite lookup_insert_ne by discriminate. by rewrite lookup_insert_eq.
    - rewrite extended_lookup by exact Hsome. exact Hval. }
  split.
  { destruct (handle_has
                (<[ "client" := MData (VClient (client d)) ]>
                   (<[ "done" := MFunction "done" ]>
                      {[ "query" := MFunction "query" ]}))
                "query" (MFunction "query")) as [Hsome Hval].
    - apply not_a_method; auto.
    - rewrite !lookup_insert_ne by discriminate.
      by rewrite lookup_singleton_eq.
    - rewrite extended_lookup by exact Hsome. exact Hval. }
  split.
  { intros n Hn. rewrite extended_lookup.
    - by apply with_methods_lookup.
    - rewrite with_methods_lookup by exact Hn. by eexists. }
  split; [exact Htr|].
  split.
  { rewrite Htr, releases_of_app. unfold releases_of at 2. cbn. lia. }
  rewrite extended_shape. exact Hothers.
Qed.

(** X4. When the acquisition fails, [connect] rejects with the error of
    the pool or the driver: no handle is made, the extension event is not
    raised, and the request is all the trace gains. *)
Theorem connect_rejects_when_acquisition_fails (root : Protocol)
    (opts : option ConnectOptions) (w : World) (e : value) :
  let method :=
    match opts with
    | Some o => if direct o then Direct else Pool
    | None => Pool
    end in
  (forall w', acquire E method (nextId w) w' = Rejected e) ->
  exists w',
    connect E root opts w = (Normal (Rejected e), w') /\
    trace w' = trace w ++ [EvAcquire method (nextId w)] /\
    db (ctx_at w' (nextId w)) = None /\
    (forall r, r ≠ nextId w -> heap w' !! r = heap w !! r).
Proof.
  intros method Hacq.
  set (ctx := nextId w).
  set (w0 := (createContext root w).2).
  set (w0' := (fresh w0).2).
  set (w1 := (log (EvAcquire method ctx) w0').2).
  destruct (ctx_new_at (env_cn root) (env_dc root)
              (cfg_options (env_config root)) w) as (_ & Hnew & _).
  exists w1. split; [|split; [|split]].
  - unfold connect, mbind, M_bind.
    change (createContext root w) with (Normal ctx, w0). cbn beta iota.
    change (fresh w0) with (Normal (S ctx), w0'). cbn beta iota zeta.
    fold method.
    unfold npm_connect, mbind, M_bind, mret, M_ret, get_world.
    change (log (EvAcquire method ctx) w0') with (Normal tt, w1).
    cbn beta iota. rewrite Hacq. reflexivity.
  - reflexivity.
  - change (ctx_at w1 ctx) with (ctx_at w0 ctx). subst w0 ctx.
    unfold createContext. by rewrite Hnew.
  - intros r Hr. change (heap w1) with (heap w0). subst w0.
    unfold createContext. by rewrite heap_new_ne.
Qed.

(** X5. [done()] on a handle that holds a connection gives it back: the
    release is the one event the trace gains, the handle is released from
    then on, no other context is written, and a second [done()] right
    after it throws without releasing again. *)
Theorem done_releases_connection_once (h : Protocol) (w : World) (d : Db) :
  okind h = KHandle ->
  db (ctx_at w (octx h)) = Some d ->
  exists w',
    done h w = (Normal tt, w') /\
    trace w' = trace w ++ [EvRelease (client d)] /\
    releases_of (client d) (trace w') = S (releases_of (client d) (trace w)) /\
    released h w' /\
    (forall r, r ≠ octx h -> heap w' !! r = heap w !! r) /\
    exists e, done h w' = (Throw e, w').
Proof.
  intros Hkind Hdb.
  destruct (ctx_disconnect_bound (octx h) w d Hdb) as [Htr Hnone].
  exists (ctx_disconnect (octx h) w).2.
  split.
  { unfold done, mbind, M_bind, ctx_get. rewrite Hdb.
    apply ctx_disconnect_normal. }
  split; [exact Htr|].
  split.
  { rewrite Htr, releases_of_app. unfold releases_of at 2.
    cbn. rewrite Nat.eqb_refl. cbn. lia. }
  split; [by split|].
  split. { intros r Hr. by apply heap_disconnect_ne. }
  eexists. unfold done, mbind, M_bind, ctx_get. rewrite Hnone. reflexivity.
Qed.

Lemma handle_query_bound (h : Protocol) (this q v : value)
    (w : World) (d : Db) :
  okind h = KHandle ->
  db (ctx_at w (octx h)) = Some d ->
  exists p w',
    obj_query E h this q v QrmDefault w = (Normal p, w') /\
    heap w' = heap w /\
    trace w' = trace w ++ sent E (client d) [(q, v)].
Proof.
  intros Hkind Hdb. unfold obj_query. rewrite Hkind.
  unfold connect_query, mbind, M_bind, ctx_get. rewrite Hdb.
  pose proof (npm_query_bound E this (octx h) q v QrmDefault w d Hdb) as Hq.
  unfold sent, accepted. cbn [List.filter fst snd].
  unfold refusal in Hq.
  destruct (prepare E q v) as [e|].
  - exists (Rejected e), w. split; [exact Hq|]. split; [reflexivity|].
    cbn. by rewrite app_nil_r.
  - destruct Hq as (p & Hq & _).
    exists p, (log (EvDriver (client d) q v) w).2.
    split; [exact Hq|]. split; reflexivity.
Qed.

Lemma sent_cons (c : nat) (qv : value * value) (qs : list (value * value)) :
  sent E c (qv :: qs) = sent E c [qv] ++ sent E c qs.
Proof.
  unfold sent. cbn [List.filter]. by destruct (accepted E qv).
Qed.

Lemma query_all_bound (h : Protocol) (this : value)
    (qs : list (value * value)) (w : World) (d : Db) :
  okind h = KHandle ->
  db (ctx_at w (octx h)) = Some d ->
  exists w',
    query_all E h this qs w = (Normal tt, w') /\
    trace w' = trace w ++ sent E (client d) qs /\
    heap w' = heap w /\
    db (ctx_at w' (octx h)) = Some d.
Proof.
  intros Hkind. revert w.
  induction qs as [|[q v] qs IH]; intros w Hdb.
  - exists w. cbn. by rewrite app_nil_r.
  - destruct (handle_query_bound h this q v w d Hkind Hdb)
      as (p & w1 & Hq & Hheap1 & Htr1).
    assert (Hdb1 : db (ctx_at w1 (octx h)) = Some d).
    { rewrite (ctx_at_heap w w1) by (by rewrite Hheap1). exact Hdb. }
    destruct (IH w1 Hdb1) as (w' & Hrest & Htr & Hheap & Hdb').
    exists w'. split; [|split; [|split]].
    + cbn [query_all]. unfold mbind, M_bind. rewrite Hq. exact Hrest.
    + rewrite Htr, Htr1, (sent_cons _ (q, v) qs), <- app_assoc. reflexivity.
    + by rewrite Hheap.
    + exact Hdb'.
Qed.

Lemma statements_only_count (c : nat) (qs : list (value * value)) (k : nat) :
  acquisitions (sent E c qs) = 0%nat /\ releases_of k (sent E c qs) = 0%nat.
Proof.
  unfold acquisitions, releases_of, sent.
  induction (List.filter (accepted E) qs) as [|[q v] l [IH1 IH2]]; [done|].
  cbn. auto.
Qed.

(** X6. Queries on a connected handle all run on the connection of the
    handle: whatever the requests and however each one settles, a run of
    queries adds one statement to the trace for each request that is not
    refused before anything is sent, and nothing for one that is, each
    statement over the client the handle holds, in the order of the
    calls; the pool is not asked again, nothing is released, and no
    context is written. *)
Theorem handle_queries_share_the_connection (h : Protocol) (this : value)
    (qs : list (value * value)) (w : World) (d : Db) :
  okind h = KHandle ->
  db (ctx_at w (octx h)) = Some d ->
  exists w',
    query_all E h this qs w = (Normal tt, w') /\
    trace w' = trace w ++ sent E (client d) qs /\
    acquisitions (trace w') = acquisitions (trace w) /\
    (forall k, releases_of k (trace w') = releases_of k (trace w)) /\
    heap w' = heap w /\
    db (ctx_at w' (octx h)) = Some d.
Proof.
  intros Hkind Hdb.
  destruct (query_all_bound h this qs w d Hkind Hdb)
    as (w' & Hrun & Htr & Hheap & Hdb').
  exists w'. split; [exact Hrun|]. split; [exact Htr|].
  split.
  { rewrite Htr, acquisitions_app.
    destruct (statements_only_count (client d) qs 0) as [-> _]. lia. }
  split.
  { intros k. rewrite Htr, releases_of_app.
    destruct (statements_only_count (client d) qs k) as [_ ->]. lia. }
  split; [exact Hheap|exact Hdb'].
Qed.

(** X7. A whole session on a handle, from [connect] to [done()], uses one
    connection: when the acquisition succeeds, the handle runs any list of
    queries and [done()] completes, and the trace of the session is the
    one request, the extension event of the handle, one statement over
    the client that was handed out for each query that is not refused
    before anything is sent, and the one release of that client. The
    handle ends released, and no context but its own is written. *)
Theorem session_uses_one_connection (root : Protocol)
    (opts : option ConnectOptions) (qs : list (value * value)) (w : World)
    (d : Db) :
  let method :=
    match opts with
    | Some o => if direct o then Direct else Pool
    | None => Pool
    end in
  (forall w', acquire E method (nextId w) w' = Resolved d) ->
  exists h w1 w2 w3,
    connect E root opts w = (Normal (Resolved h), w1) /\
    query_all E h (VObject (oid h)) qs w1 = (Normal tt, w2) /\
    done h w2 = (Normal tt, w3) /\
    trace w3 =
      trace w ++ [EvAcquire method (nextId w); EvExtend (oid h)] ++
      sent E (client d) qs ++ [EvRelease (client d)] /\
    released h w3 /\
    (forall r, r ≠ octx h -> heap w3 !! r = heap w !! r).
Proof.
  intros method Hacq.
  destruct (connect_acquired root opts w d Hacq)
    as (w1 & Hconn & Htr1 & Hctx1 & Hothers1).
  match type of Hconn with
  | _ = (Normal (Resolved ?s), _) => set (h := s) in *
  end.
  assert (Hkind : okind h = KHandle)
    by (unfold h; by rewrite extended_shape).
  assert (Hoctx : octx h = nextId w)
    by (unfold h; by rewrite extended_shape).
  assert (Hdb1 : db (ctx_at w1 (octx h)) = Some d)
    by (by rewrite Hoctx, Hctx1).
  destruct (query_all_bound h (VObject (oid h)) qs w1 d Hkind Hdb1)
    as (w2 & Hqs & Htr2 & Hheap2 & Hdb2).
  destruct (ctx_disconnect_bound (octx h) w2 d Hdb2) as [Htr3 Hnone].
  exists h, w1, w2, (ctx_disconnect (octx h) w2).2.
  split; [exact Hconn|]. split; [exact Hqs|].
  split.
  { unfold done, mbind, M_bind, ctx_get. rewrite Hdb2.
    apply ctx_disconnect_normal. }
  split. { rewrite Htr3, Htr2, Htr1, <- !app_assoc. reflexivity. }
  split; [by split|].
  intros r Hr. rewrite heap_disconnect_ne by (intros Heq; by apply Hr).
  rewrite Hheap2. apply Hothers1. by rewrite <- Hoctx.
Qed.

(** ** Transforms and visitors *)

(** X8. The transform of [one], [oneOrNone], [result] and [proc] only ever
    sees a resolved value: a [cb] that is not a function is ignored, and
    the method is then the generic query with the method's mask; and when
    the query rejects, the method rejects with the same error in the same
    world, whatever [cb] is. *)
Theorem transform_only_sees_resolved_values (obj : Protocol)
    (this q v f thisArg : value) (w : World) :
  (is_function f = false ->
   one E obj this q v f thisArg w =
     obj_query E obj this q v (QrmMask result_one) w /\
   oneOrNone E obj this q v f thisArg w =
     obj_query E obj this q v (QrmMask (Z.lor result_one result_none)) w /\
   result E obj this q v f thisArg w =
     obj_query E obj this q v QrmResultQuery w /\
   proc E obj this q v f thisArg w =
     obj_query E obj this (VFuncDesc q) v
       (QrmMask (Z.lor result_one result_none)) w) /\
  (forall e w1,
     obj_query E obj this q v (QrmMask result_one) w =
       (Normal (Rejected e), w1) ->
     one E obj this q v f thisArg w = (Normal (Rejected e), w1)) /\
  (forall e w1,
     obj_query E obj this q v (QrmMask (Z.lor result_one result_none)) w =
       (Normal (Rejected e), w1) ->
     oneOrNone E obj this q v f thisArg w = (Normal (Rejected e), w1)) /\
  (forall e w1,
     obj_query E obj this q v QrmResultQuery w = (Normal (Rejected e), w1) ->
     result E obj this q v f thisArg w = (Normal (Rejected e), w1)) /\
  (forall e w1,
     obj_query E obj this (VFuncDesc q) v
       (QrmMask (Z.lor result_one result_none)) w =
       (Normal (Rejected e), w1) ->
     proc E obj this q v f thisArg w = (Normal (Rejected e), w1)).
Proof.
  assert (Hskip : forall (m : M (Promise value)),
    is_function f = false ->
    (p ← m; singleValue E p f thisArg) w = m w).
  { intros m Hf. unfold mbind, M_bind, singleValue. rewrite Hf.
    destruct (m w) as [[p|e] w1]; reflexivity. }
  assert (Hrej : forall (m : M (Promise value)) e w1,
    m w = (Normal (Rejected e), w1) ->
    (p ← m; singleValue E p f thisArg) w = (Normal (Rejected e), w1)).
  { intros m e w1 Hm. unfold mbind, M_bind, singleValue. rewrite Hm.
    destruct (is_function f); reflexivity. }
  split.
  { intros Hf. unfold one, oneOrNone, result, proc, func.
    rewrite !Hskip by exact Hf. repeat split. }
  unfold one, oneOrNone, result, proc, func.
  repeat split; intros e w1 Hq; by apply Hrej.
Qed.

(** X9. [map] and [each] are built on [any]: when [any] rejects, both
    reject with the same error in the same world and the callback is not
    called; and when [any] resolves and the visit of [each] completes,
    [each] resolves with the very array [any] resolved with. *)
Theorem map_and_each_follow_any (obj : Protocol)
    (this q v f thisArg : value) (w : World) :
  (forall e w1,
     any E obj this q v w = (Normal (Rejected e), w1) ->
     map E obj this q v f thisArg w = (Normal (Rejected e), w1) /\
     each E obj this q v f thisArg w = (Normal (Rejected e), w1)) /\
  (forall data w1 w2,
     any E obj this q v w = (Normal (Resolved data), w1) ->
     arr_forEach E data f thisArg w1 = (Normal tt, w2) ->
     each E obj this q v f thisArg w = (Normal (Resolved data), w2)) /\
  (forall data w1 e w2,
     any E obj this q v w = (Normal (Resolved data), w1) ->
     arr_forEach E data f thisArg w1 = (Throw e, w2) ->
     each E obj this q v f thisArg w = (Normal (Rejected e), w2)).
Proof.
  split; [|split].
  - intros e w1 Hany. unfold map, each, mbind, M_bind. rewrite Hany.
    split; reflexivity.
  - intros data w1 w2 Hany Hvisit.
    unfold each, mbind, M_bind. rewrite Hany. cbn [then_].
    unfold mbind, M_bind. rewrite Hvisit. reflexivity.
  - intros data w1 e w2 Hany Hvisit.
    unfold each, mbind, M_bind. rewrite Hany. cbn [then_].
    unfold mbind, M_bind. rewrite Hvisit. reflexivity.
Qed.

(** ** More on [taskProcessor] *)

(** X10. What the task object and the task context carry when the callback
    is a function. The tag is the first argument when two arguments are
    given and the first is defined; otherwise it is the [tag] property of
    the callback when that is defined, otherwise the name of the callback
    when it has one, otherwise undefined. The task object is marked with
    the transaction flag; the context records the callback, and the
    calling object exactly when [this] is not the object the method
    belongs to. *)
Theorem task_tag_and_context (obj : Protocol) (this p1 p2 : value)
    (isTX : bool) (w : World) :
  is_function (callback_of p1 p2) = true ->
  exists tsk w1,
    taskProcessor E obj this p1 p2 isTX w =
      task_run E (nextId w) tsk isTX w1 /\
    task_ctx tsk !! "tag" =
      Some (if is_defined p2 && is_defined p1 then p1
            else match callback_of p1 p2 with
                 | VFunction name t _ =>
                     if is_defined t then t
                     else if bool_decide (name = "") then VUndefined
                     else VStr name
                 | _ => VUndefined
                 end) /\
    task_ctx tsk !! "isTX" = Some (VBool isTX) /\
    cb (ctx_at w1 (nextId w)) = callback_of p1 p2 /\
    context (ctx_at w1 (nextId w)) =
      (if same_object this obj then None else Some this).
Proof.
  intros Hfun.
  destruct (task_context_spec obj this p1 p2 isTX w)
    as (w0 & Hctx & Htr & Hnext & Hothers & Hclone).
  unfold taskProcessor, mbind, M_bind. rewrite Hctx.
  unfold task_body, mbind, M_bind, ctx_get. rewrite Hclone.
  cbn [cb]. rewrite Hfun. cbn [negb].
  unfold new_task, mbind, M_bind, mret, M_ret, fresh.
  rewrite extend_open, extended_shape by reflexivity.
  do 2 eexists. split; [reflexivity|].
  cbn [task_ctx with_lock with_members oid].
  split.
  { rewrite lookup_insert_ne by discriminate. rewrite lookup_singleton_eq.
    f_equal. unfold default_tag, callback_of.
    destruct p2, p1; reflexivity. }
  split. { by rewrite lookup_insert_eq. }
  change (ctx_at (log _ _).2 (nextId w)) with (ctx_at w0 (nextId w)).
  rewrite Hclone. split; reflexivity.
Qed.

Lemma task_run_others (taskCtx : nat) (tsk : Protocol) (isTX : bool)
    (w : World) (r : nat) :
  r ≠ taskCtx ->
  (forall t w', ctx_at (task_exec E taskCtx t isTX w').2 r = ctx_at w' r) ->
  ctx_at (task_run E taskCtx tsk isTX w).2 r = ctx_at w r.
Proof.
  intros Hne Hframe.
  destruct (db (ctx_at w taskCtx)) as [d|] eqn:Hdb.
  - rewrite (task_run_bound E _ _ _ _ d Hdb). apply Hframe.
  - destruct (acquire E Pool taskCtx (log (EvAcquire Pool taskCtx) w).2)
      as [d|e] eqn:Hacq.
    + rewrite (task_run_acquired E _ _ _ _ d Hdb Hacq). cbn [snd].
      rewrite (ctx_at_heap _ _ r (heap_disconnect_ne taskCtx r _ (not_eq_sym Hne))).
      rewrite Hframe.
      apply ctx_at_heap. by rewrite heap_connect_ne.
    + rewrite (task_run_refused E _ _ _ _ e Hdb Hacq). reflexivity.
Qed.

(** X11. A task or transaction writes no context but its own clone: for
    every other context that the task runner leaves as it is, the whole
    invocation leaves it as it is, with its connection, its nesting level,
    its callback and its calling object. In particular the invocation
    never binds or unbinds the context of its caller. *)
Theorem task_leaves_other_contexts_alone (obj : Protocol)
    (this p1 p2 : value) (isTX : bool) (w : World) (r : nat) :
  r ≠ nextId w ->
  (forall t w', ctx_at (task_exec E (nextId w) t isTX w').2 r = ctx_at w' r) ->
  ctx_at (taskProcessor E obj this p1 p2 isTX w).2 r = ctx_at w r.
Proof.
  intros Hne Hframe.
  destruct (task_context_spec obj this p1 p2 isTX w)
    as (w0 & Hctx & Htr & Hnext & Hothers & Hclone).
  destruct (is_function (callback_of p1 p2)) eqn:Hfun.
  - destruct (taskProcessor_valid E obj this p1 p2 isTX w Hfun)
      as (tsk & w0' & w1 & Hctx' & Hrun & _ & _ & _ & _ & Hheap).
    rewrite Hctx in Hctx'. injection Hctx' as <-.
    rewrite Hrun, (task_run_others _ _ _ _ _ Hne Hframe).
    apply ctx_at_heap. rewrite Hheap. by apply Hothers.
  - destruct (taskProcessor_invalid E obj this p1 p2 isTX w Hfun)
      as (w0' & Hctx' & Hrej).
    rewrite Hctx in Hctx'. injection Hctx' as <-.
    rewrite Hrej. apply ctx_at_heap. by apply Hothers.
Qed.

(** X12. When the pool refuses the connection a task or transaction needs,
    the returned promise rejects with the pool's error. The trace gains
    the extension event of the task object and the request, and nothing
    else: nothing is run on the task context, nothing is released, and
    the clone holds no connection. *)
Theorem task_rejects_when_pool_fails (obj : Protocol) (this p1 p2 : value)
    (isTX : bool) (w : World) (e : value) :
  db (ctx_at w (octx obj)) = None ->
  is_function (callback_of p1 p2) = true ->
  (forall w', acquire E Pool (nextId w) w' = Rejected e) ->
  exists tsk w',
    taskProcessor E obj this p1 p2 isTX w = (Normal (Rejected e), w') /\
    trace w' = trace w ++ [EvExtend (oid tsk); EvAcquire Pool (nextId w)] /\
    db (ctx_at w' (nextId w)) = None /\
    (forall r, r ≠ nextId w -> heap w' !! r = heap w !! r).
Proof.
  intros Hdb Hfun Hacq.
  destruct (task_context_spec obj this p1 p2 isTX w)
    as (w0 & Hctx & Htr & Hnext & Hothers & Hclone).
  destruct (taskProcessor_valid E obj this p1 p2 isTX w Hfun)
    as (tsk & w0' & w1 & Hctx' & Hrun & _ & _ & _ & Htr1 & Hheap).
  rewrite Hctx in Hctx'. injection Hctx' as <-.
  assert (Hdb1 : db (ctx_at w1 (nextId w)) = None).
  { rewrite (ctx_at_heap w0 w1) by (by rewrite Hheap).
    rewrite Hclone. exact Hdb. }
  exists tsk, (log (EvAcquire Pool (nextId w)) w1).2.
  split.
  { rewrite Hrun. apply task_run_refused; [exact Hdb1|apply Hacq]. }
  split. { cbn. rewrite Htr1, <- app_assoc. reflexivity. }
  split; [exact Hdb1|].
  intros r Hr. cbn [log snd heap]. rewrite Hheap. by apply Hothers.
Qed.

(** ** Module state over several [Database] objects *)

Lemma listeners_app (b : bool) (t t' : list Event) :
  listeners b (t ++ t') = (listeners b t + listeners b t')%nat.
Proof. unfold listeners. by rewrite List.filter_app, length_app. Qed.

Lemma registered_insert (k k' : string) (w w' : World) :
  dbObjects w' = <[k := true]> (dbObjects w) ->
  registered k' w' = registered k' w || bool_decide (k' = k).
Proof.
  intros Hdb. unfold registered. rewrite Hdb.
  destruct (decide (k' = k)) as [->|Hne].
  - rewrite lookup_insert_eq, (bool_decide_eq_true_2 (k = k)) by done.
    rewrite orb_true_r. by apply bool_decide_eq_true_2.
  - rewrite lookup_insert_ne by done.
    rewrite (bool_decide_eq_false_2 (k' = k)) by done.
    by rewrite orb_false_r.
Qed.

(** Everything the construction of a [Database] object does to the
    module-level state and to the trace. *)
Lemma Database_effects (cn0 dc0 : value) (config : Config) (w : World) :
  let cnKey := JSON_stringify E cn0 in
  let warned :=
    registered cnKey w && negb (noWarnings (cfg_options config)) in
  let native := pgNative (cfg_options config) in
  let installs :=
    if native then negb (nativeHandled w) else negb (jsHandled w) in
  exists (o : Protocol) (w' : World),
    Database E cn0 dc0 config w = (Normal o, w') /\
    trace w' =
      trace w ++ (if warned then [EvWarn cnKey] else []) ++
      (if installs then [EvOnError native] else []) ++ [EvExtend (oid o)] /\
    dbObjects w' =
      (if registered cnKey w then dbObjects w
       else <[cnKey := true]> (dbObjects w)) /\
    jsHandled w' = jsHandled w || negb native /\
    nativeHandled w' = nativeHandled w || native.
Proof.
  intros cnKey warned native installs.
  destruct (checkForDuplicates_run E cn0 config w)
    as (w' & Hc & Hheap & Htr & Hreg & Hin).
  fold cnKey in Htr, Hreg, Hin. fold warned in Htr.
  assert (Hjs : jsHandled w' = jsHandled w /\ nativeHandled w' = nativeHandled w).
  { unfold checkForDuplicates, mbind, M_bind, get_world in Hc.
    fold cnKey in Hc.
    destruct (registered cnKey w);
      [destruct (negb (noWarnings (cfg_options config)))|];
      injection Hc as <-; split; reflexivity. }
  destruct Hjs as [Hjs Hnat].
  unfold Database, mbind, M_bind. rewrite Hc.
  unfold setErrorHandler, ctx_new, mbind, M_bind, mret, M_ret, get_world,
    fresh, ctx_put, set_handled.
  subst installs native. rewrite ?Hjs, ?Hnat.
  destruct (pgNative (cfg_options config)).
  - destruct (nativeHandled w); cbn [negb log];
      rewrite extend_open, extended_shape by reflexivity;
      (do 2 eexists; split; [reflexivity|]);
      cbn [trace dbObjects jsHandled nativeHandled log snd oid with_lock
           with_members];
      rewrite ?Hjs, ?Hnat, Htr, Hreg, ?orb_true_r, ?orb_false_r,
        <- ?app_assoc;
      repeat split; reflexivity.
  - destruct (jsHandled w); cbn [negb log];
      rewrite extend_open, extended_shape by reflexivity;
      (do 2 eexists; split; [reflexivity|]);
      cbn [trace dbObjects jsHandled nativeHandled log snd oid with_lock
           with_members];
      rewrite ?Hjs, ?Hnat, Htr, Hreg, ?orb_true_r, ?orb_false_r,
        <- ?app_assoc;
      repeat split; reflexivity.
Qed.

(** X13. The error listener is installed once per driver mode, however
    many [Database] objects are made and in whatever order of modes:
    starting in a state where the two flags agree with the trace (as in a
    fresh process), a run of creations leaves them in agreement, and the
    listener of a mode has been installed exactly once if the flag was set
    before or some creation of the run is in that mode, and not at all
    otherwise. *)
Theorem error_listener_installed_once_per_mode
    (l : list (value * value * Config)) (w : World) :
  handlers_consistent w ->
  exists w',
    create_each E l w = (Normal tt, w') /\
    handlers_consistent w' /\
    listeners false (trace w') =
      (if jsHandled w ||
          existsb (fun c => negb (pgNative (cfg_options c.2))) l
       then 1 else 0)%nat /\
    listeners true (trace w') =
      (if nativeHandled w || existsb (fun c => pgNative (cfg_options c.2)) l
       then 1 else 0)%nat.
Proof.
  revert w. induction l as [|[[cn0 dc0] config] l IH]; intros w Hcons.
  - exists w. split; [reflexivity|]. split; [exact Hcons|].
    cbn [existsb]. rewrite !orb_false_r. exact Hcons.
  - destruct (Database_effects cn0 dc0 config w)
      as (o & w1 & Hdb & Htr & _ & Hjs & Hnat).
    cbn zeta in Htr.
    assert (Hcons1 : handlers_consistent w1).
    { destruct Hcons as [Hc1 Hc2]. unfold handlers_consistent.
      rewrite Htr, !listeners_app, Hjs, Hnat, Hc1, Hc2.
      destruct (registered (JSON_stringify E cn0) w &&
                negb (noWarnings (cfg_options config)));
        destruct (pgNative (cfg_options config)), (jsHandled w),
          (nativeHandled w); split; reflexivity. }
    destruct (IH w1 Hcons1) as (w' & Hrest & Hcons' & Hfalse & Htrue).
    exists w'. split; [|split; [exact Hcons'|]].
    + cbn [create_each]. unfold mbind, M_bind. rewrite Hdb. exact Hrest.
    + rewrite Hfalse, Htrue, Hjs, Hnat. cbn [existsb snd].
      rewrite <- !orb_assoc. split; reflexivity.
Qed.

Lemma warnings_filter_app (t t' : list Event) :
  List.filter is_warning (t ++ t') =
  List.filter is_warning t ++ List.filter is_warning t'.
Proof. apply List.filter_app. Qed.

(** X14. Handles for pairwise distinct connection targets draw no warning:
    when none of the keys of a run of creations is registered and no two
    of them are equal, the run logs no warning at all, with or without
    [noWarnings], and registers every one of its keys. The registry only
    grows: a key that was registered stays registered. *)
Theorem distinct_targets_never_warn (l : list (value * value * Config))
    (w : World) :
  let key (c : value * value * Config) := JSON_stringify E c.1.1 in
  (forall c, c ∈ l -> registered (key c) w = false) ->
  NoDup (key <$> l) ->
  exists w',
    create_each E l w = (Normal tt, w') /\
    List.filter is_warning (trace w') = List.filter is_warning (trace w) /\
    (forall c, c ∈ l -> registered (key c) w' = true) /\
    (forall k, registered k w = true -> registered k w' = true).
Proof.
  intros key. revert w.
  induction l as [|[[cn0 dc0] config] l IH]; intros w Hnew Hnodup.
  - exists w. split; [reflexivity|]. split; [reflexivity|].
    split; [|auto]. intros c Hc. by apply elem_of_nil in Hc.
  - destruct (Database_effects cn0 dc0 config w)
      as (o & w1 & Hdb & Htr & Hreg & _ & _).
    cbn zeta in Htr, Hreg.
    assert (Hkey : registered (JSON_stringify E cn0) w = false).
    { apply (Hnew (cn0, dc0, config)). apply elem_of_cons. by left. }
    rewrite Hkey in Htr, Hreg. cbn [andb] in Htr.
    cbn [fmap list_fmap] in Hnodup. apply NoDup_cons in Hnodup as [Hnotin Hnodup].
    assert (Hreg1 : forall k,
      registered k w1 =
      registered k w || bool_decide (k = JSON_stringify E cn0)).
    { intros k. by apply registered_insert. }
    assert (Hnew1 : forall c, c ∈ l -> registered (key c) w1 = false).
    { intros c Hc. rewrite Hreg1.
      rewrite (Hnew c) by (apply elem_of_cons; by right).
      cbn [orb]. apply bool_decide_eq_false_2. intros Heq.
      apply Hnotin. change (key (cn0, dc0, config)) with (JSON_stringify E cn0).
      rewrite <- Heq. by apply list_elem_of_fmap_2. }
    destruct (IH w1 Hnew1 Hnodup) as (w' & Hrest & Hwarn & Hall & Hmono).
    exists w'. split; [|split; [|split]].
    + cbn [create_each]. unfold mbind, M_bind. rewrite Hdb. exact Hrest.
    + rewrite Hwarn, Htr, !warnings_filter_app.
      destruct (if pgNative (cfg_options config)
                then negb (nativeHandled w) else negb (jsHandled w));
        cbn; by rewrite app_nil_r.
    + intros c Hc. apply elem_of_cons in Hc as [-> | Hc]; [|by apply Hall].
      apply Hmono. rewrite Hreg1.
      change (key (cn0, dc0, config)) with (JSON_stringify E cn0).
      rewrite bool_decide_eq_true_2 by done. by rewrite orb_true_r.
    + intros k Hk. apply Hmono. rewrite Hreg1, Hk. reflexivity.
Qed.

Lemma not_a_root_method (k : string) :
  k = "connect" \/ k = "query" \/ k = "$config" -> k ∉ method_names.
Proof.
  unfold method_names. intros Hk Hin.
  repeat (apply elem_of_cons in Hin as [-> | Hin];
          [destruct Hk as [Hk | [Hk | Hk]]; discriminate Hk|]).
  by apply elem_of_nil in Hin.
Qed.

Lemma checkForDuplicates_next (cn0 : value) (config : Config) (w : World) :
  nextId (checkForDuplicates E cn0 config w).2 = nextId w.
Proof.
  unfold checkForDuplicates, mbind, M_bind, get_world.
  destruct (registered (JSON_stringify E cn0) w);
    [destruct (negb (noWarnings (cfg_options config)))|]; reflexivity.
Qed.

Lemma setErrorHandler_run (config : Config) (w : World) :
  exists w',
    setErrorHandler config w = (Normal tt, w') /\
    heap w' = heap w /\ nextId w' = nextId w /\
    acquisitions (trace w') = acquisitions (trace w).
Proof.
  unfold setErrorHandler, mbind, M_bind, get_world.
  destruct (pgNative (cfg_options config));
    [destruct (nativeHandled w)|destruct (jsHandled w)]; cbn [negb];
    eexists; (split; [reflexivity|]); repeat split;
    cbn [log snd trace]; rewrite ?acquisitions_app;
    unfold acquisitions; cbn; lia.
Qed.

(** X15. Making a [Database] object connects to nothing. The constructor
    always completes and returns a frozen root object with [connect],
    [query], [$config] and the fourteen methods; the context it makes
    records the connection details, the database context and the options,
    and holds no connection, no nesting level and no callback. No request
    goes to the pool or the driver, and no context that was there is
    written. *)
Theorem database_object_is_frozen_and_unconnected (cn0 dc0 : value)
    (config : Config) (w : World) :
  exists o w',
    Database E cn0 dc0 config w = (Normal o, w') /\
    okind o = KRoot /\
    lock_state o = Frozen /\
    ctx_at w' (octx o) =
      {| cn := cn0; dc := dc0; options := cfg_options config; db := None;
         txLevel := None; context := None; cb := VUndefined |} /\
    members o !! "connect" = Some (MFunction "connect") /\
    members o !! "query" = Some (MFunction "query") /\
    members o !! "$config" = Some (MConfig config) /\
    (forall n, n ∈ method_names -> members o !! n = Some (MFunction n)) /\
    (forall kv, try_assign o kv = o) /\
    acquisitions (trace w') = acquisitions (trace w) /\
    (forall r, r ≠ octx o -> heap w' !! r = heap w !! r).
Proof.
  destruct (checkForDuplicates_run E cn0 config w)
    as (w1 & Hc & Hheap1 & Htr1 & _).
  pose proof (checkForDuplicates_next cn0 config w) as Hnext1.
  rewrite Hc in Hnext1. cbn [snd] in Hnext1.
  destruct (setErrorHandler_run config w1)
    as (w2 & Hs & Hheap2 & Hnext2 & Hacq2).
  unfold Database, mbind, M_bind. rewrite Hc, Hs.
  unfold ctx_new, mbind, M_bind, mret, M_ret, fresh, ctx_put.
  rewrite extend_open, extended_shape by reflexivity.
  do 2 eexists. split; [reflexivity|].
  cbn [okind lock_state octx members with_lock with_members].
  split; [reflexivity|]. split; [reflexivity|].
  split. { unfold ctx_at. cbn [log snd heap]. by rewrite lookup_insert_eq. }
  split.
  { apply extended_keeps; [apply not_a_root_method; auto|]. cbn [members].
    rewrite !lookup_insert_ne by discriminate. apply lookup_singleton_eq. }
  split.
  { apply extended_keeps; [apply not_a_root_method; auto|]. cbn [members].
    rewrite lookup_insert_ne by discriminate. apply lookup_insert_eq. }
  split.
  { apply extended_keeps; [apply not_a_root_method; auto|]. cbn [members].
    apply lookup_insert_eq. }
  split; [intros n Hn; by apply extended_method|].
  split; [intros kv; reflexivity|].
  split.
  { cbn [log snd trace]. rewrite acquisitions_app, Hacq2, Htr1.
    rewrite acquisitions_app.
    destruct (registered _ _ && _); unfold acquisitions at 2 3; cbn; lia. }
  intros r Hr. cbn [log snd heap].
  rewrite lookup_insert_ne by (intros <-; apply Hr; reflexivity).
  by rewrite Hheap2, Hheap1.
Qed.

End MoreProperties.

(** ** Transactions inside transactions *)

Section Nesting.

Context (E : Collaborators) (f : value).

Lemma entered_level_match (lvl : option Z) :
  match lvl with
  | Some l => if 0 <=? l then l + 1 else 0
  | None => 0
  end = entered_level lvl.
Proof.
  unfold entered_level. destruct lvl as [l|]; [|reflexivity].
  destruct (Z.leb_spec 0 l), (Z.ltb_spec l 0); lia || reflexivity.
Qed.

(** The start of a transaction for any collaborators [E']: the clone, its
    level, and the task object, with the addresses they get. *)
Lemma tx_start (E' : Collaborators) (obj : Protocol) (this : value)
    (w : World) :
  is_function f = true ->
  exists tsk w1,
    tx E' obj this f VUndefined w = task_run E' (nextId w) tsk true w1 /\
    okind tsk = KTask /\
    octx tsk = nextId w /\
    trace w1 = trace w ++ [EvExtend (oid tsk)] /\
    nextId w1 = S (S (nextId w)) /\
    (forall r, r ≠ nextId w -> heap w1 !! r = heap w !! r) /\
    db (ctx_at w1 (nextId w)) = db (ctx_at w (octx obj)) /\
    txLevel (ctx_at w1 (nextId w)) =
      Some (entered_level (txLevel (ctx_at w (octx obj)))) /\
    cb (ctx_at w1 (nextId w)) = f.
Proof.
  intros Hfun.
  destruct (task_context_spec obj this f VUndefined true w)
    as (w0 & Hctx & Htr & Hnext & Hothers & Hclone).
  unfold tx, taskProcessor, mbind, M_bind. rewrite Hctx.
  unfold task_body, mbind, M_bind, ctx_get. rewrite Hclone.
  cbn [cb callback_of is_defined]. rewrite Hfun. cbn [negb].
  unfold new_task, mbind, M_bind, mret, M_ret, fresh.
  rewrite extend_open, extended_shape by reflexivity.
  do 2 eexists. split; [reflexivity|].
  cbn [okind octx with_lock with_members oid log snd trace nextId heap].
  split; [reflexivity|].
  split; [reflexivity|]. split; [by rewrite Htr|].
  split; [by rewrite Hnext|]. split; [exact Hothers|].
  change (ctx_at _ (nextId w)) with (ctx_at w0 (nextId w)).
  rewrite Hclone. cbn [db txLevel cb]. rewrite entered_level_match.
  repeat split.
Qed.

(** *** Runs that work through one client *)

Lemma quiet_ret {A : Type} (c : nat) (a : A) (w : World) :
  quiet_run c (mret a) w.
Proof.
  split; [|split]; cbn; [|done|lia].
  exists []. by rewrite app_nil_r.
Qed.

Lemma quiet_bind {A B : Type} (c : nat) (m : M A) (k : A -> M B) (w : World) :
  quiet_run c m w ->
  (forall a w1, m w = (Normal a, w1) -> quiet_run c (k a) w1) ->
  quiet_run c (m ≫= k) w.
Proof.
  unfold quiet_run, mbind, M_bind.
  destruct (m w) as [[a|e] w1] eqn:Hm; cbn [snd]; [|by intros H _].
  intros ((evs & Htr & Hevs) & Hheap & Hnext) Hk.
  destruct (Hk a w1 eq_refl) as ((evs' & Htr' & Hevs') & Hheap' & Hnext').
  split; [|split].
  - exists (evs ++ evs'). split; [by rewrite Htr', Htr, app_assoc|].
    by apply Forall_app.
  - intros r Hr. rewrite Hheap' by lia. by apply Hheap.
  - lia.
Qed.

Lemma quiet_then {A B : Type} (c : nat) (p : Promise A)
    (h : A -> M (Promise B)) (w : World) :
  (forall a, p = Resolved a -> quiet_run c (h a) w) ->
  quiet_run c (then_ p h) w.
Proof.
  intros Hh. destruct p as [a|e].
  - specialize (Hh a eq_refl). unfold quiet_run, then_ in *.
    by destruct (h a w).
  - exact (quiet_ret c (Rejected e) w).
Qed.

(** What is there before a quiet run is as it was after it. *)
Lemma quiet_keeps {A : Type} (c : nat) (m : M A) (w : World) (r : nat) :
  quiet_run c m w -> (r < nextId w)%nat ->
  ctx_at (m w).2 r = ctx_at w r /\ (r < nextId (m w).2)%nat.
Proof.
  intros (_ & Hheap & Hnext) Hr. split; [|lia].
  apply ctx_at_heap. by apply Hheap.
Qed.

Lemma quiet_counts (c : nat) (evs : list Event) :
  Forall (fun ev => on_client c ev = true) evs ->
  acquisitions evs = 0%nat /\ forall k, releases_of k evs = 0%nat.
Proof.
  unfold acquisitions, releases_of.
  induction 1 as [|ev evs Hev _ [IH1 IH2]]; [done|].
  destruct ev; try discriminate Hev; cbn; auto.
Qed.

(** A control statement on the connection a task holds is one request:
    it settles, and it is a quiet run. *)
Lemma control_quiet (taskCtx : nat) (tsk : Protocol) (k : Control)
    (w : World) (d : Db) :
  okind tsk = KTask -> octx tsk = taskCtx ->
  db (ctx_at w taskCtx) = Some d ->
  quiet_run (client d) (control E taskCtx tsk k) w.
Proof.
  intros Hkind Hoctx Hdb.
  unfold quiet_run, control, mbind, M_bind, ctx_get.
  destruct (control_statement k (txLevel (ctx_at w taskCtx))) as [q v].
  unfold none, obj_query. rewrite Hkind.
  unfold task_query, mbind, M_bind, ctx_get. rewrite Hoctx, Hdb.
  pose proof (npm_query_bound E (VObject (oid tsk)) taskCtx q v
                (QrmMask result_none) w d Hdb) as Hq.
  destruct (refusal E (options (ctx_at w taskCtx)) q v (QrmMask result_none)).
  - rewrite Hq. exact (quiet_ret (client d) tt w).
  - destruct Hq as (p & -> & _). cbn [snd log trace heap nextId].
    split; [|split]; [|done|lia].
    exists [EvDriver (client d) q v]. split; [reflexivity|].
    constructor; [|constructor]. cbn. apply Nat.eqb_refl.
Qed.

Lemma run_callback_quiet (c : nat) (body : Protocol -> M (Promise value))
    (tsk : Protocol) (w : World) :
  quiet_run c (body tsk) w -> quiet_run c (run_callback body tsk) w.
Proof. unfold quiet_run, run_callback. by destruct (body tsk w). Qed.

(** The task runner on a task object whose context holds [d]: a quiet
    run, whatever the driver answers to the control statements, when the
    callback is one on that connection. *)
Lemma task_runner_quiet (body : Protocol -> M (Promise value))
    (taskCtx : nat) (tsk : Protocol) (isTX : bool) (w : World) (d : Db) :
  okind tsk = KTask -> octx tsk = taskCtx ->
  (taskCtx < nextId w)%nat ->
  db (ctx_at w taskCtx) = Some d ->
  (forall w1, db (ctx_at w1 taskCtx) = Some d ->
              quiet_run (client d) (body tsk) w1) ->
  quiet_run (client d) (task_runner E body taskCtx tsk isTX) w.
Proof.
  intros Hkind Hoctx Hlt Hdb Hbody. unfold task_runner.
  destruct isTX; [|by apply run_callback_quiet, Hbody].
  assert (Hbegin := control_quiet taskCtx tsk Begin w d Hkind Hoctx Hdb).
  apply quiet_bind; [exact Hbegin|]. intros b w1 Hb.
  destruct (quiet_keeps _ _ w taskCtx Hbegin Hlt) as [Hctx1 Hlt1].
  rewrite Hb in Hctx1, Hlt1. cbn [snd] in Hctx1, Hlt1.
  assert (Hdb1 : db (ctx_at w1 taskCtx) = Some d) by (by rewrite Hctx1).
  apply quiet_then. intros _ _.
  assert (Hcall := run_callback_quiet _ body tsk w1 (Hbody w1 Hdb1)).
  apply quiet_bind; [exact Hcall|]. intros r w2 Hr.
  destruct (quiet_keeps _ _ w1 taskCtx Hcall Hlt1) as [Hctx2 Hlt2].
  rewrite Hr in Hctx2, Hlt2. cbn [snd] in Hctx2, Hlt2.
  assert (Hdb2 : db (ctx_at w2 taskCtx) = Some d) by (by rewrite Hctx2).
  destruct r as [data|reason].
  - apply quiet_bind; [by apply control_quiet|]. intros c0 w3 _.
    apply quiet_then. intros _ _. apply quiet_ret.
  - apply quiet_bind; [by apply control_quiet|]. intros c0 w3 _.
    apply quiet_ret.
Qed.

(** A transaction on an object that holds [d] reuses it: with a task
    runner that is quiet on [d], the whole call is. *)
Lemma tx_bound_quiet (E' : Collaborators) (obj : Protocol) (this : value)
    (w : World) (d : Db) :
  is_function f = true ->
  db (ctx_at w (octx obj)) = Some d ->
  (forall taskCtx tsk w1,
     okind tsk = KTask -> octx tsk = taskCtx ->
     (taskCtx < nextId w1)%nat ->
     db (ctx_at w1 taskCtx) = Some d ->
     quiet_run (client d) (task_exec E' taskCtx tsk true) w1) ->
  quiet_run (client d) (tx E' obj this f VUndefined) w.
Proof.
  intros Hfun Hdb Hrunner.
  destruct (tx_start E' obj this w Hfun)
    as (tsk & w1 & Htx & Hkind & Hoctx & Htr & Hnext & Hothers & Hdb1 & _).
  rewrite Hdb in Hdb1.
  rewrite (task_run_bound E' _ _ _ _ d Hdb1) in Htx.
  set (tsk' := addReadProp_ctx tsk "isFresh" (VBool (isFresh d))) in *.
  destruct (Hrunner (nextId w) tsk' w1 Hkind Hoctx ltac:(lia) Hdb1)
    as ((evs & Htr' & Hevs) & Hheap & Hnext').
  unfold quiet_run. rewrite Htx.
  split; [|split].
  - exists (EvExtend (oid tsk) :: evs).
    split; [by rewrite Htr', Htr, <- app_assoc|]. by constructor.
  - intros r Hr. rewrite Hheap by lia. apply Hothers. lia.
  - lia.
Qed.

(** The nested callback is a quiet run on the connection of the task
    object it is given, to any depth. *)
Lemma nest_body_quiet (n : nat) (t : Protocol) (w : World) (d : Db) :
  is_function f = true ->
  works_on E f d ->
  db (ctx_at w (octx t)) = Some d ->
  quiet_run (client d) (nest_body E f n t) w.
Proof.
  intros Hfun Hworks. revert t w.
  induction n as [|n IH]; intros t w Hdb; cbn [nest_body].
  - apply quiet_bind; [by apply Hworks|]. intros v w1 _. apply quiet_ret.
  - apply tx_bound_quiet; [exact Hfun|exact Hdb|].
    intros taskCtx tsk w1 Hkind Hoctx Hlt Hdb1.
    cbn [task_exec with_runner].
    apply (task_runner_quiet _ taskCtx tsk true w1 d Hkind Hoctx Hlt Hdb1).
    intros w2 Hdb2. apply IH. by rewrite Hoctx.
Qed.

(** X16. Transactions nested to any depth run on one connection, whatever
    fails. A transaction started on an object without a connection, whose
    callback starts a transaction on its task object, and so on [n]
    levels deep, with a callback that at the innermost level works
    through the connection of the task object it is given, always
    settles. With the task runner
    as the specification describes it, and whatever the driver answers
    to [BEGIN], [COMMIT], [ROLLBACK] and the savepoint statements, the
    pool is asked exactly once, at the start; everything between that
    request and the end is an extension event or a statement over the
    connection [d] the pool handed out; and [d] is released exactly
    once, as the last thing that happens. No release of any other client
    is logged, the context of the outermost transaction ends without a
    connection, and no object that was there before is written. *)
Theorem nested_transactions_share_one_connection (n : nat) (obj : Protocol)
    (this : value) (w : World) (d : Db) :
  is_function f = true ->
  db (ctx_at w (octx obj)) = None ->
  (forall w', acquire E Pool (nextId w) w' = Resolved d) ->
  works_on E f d ->
  exists p w' tsk evs,
    tx (nesting E f n) obj this f VUndefined w = (Normal p, w') /\
    trace w' =
      trace w ++ [EvExtend (oid tsk); EvAcquire Pool (nextId w)] ++ evs ++
      [EvRelease (client d)] /\
    Forall (fun ev => on_client (client d) ev = true) evs /\
    acquisitions (trace w') = S (acquisitions (trace w)) /\
    (forall k,
       releases_of k (trace w') =
       (releases_of k (trace w) + if Nat.eqb k (client d) then 1 else 0)%nat) /\
    db (ctx_at w' (nextId w)) = None /\
    (forall r, (r < nextId w)%nat -> heap w' !! r = heap w !! r).
Proof.
  intros Hfun Hdb Hacq Hworks.
  destruct (tx_start (nesting E f n) obj this w Hfun)
    as (tsk & w1 & Htx & Hkind & Hoctx & Htr & Hnext & Hothers & Hdb1 & _).
  rewrite Hdb in Hdb1.
  set (ctx := nextId w) in *.
  set (w1' := (log (EvAcquire Pool ctx) w1).2).
  set (w2 := (ctx_connect ctx d w1').2).
  set (tsk_d := addReadProp_ctx tsk "isFresh" (VBool (isFresh d))).
  assert (Hacq' : acquire (nesting E f n) Pool ctx w1' = Resolved d)
    by apply Hacq.
  pose proof (task_run_acquired (nesting E f n) ctx tsk true w1 d Hdb1 Hacq')
    as Hrun.
  cbn zeta in Hrun. fold w1' w2 tsk_d in Hrun.
  assert (Hdb2 : db (ctx_at w2 ctx) = Some d).
  { replace (ctx_at w2 ctx) with (set_db (Some d) (ctx_at w1' ctx))
      by (symmetry; exact (ctx_connect_at ctx d w1')).
    reflexivity. }
  assert (Hnext2 : nextId w2 = S (S ctx)) by exact Hnext.
  assert (Hquiet : quiet_run (client d)
                     (task_exec (nesting E f n) ctx tsk_d true) w2).
  { cbn [task_exec nesting with_runner]. unfold nesting.
    cbn [task_exec with_runner].
    apply (task_runner_quiet _ ctx tsk_d true w2 d Hkind Hoctx);
      [lia|exact Hdb2|].
    intros w3 Hdb3. apply nest_body_quiet; [exact Hfun|exact Hworks|].
    cbn [tsk_d addReadProp_ctx with_task_ctx octx]. by rewrite Hoctx. }
  destruct (quiet_keeps _ _ w2 ctx Hquiet ltac:(lia)) as [Hctx3 _].
  destruct Hquiet as ((evs & Htr3 & Hevs) & Hheap3 & Hnext3).
  set (run := task_exec (nesting E f n) ctx tsk_d true w2) in *.
  assert (Hdb3 : db (ctx_at run.2 ctx) = Some d) by (by rewrite Hctx3).
  destruct (ctx_disconnect_bound ctx run.2 d Hdb3) as [Htr4 Hnone].
  assert (Htrace : trace (ctx_disconnect ctx run.2).2 =
            trace w ++ [EvExtend (oid tsk); EvAcquire Pool ctx] ++ evs ++
            [EvRelease (client d)]).
  { rewrite Htr4, Htr3.
    change (trace w2) with (trace w1 ++ [EvAcquire Pool ctx]).
    rewrite Htr, <- !app_assoc. reflexivity. }
  destruct (quiet_counts (client d) evs Hevs) as [Hacq0 Hrel0].
  exists (settle run.1), (ctx_disconnect ctx run.2).2, tsk, evs.
  split; [by rewrite Htx, Hrun|].
  split; [exact Htrace|]. split; [exact Hevs|].
  split.
  { rewrite Htrace, !acquisitions_app, Hacq0.
    unfold acquisitions at 2 3. cbn. lia. }
  split.
  { intros k. rewrite Htrace, !releases_of_app, Hrel0.
    unfold releases_of at 2 3. cbn.
    rewrite (Nat.eqb_sym (client d) k). destruct (Nat.eqb k (client d)); cbn; lia. }
  split; [exact Hnone|].
  intros r Hr. rewrite heap_disconnect_ne by lia.
  rewrite Hheap3 by lia. subst w2.
  rewrite heap_connect_ne by lia.
  change (heap w1') with (heap w1). apply Hothers. lia.
Qed.

End Nesting.

(** * The further properties on the sample runs *)


(** X2 on the sample run: [db.query(...)] while the server is down. *)
Lemma root_query_rejects_when_pool_fails_witness :
  (forall w', acquire Outage.env Pool (nextId Sample.root.2) w' =
                Rejected Outage.refusal) /\
  exists w',
    Database_query Outage.env Sample.root.1 (VObject (oid Sample.root.1))
      (VArray [VStr "x"]) VUndefined QrmDefault Sample.root.2 =
      (Normal (Rejected Outage.refusal), w') /\
    trace w' = trace Sample.root.2 ++ [EvAcquire Pool (nextId Sample.root.2)].
Proof.
  split; [intros w'; reflexivity|].
  destruct (root_query_rejects_when_pool_fails Outage.env Sample.root.1
              (VObject (oid Sample.root.1)) (VArray [VStr "x"]) VUndefined
              QrmDefault Sample.root.2 Outage.refusal (fun _ => eq_refl))
    as (w' & Hq & Htr & _).
  exists w'. split; [exact Hq|exact Htr].
Defined.

(** X3 on the sample run: [db.connect({direct: true})]. *)
Lemma connect_resolves_with_bound_handle_witness :
  (forall w', acquire Sample.env Direct (nextId Sample.root.2) w' =
                Resolved Sample.conn) /\
  exists h w',
    connect Sample.env Sample.root.1 (Some {| direct := true |})
      Sample.root.2 = (Normal (Resolved h), w') /\
    lock_state h = Frozen /\
    db (ctx_at w' (octx h)) = Some Sample.conn /\
    members h !! "one" = Some (MFunction "one") /\
    trace w' =
      trace Sample.root.2 ++
        [EvAcquire Direct (nextId Sample.root.2); EvExtend (oid h)].
Proof.
  split; [intros w'; reflexivity|].
  destruct (connect_resolves_with_bound_handle Sample.env Sample.root.1
              (Some {| direct := true |}) Sample.root.2 Sample.conn
              (fun _ => eq_refl))
    as (h & w' & Hc & _ & Hlock & Hdb & _ & _ & _ & Hmeth & Htr & _).
  exists h, w'. split; [exact Hc|]. split; [exact Hlock|].
  split; [exact Hdb|]. split; [|exact Htr].
  apply Hmeth. unfold method_names.
  apply elem_of_cons; right. apply elem_of_cons; left. reflexivity.
Defined.

(** X4 on the sample run: [db.connect()] while the server is down. *)
Lemma connect_rejects_when_acquisition_fails_witness :
  (forall w', acquire Outage.env Pool (nextId Sample.root.2) w' =
                Rejected Outage.refusal) /\
  exists w',
    connect Outage.env Sample.root.1 None Sample.root.2 =
      (Normal (Rejected Outage.refusal), w') /\
    trace w' = trace Sample.root.2 ++ [EvAcquire Pool (nextId Sample.root.2)].
Proof.
  split; [intros w'; reflexivity|].
  destruct (connect_rejects_when_acquisition_fails Outage.env Sample.root.1
              None Sample.root.2 Outage.refusal (fun _ => eq_refl))
    as (w' & Hc & Htr & _).
  exists w'. split; [exact Hc|exact Htr].
Defined.

(** X5 on the sample run: [sco.done()] on the connected handle. *)
Lemma done_releases_connection_once_witness :
  okind Sample.connected.1 = KHandle /\
  db (ctx_at Sample.connected.2 (octx Sample.connected.1)) =
    Some Sample.conn /\
  exists w',
    done Sample.connected.1 Sample.connected.2 = (Normal tt, w') /\
    trace w' = trace Sample.connected.2 ++ [EvRelease 7] /\
    exists e, done Sample.connected.1 w' = (Throw e, w').
Proof.
  assert (H1 : okind Sample.connected.1 = KHandle)
    by (vm_compute; reflexivity).
  assert (H2 : db (ctx_at Sample.connected.2 (octx Sample.connected.1)) =
               Some Sample.conn) by (vm_compute; reflexivity).
  split; [exact H1|]. split; [exact H2|].
  destruct (done_releases_connection_once Sample.connected.1
              Sample.connected.2 Sample.conn H1 H2)
    as (w' & Hd & Htr & _ & _ & _ & Hagain).
  exists w'. split; [exact Hd|]. split; [exact Htr|exact Hagain].
Defined.

(** X6 on the sample run: four queries on the connected handle. The
    empty query is refused before anything is sent, so three statements
    reach the driver, one of which it refuses. *)
Lemma handle_queries_share_the_connection_witness :
  okind Sample.connected.1 = KHandle /\
  db (ctx_at Sample.connected.2 (octx Sample.connected.1)) =
    Some Sample.conn /\
  exists w',
    query_all Sample.env Sample.connected.1
      (VObject (oid Sample.connected.1)) Fleet.queries Sample.connected.2 =
      (Normal tt, w') /\
    trace w' =
      trace Sample.connected.2 ++
        [EvDriver 7 (VArray [VStr "x"]) VUndefined;
         EvDriver 7 (VStr "select") VNull;
         EvDriver 7 (VArray []) VUndefined].
Proof.
  assert (H1 : okind Sample.connected.1 = KHandle)
    by (vm_compute; reflexivity).
  assert (H2 : db (ctx_at Sample.connected.2 (octx Sample.connected.1)) =
               Some Sample.conn) by (vm_compute; reflexivity).
  split; [exact H1|]. split; [exact H2|].
  destruct (handle_queries_share_the_connection Sample.env
              Sample.connected.1 (VObject (oid Sample.connected.1))
              Fleet.queries Sample.connected.2 Sample.conn H1 H2)
    as (w' & Hq & Htr & _).
  exists w'. split; [exact Hq|exact Htr].
Defined.

(** X7 on the sample run: [db.connect()], four queries on the handle,
    of which the empty one is refused before anything is sent and one is
    refused by the driver, and [sco.done()]. *)
Lemma session_uses_one_connection_witness :
  (forall w', acquire Sample.env Pool (nextId Sample.root.2) w' =
                Resolved Sample.conn) /\
  exists h w1 w2 w3,
    connect Sample.env Sample.root.1 None Sample.root.2 =
      (Normal (Resolved h), w1) /\
    query_all Sample.env h (VObject (oid h)) Fleet.queries w1 =
      (Normal tt, w2) /\
    done h w2 = (Normal tt, w3) /\
    trace w3 =
      trace Sample.root.2 ++
        [EvAcquire Pool (nextId Sample.root.2); EvExtend (oid h);
         EvDriver 7 (VArray [VStr "x"]) VUndefined;
         EvDriver 7 (VStr "select") VNull;
         EvDriver 7 (VArray []) VUndefined;
         EvRelease 7].
Proof.
  split; [intros w'; reflexivity|].
  destruct (session_uses_one_connection Sample.env Sample.root.1 None
              Fleet.queries Sample.root.2 Sample.conn (fun _ => eq_refl))
    as (h & w1 & w2 & w3 & Hc & Hq & Hd & Htr & _).
  exists h, w1, w2, w3. split; [exact Hc|]. split; [exact Hq|].
  split; [exact Hd|exact Htr].
Defined.

(** X8 on the sample run: [sco.one(q, v, 'not a function')]. *)
Lemma transform_only_sees_resolved_values_witness :
  is_function (VStr "not a function") = false /\
  one Sample.env Sample.connected.1 (VObject (oid Sample.connected.1))
    (VArray [VStr "row"]) VUndefined (VStr "not a function") VUndefined
    Sample.connected.2 =
    obj_query Sample.env Sample.connected.1
      (VObject (oid Sample.connected.1)) (VArray [VStr "row"]) VUndefined
      (QrmMask result_one) Sample.connected.2.
Proof.
  split; [reflexivity|].
  exact (proj1 (proj1 (transform_only_sees_resolved_values Sample.env
           Sample.connected.1 (VObject (oid Sample.connected.1))
           (VArray [VStr "row"]) VUndefined (VStr "not a function")
           VUndefined Sample.connected.2) eq_refl)).
Defined.

(** X9 on the sample run: [sco.map('select', null, cb)] and
    [sco.each('select', null, cb)] for a statement the driver refuses. *)
Lemma map_and_each_follow_any_witness :
  let this := VObject (oid Sample.connected.1) in
  let after :=
    (any Sample.env Sample.connected.1 this (VStr "select") VNull
       Sample.connected.2).2 in
  any Sample.env Sample.connected.1 this (VStr "select") VNull
    Sample.connected.2 =
    (Normal (Rejected (VError KError "syntax error")), after) /\
  map Sample.env Sample.connected.1 this (VStr "select") VNull
    (Sample.fn 0) VUndefined Sample.connected.2 =
    (Normal (Rejected (VError KError "syntax error")), after) /\
  each Sample.env Sample.connected.1 this (VStr "select") VNull
    (Sample.fn 0) VUndefined Sample.connected.2 =
    (Normal (Rejected (VError KError "syntax error")), after).
Proof.
  intros this after.
  assert (H : any Sample.env Sample.connected.1 this (VStr "select") VNull
                Sample.connected.2 =
              (Normal (Rejected (VError KError "syntax error")), after))
    by (vm_compute; reflexivity).
  split; [exact H|].
  exact (proj1 (map_and_each_follow_any Sample.env Sample.connected.1 this
                  (VStr "select") VNull (Sample.fn 0) VUndefined
                  Sample.connected.2) _ _ H).
Defined.

(** X10 on the sample run: [db.tx('tag', cb)] on the root object, called
    on the root object itself. *)
Lemma task_tag_and_context_witness :
  is_function (callback_of (VStr "tag") (Sample.fn 0)) = true /\
  exists tsk w1,
    taskProcessor Sample.env Sample.root.1 (VObject (oid Sample.root.1))
      (VStr "tag") (Sample.fn 0) true Sample.root.2 =
      task_run Sample.env (nextId Sample.root.2) tsk true w1 /\
    task_ctx tsk !! "tag" = Some (VStr "tag") /\
    task_ctx tsk !! "isTX" = Some (VBool true) /\
    cb (ctx_at w1 (nextId Sample.root.2)) = Sample.fn 0 /\
    context (ctx_at w1 (nextId Sample.root.2)) = None.
Proof.
  split; [reflexivity|].
  destruct (task_tag_and_context Sample.env Sample.root.1
              (VObject (oid Sample.root.1)) (VStr "tag") (Sample.fn 0) true
              Sample.root.2 eq_refl)
    as (tsk & w1 & Hrun & Htag & Htx & Hcb & Hctx).
  exists tsk, w1. split; [exact Hrun|]. split; [exact Htag|].
  split; [exact Htx|]. split; [exact Hcb|].
  rewrite Hctx. vm_compute. reflexivity.
Defined.

(** X11 on the sample run: a transaction started on the task object of a
    transaction leaves the context of that task as it was. *)
Lemma task_leaves_other_contexts_alone_witness :
  octx Sample.nested.1 ≠ nextId Sample.nested.2 /\
  ctx_at (taskProcessor Sample.env Sample.nested.1
            (VObject (oid Sample.nested.1)) (Sample.fn 1) VUndefined true
            Sample.nested.2).2 (octx Sample.nested.1) =
    ctx_at Sample.nested.2 (octx Sample.nested.1).
Proof.
  assert (H : octx Sample.nested.1 ≠ nextId Sample.nested.2)
    by (cbn; discriminate).
  split; [exact H|].
  apply (task_leaves_other_contexts_alone Sample.env Sample.nested.1
           (VObject (oid Sample.nested.1)) (Sample.fn 1) VUndefined true
           Sample.nested.2 (octx Sample.nested.1) H).
  intros t w'. cbn [task_exec Sample.env]. by rewrite runner_keeps_world.
Defined.

(** X12 on the sample run: [db.task(cb)] while the server is down. *)
Lemma task_rejects_when_pool_fails_witness :
  db (ctx_at Sample.root.2 (octx Sample.root.1)) = None /\
  is_function (callback_of (Sample.fn 0) VUndefined) = true /\
  (forall w', acquire Outage.env Pool (nextId Sample.root.2) w' =
                Rejected Outage.refusal) /\
  exists tsk w',
    taskProcessor Outage.env Sample.root.1 (VObject (oid Sample.root.1))
      (Sample.fn 0) VUndefined false Sample.root.2 =
      (Normal (Rejected Outage.refusal), w') /\
    trace w' =
      trace Sample.root.2 ++
        [EvExtend (oid tsk); EvAcquire Pool (nextId Sample.root.2)].
Proof.
  assert (H1 : db (ctx_at Sample.root.2 (octx Sample.root.1)) = None)
    by (vm_compute; reflexivity).
  split; [exact H1|]. split; [reflexivity|].
  split; [intros w'; reflexivity|].
  destruct (task_rejects_when_pool_fails Outage.env Sample.root.1
              (VObject (oid Sample.root.1)) (Sample.fn 0) VUndefined false
              Sample.root.2 Outage.refusal H1 eq_refl (fun _ => eq_refl))
    as (tsk & w' & Hrun & Htr & _).
  exists tsk, w'. split; [exact Hrun|exact Htr].
Defined.

(** X13 on the sample run: three [Database] objects in a fresh process,
    the second one with the native bindings. *)
Lemma error_listener_installed_once_per_mode_witness :
  handlers_consistent Sample.initial /\
  exists w',
    create_each Sample.env Fleet.targets Sample.initial = (Normal tt, w') /\
    listeners false (trace w') = 1%nat /\
    listeners true (trace w') = 1%nat.
Proof.
  assert (H : handlers_consistent Sample.initial) by (split; reflexivity).
  split; [exact H|].
  destruct (error_listener_installed_once_per_mode Sample.env Fleet.targets
              Sample.initial H)
    as (w' & Hrun & _ & Hjs & Hnat).
  exists w'. split; [exact Hrun|]. split; [exact Hjs|exact Hnat].
Defined.

(** X14 on the sample run: the same three objects draw no warning. *)
Lemma distinct_targets_never_warn_witness :
  (forall c, c ∈ Fleet.targets ->
     registered (Sample.stringify c.1.1) Sample.initial = false) /\
  NoDup ((fun c : value * value * Config => Sample.stringify c.1.1) <$>
           Fleet.targets) /\
  exists w',
    create_each Sample.env Fleet.targets Sample.initial = (Normal tt, w') /\
    List.filter is_warning (trace w') = [] /\
    registered "postgres://b/db" w' = true.
Proof.
  assert (H1 : forall c, c ∈ Fleet.targets ->
            registered (JSON_stringify Sample.env c.1.1) Sample.initial =
              false).
  { intros c _. unfold registered. apply bool_decide_eq_false_2.
    cbn [dbObjects Sample.initial]. rewrite lookup_empty.
    apply is_Some_None. }
  assert (H2 : NoDup ((fun c : value * value * Config =>
                         JSON_stringify Sample.env c.1.1) <$>
                        Fleet.targets)).
  { apply (bool_decide_unpack _). vm_compute. exact I. }
  split; [exact H1|]. split; [exact H2|].
  destruct (distinct_targets_never_warn Sample.env Fleet.targets
              Sample.initial H1 H2)
    as (w' & Hrun & Hwarn & Hreg & _).
  exists w'. split; [exact Hrun|]. split; [exact Hwarn|].
  apply (Hreg (VStr "postgres://b/db", VUndefined, Fleet.native)).
  apply elem_of_cons; right. apply elem_of_cons; left. reflexivity.
Defined.

(** X16 on the sample run: [db.tx(f)] on the root object, with a
    callback that nests two more transactions, on a server that takes the
    control statements. In both runs the pool is asked once and client 7
    is released once. With a callback that returns 42 in the innermost
    transaction, the promise resolves with 42 and the statements are the
    three entries followed by the three exits, innermost first; with one
    that throws there, the promise rejects with what it threw and every
    level is rolled back. *)
Lemma nested_transactions_share_one_connection_witness :
  is_function (Sample.fn 0) = true /\
  db (ctx_at Sample.root.2 (octx Sample.root.1)) = None /\
  (forall w', acquire Ledger.env Pool (nextId Sample.root.2) w' =
                Resolved Sample.conn) /\
  works_on Ledger.env (Sample.fn 0) Sample.conn /\
  works_on Ledger.env (Sample.fn 1) Sample.conn /\
  (exists p w',
     tx (nesting Ledger.env (Sample.fn 0) 2) Sample.root.1
       (VObject (oid Sample.root.1)) (Sample.fn 0) VUndefined Sample.root.2 =
       (Normal p, w') /\
     p = Resolved (VNum 42) /\
     acquisitions (trace w') = S (acquisitions (trace Sample.root.2)) /\
     releases_of 7 (trace w') =
       (releases_of 7 (trace Sample.root.2) + 1)%nat /\
     List.filter is_statement (trace w') =
       [EvDriver 7 (VStr "begin") VUndefined;
        EvDriver 7 (VStr "savepoint") (VNum 1);
        EvDriver 7 (VStr "savepoint") (VNum 2);
        EvDriver 7 (VStr "release savepoint") (VNum 2);
        EvDriver 7 (VStr "release savepoint") (VNum 1);
        EvDriver 7 (VStr "commit") VUndefined]) /\
  (exists p w',
     tx (nesting Ledger.env (Sample.fn 1) 2) Sample.root.1
       (VObject (oid Sample.root.1)) (Sample.fn 1) VUndefined Sample.root.2 =
       (Normal p, w') /\
     p = Rejected (VError KError "boom") /\
     acquisitions (trace w') = S (acquisitions (trace Sample.root.2)) /\
     releases_of 7 (trace w') =
       (releases_of 7 (trace Sample.root.2) + 1)%nat /\
     List.filter is_statement (trace w') =
       [EvDriver 7 (VStr "begin") VUndefined;
        EvDriver 7 (VStr "savepoint") (VNum 1);
        EvDriver 7 (VStr "savepoint") (VNum 2);
        EvDriver 7 (VStr "rollback to savepoint") (VNum 2);
        EvDriver 7 (VStr "rollback to savepoint") (VNum 1);
        EvDriver 7 (VStr "rollback") VUndefined]).
Proof.
  assert (H2 : forall code,
            (code < 2)%nat -> works_on Ledger.env (Sample.fn code) Sample.conn).
  { intros code Hcode t w _. split; [|split].
    - exists []. split; [|constructor]. rewrite app_nil_r.
      destruct code as [|[|code]]; [reflexivity|reflexivity|lia].
    - intros r _. destruct code as [|[|code]]; [reflexivity|reflexivity|lia].
    - destruct code as [|[|code]]; [reflexivity|reflexivity|lia]. }
  assert (H1 : db (ctx_at Sample.root.2 (octx Sample.root.1)) = None)
    by (vm_compute; reflexivity).
  split; [reflexivity|]. split; [exact H1|].
  split; [intros w'; reflexivity|].
  split; [apply H2; lia|]. split; [apply H2; lia|]. split.
  - destruct (nested_transactions_share_one_connection Ledger.env
                (Sample.fn 0) 2 Sample.root.1 (VObject (oid Sample.root.1))
                Sample.root.2 Sample.conn eq_refl H1 (fun _ => eq_refl)
                (H2 0%nat ltac:(lia)))
      as (p & w' & tsk & evs & Htx & _ & _ & Hacq & Hrel & _).
    exists p, w'. split; [exact Htx|].
    assert (Hrun : (tx (nesting Ledger.env (Sample.fn 0) 2) Sample.root.1
                      (VObject (oid Sample.root.1)) (Sample.fn 0) VUndefined
                      Sample.root.2).1 = Normal (Resolved (VNum 42)))
      by (vm_compute; reflexivity).
    assert (Hsent : List.filter is_statement
                      (trace (tx (nesting Ledger.env (Sample.fn 0) 2)
                                Sample.root.1 (VObject (oid Sample.root.1))
                                (Sample.fn 0) VUndefined Sample.root.2).2) =
                    [EvDriver 7 (VStr "begin") VUndefined;
                     EvDriver 7 (VStr "savepoint") (VNum 1);
                     EvDriver 7 (VStr "savepoint") (VNum 2);
                     EvDriver 7 (VStr "release savepoint") (VNum 2);
                     EvDriver 7 (VStr "release savepoint") (VNum 1);
                     EvDriver 7 (VStr "commit") VUndefined])
      by (vm_compute; reflexivity).
    rewrite Htx in Hrun, Hsent. cbn [fst snd] in Hrun, Hsent.
    split; [injection Hrun as Hp; exact Hp|]. split; [exact Hacq|].
    split; [exact (Hrel 7%nat)|exact Hsent].
  - destruct (nested_transactions_share_one_connection Ledger.env
                (Sample.fn 1) 2 Sample.root.1 (VObject (oid Sample.root.1))
                Sample.root.2 Sample.conn eq_refl H1 (fun _ => eq_refl)
                (H2 1%nat ltac:(lia)))
      as (p & w' & tsk & evs & Htx & _ & _ & Hacq & Hrel & _).
    exists p, w'. split; [exact Htx|].
    assert (Hrun : (tx (nesting Ledger.env (Sample.fn 1) 2) Sample.root.1
                      (VObject (oid Sample.root.1)) (Sample.fn 1) VUndefined
                      Sample.root.2).1 =
                   Normal (Rejected (VError KError "boom")))
      by (vm_compute; reflexivity).
    assert (Hsent : List.filter is_statement
                      (trace (tx (nesting Ledger.env (Sample.fn 1) 2)
                                Sample.root.1 (VObject (oid Sample.root.1))
                                (Sample.fn 1) VUndefined Sample.root.2).2) =
                    [EvDriver 7 (VStr "begin") VUndefined;
                     EvDriver 7 (VStr "savepoint") (VNum 1);
                     EvDriver 7 (VStr "savepoint") (VNum 2);
                     EvDriver 7 (VStr "rollback to savepoint") (VNum 2);
                     EvDriver 7 (VStr "rollback to savepoint") (VNum 1);
                     EvDriver 7 (VStr "rollback") VUndefined])
      by (vm_compute; reflexivity).
    rewrite Htx in Hrun, Hsent. cbn [fst snd] in Hrun, Hsent.
    split; [injection Hrun as Hp; exact Hp|]. split; [exact Hacq|].
    split; [exact (Hrel 7%nat)|exact Hsent].
Defined.
